(** * Chainsaw: collector command builders and the tests processor

    A shallow embedding of

    - [pkg/engine/kubectl/logs.go]    (function [Logs]),
    - [pkg/runner/kubectl/describe.go] (function [Describe]),
    - package [processors], the tests processor (method [testsProcessor.Run]),

    followed by the properties of these functions that the design document
    states.  Go values are modelled as follows: a Go [string] is a Rocq
    [string]; an [error] is its message; a pointer that the code tests
    against [nil] is an [option]; a slice is a [list]; [append] is [++]. *)

From Stdlib Require Import ZArith String List Bool Lia DecimalString.
From stdpp Require Import base list strings.
Import ListNotations.
Open Scope string_scope.
Open Scope list_scope.

(** ** Go results and the builders' call log *)

Module Go.

(** A Go [error] value, identified with the message [errors.New] was given. *)
Definition error := string.

(** The pair [(value, err)] a Go function returns: either the value with a
    [nil] error, or a non-[nil] error (the value is then the zero value and is
    ignored by every caller in the embedded code). *)
Inductive result (A : Type) : Type :=
| Ok (a : A)
| Err (e : error).
Arguments Ok {A} a.
Arguments Err {A} e.

Definition is_ok {A} (r : result A) : bool :=
  match r with Ok _ => true | Err _ => false end.

(** [fmt.Sprint] of an [int]: decimal digits, with a leading minus sign. *)
Definition Sprint_int (n : Z) : string := NilZero.string_of_int (Z.to_int n).

(** [fmt.Sprintf("%t", b)]. *)
Definition Sprint_bool (b : bool) : string := if b then "true" else "false".

End Go.
Export Go.

(** The collaborators a builder calls, in call order.  The builders have no
    other effect, so a run of a builder is its log together with its result. *)
Inductive call (Ref : Type) : Type :=
| ResolveString (template : string)
| MapResource (reference : Ref).
Arguments ResolveString {Ref} template.
Arguments MapResource {Ref} reference.

(** A builder run: the collaborator calls made so far, and the result.  This
    is a writer monad over the log with the early return on [err != nil]. *)
Definition Build (Ref A : Type) : Type := (list (call Ref) * result A)%type.

Definition ret {Ref A} (a : A) : Build Ref A := ([], Ok a).

Definition fail {Ref A} (e : error) : Build Ref A := ([], Err e).

Definition bind {Ref A B} (m : Build Ref A) (k : A -> Build Ref B) : Build Ref B :=
  match m with
  | (log, Ok a) => let '(log', r) := k a in (log ++ log', r)
  | (log, Err e) => (log, Err e)
  end.

Declare Scope build_scope.
Delimit Scope build_scope with build.
Notation "'let*' x := m 'in' k" := (bind m (fun x => k))
  (at level 10, x name, m at level 100, k at level 200) : build_scope.

Definition calls {Ref A} (m : Build Ref A) : list (call Ref) := fst m.
Definition outcome {Ref A} (m : Build Ref A) : result A := snd m.

(** ** [pkg/engine/kubectl]: the log collector builder *)

Module Engine_kubectl.

(** The fields of [v1alpha1.PodLogs] that [Logs] reads.  [Tail] is a [*int]. *)
Record PodLogs : Type := {
  Name : string;
  Namespace : string;
  Selector : string;
  Container : string;
  Tail : option Z
}.

Section Logs.

(** [binding.Bindings], and [apibindings.String], the template resolver;
    both live outside the embedded files. *)
Variable Bindings : Type.
Variable apibindings_String : string -> Bindings -> result string.

Definition String_ (tpl : string) (bindings : Bindings) : Build Empty_set string :=
  ([ResolveString tpl], apibindings_String tpl bindings).

(** [Logs] of logs.go.  The Go function returns [(entrypoint, args, err)];
    on the error paths the first two are zero values. *)
Definition Logs (bindings : Bindings) (collector : option PodLogs)
  : Build Empty_set (string * list string) :=
  match collector with
  | None => fail "collector is null"
  | Some collector =>
    (let* name := String_ (Name collector) bindings in
     let* namespace := String_ (Namespace collector) bindings in
     let* selector := String_ (Selector collector) bindings in
     let* container := String_ (Container collector) bindings in
     if String.eqb name "" && String.eqb selector "" then
       fail "a name or selector must be specified"
     else if negb (String.eqb name "") && negb (String.eqb selector "") then
       fail "name cannot be provided when a selector is specified"
     else
       let args := ["logs"; "--prefix"] in
       let args :=
         if negb (String.eqb name "") then args ++ [name]
         else if negb (String.eqb selector "") then args ++ ["-l"; selector]
         else args in
       let namespace := if String.eqb namespace "" then "$NAMESPACE" else namespace in
       let args := args ++ ["-n"; namespace] in
       let args :=
         if String.eqb container "" then args ++ ["--all-containers"]
         else args ++ ["-c"; container] in
       let args :=
         match Tail collector with
         | Some tail => args ++ ["--tail"; Sprint_int tail]
         | None => args
         end in
       ret ("kubectl", args))%build
  end.

End Logs.

End Engine_kubectl.

(** ** [pkg/runner/kubectl]: the describe collector builder *)

Module Runner_kubectl.

Section Describe.

(** Types declared outside the embedded files: [binding.Bindings],
    [client.Client], [v1alpha1.ResourceReference] and [metav1.Duration]. *)
Variables Bindings Client ResourceReference Duration : Type.

(** The fields of [v1alpha1.Describe] that [Describe] reads. *)
Record Describe_ : Type := {
  Name : string;
  Namespace : string;
  Selector : string;
  Cluster : string;
  Timeout : option Duration;
  Reference : ResourceReference;
  ShowEvents : option bool
}.

(** [v1alpha1.Command], with the fields [Describe] sets. *)
Record Command : Type := {
  cmdCluster : string;
  cmdTimeout : option Duration;
  Entrypoint : string;
  Args : list string
}.

(** [apitemplate.ConvertString] and [mapResource] (the latter is a function
    of the package whose file is not among the embedded ones; it returns the
    resource string and whether the resource is cluster scoped). *)
Variable apitemplate_ConvertString : string -> Bindings -> result string.
Variable mapResource_ :
  Client -> Bindings -> ResourceReference -> result (string * bool).

Definition ConvertString (tpl : string) (bindings : Bindings)
  : Build ResourceReference string :=
  ([ResolveString tpl], apitemplate_ConvertString tpl bindings).

Definition mapResource (client : Client) (bindings : Bindings)
  (reference : ResourceReference) : Build ResourceReference (string * bool) :=
  ([MapResource reference], mapResource_ client bindings reference).

(** [Describe] of describe.go. *)
Definition Describe (client : Client) (bindings : Bindings)
  (collector : option Describe_) : Build ResourceReference Command :=
  match collector with
  | None => fail "collector is null"
  | Some collector =>
    (let* name := ConvertString (Name collector) bindings in
     let* namespace := ConvertString (Namespace collector) bindings in
     let* selector := ConvertString (Selector collector) bindings in
     let* cluster := ConvertString (Cluster collector) bindings in
     if negb (String.eqb name "") && negb (String.eqb selector "") then
       fail "name cannot be provided when a selector is specified"
     else
       let* rc := mapResource client bindings (Reference collector) in
       let '(resource, clustered) := rc in
       let args := ["describe"; resource] in
       let args :=
         if negb (String.eqb name "") then args ++ [name]
         else if negb (String.eqb selector "") then args ++ ["-l"; selector]
         else args in
       let args :=
         if negb clustered then
           if String.eqb namespace "*" then args ++ ["--all-namespaces"]
           else
             let namespace :=
               if String.eqb namespace "" then "$NAMESPACE" else namespace in
             args ++ ["-n"; namespace]
         else args in
       let args :=
         match ShowEvents collector with
         | Some showEvents => args ++ [String.append "--show-events=" (Sprint_bool showEvents)]
         | None => args
         end in
       ret {| cmdCluster := cluster;
              cmdTimeout := Timeout collector;
              Entrypoint := "kubectl";
              Args := args |})%build
  end.

End Describe.

Arguments Name {ResourceReference Duration} _.
Arguments Namespace {ResourceReference Duration} _.
Arguments Selector {ResourceReference Duration} _.
Arguments Cluster {ResourceReference Duration} _.
Arguments Timeout {ResourceReference Duration} _.
Arguments Reference {ResourceReference Duration} _.
Arguments ShowEvents {ResourceReference Duration} _.
Arguments cmdCluster {Duration} _.
Arguments cmdTimeout {Duration} _.
Arguments Entrypoint {Duration} _.
Arguments Args {Duration} _.

End Runner_kubectl.

(** ** Package [processors]: the tests processor *)

Module Processors.

(** *** The data [Run] reads *)

Section Types.

(** [v1alpha1.Binding], [metav1.ObjectMeta] and the value of a namespace
    template are declared outside the embedded file. *)
Variables Binding ObjectMeta TemplateValue : Type.

(** [v1alpha1.Scenario]. *)
Record Scenario : Type := {
  Scenario_Bindings : list Binding
}.

(** [v1alpha1.TestSpec]: [Concurrent] and [Skip] are [*bool]. *)
Record TestSpec : Type := {
  Concurrent : option bool;
  Skip : option bool;
  Spec_Bindings : list Binding;
  Scenarios : list Scenario
}.

(** [v1alpha1.Test]. *)
Record Test_ : Type := {
  Test_ObjectMeta : ObjectMeta;
  Spec : TestSpec
}.

(** [discovery.Test]: [Test] is a [*v1alpha1.Test]. *)
Record discovery_Test : Type := {
  BasePath : string;
  Test : option Test_
}.

(** [TestInfo], the value of the [test] binding. *)
Record TestInfo : Type := {
  Id : nat;
  ScenarioId : nat;
  Metadata : ObjectMeta
}.

(** The fields of [model.Configuration] that [Run] reads.  The namespace
    template is a [*v1alpha1.Any] whose [Value] may itself be nil. *)
Record Configuration : Type := {
  Namespace_Name : string;
  Namespace_Template : option (option TemplateValue);
  Cleanup_SkipDelete : bool;
  Execution_FailFast : bool
}.

(** [testsProcessor].  Of the [summary] and [report] pointers only whether
    they are nil matters to [Run]; the counters of the summary live in the
    state of the run.  The cluster registry is among the collaborators. *)
Record testsProcessor : Type := {
  config : Configuration;
  summary : bool;
  report : bool;
  tests : list discovery_Test
}.

(** A value bound by [RegisterNamedBinding]. *)
Inductive any : Type :=
| AnyString (s : string)
| AnyTestInfo (info : TestInfo).

(** What a per-test processor leaves in the [testing.T] it ran in, the
    cleanups it registered there included: they run before those of [Run],
    which were registered first. *)
Record Outcome : Type := {
  outFailed : bool;
  outSkipped : bool
}.

(** The error of a cluster client call, as [errors.IsNotFound] sees it. *)
Inductive apiError : Type :=
| NotFound
| OtherError (msg : string).

Definition IsNotFound (err : apiError) : bool :=
  match err with NotFound => true | OtherError _ => false end.

End Types.

Arguments Scenario_Bindings {Binding} _.
Arguments Concurrent {Binding} _.
Arguments Skip {Binding} _.
Arguments Spec_Bindings {Binding} _.
Arguments Scenarios {Binding} _.
Arguments Test_ObjectMeta {Binding ObjectMeta} _.
Arguments Spec {Binding ObjectMeta} _.
Arguments BasePath {Binding ObjectMeta} _.
Arguments Test {Binding ObjectMeta} _.
Arguments Id {ObjectMeta} _.
Arguments ScenarioId {ObjectMeta} _.
Arguments Metadata {ObjectMeta} _.
Arguments Namespace_Name {TemplateValue} _.
Arguments Namespace_Template {TemplateValue} _.
Arguments Cleanup_SkipDelete {TemplateValue} _.
Arguments Execution_FailFast {TemplateValue} _.
Arguments config {Binding ObjectMeta TemplateValue} _.
Arguments summary {Binding ObjectMeta TemplateValue} _.
Arguments report {Binding ObjectMeta TemplateValue} _.
Arguments tests {Binding ObjectMeta TemplateValue} _.
Arguments AnyString {ObjectMeta} s.
Arguments AnyTestInfo {ObjectMeta} info.

(** *** The collaborators of [Run]

    The packages [Run] calls into and the types they exchange.  The cluster
    client is a function of the state of the cluster, of type [Cluster]:
    [Get] reads it and [Create] may change it. *)
Record Externals : Type := {
  Binding : Type;
  ObjectMeta : Type;
  TemplateValue : Type;
  ClusterConfig : Type;
  Client : Type;
  Cluster : Type;
  Object : Type;
  Bindings : Type;
  Namespacer : Type;
  (* binding.NewBindings, apibindings.Register... *)
  NewBindings : Bindings;
  RegisterClusterBindings : Bindings -> ClusterConfig -> option Client -> Bindings;
  RegisterNamedBinding : Bindings -> string -> any ObjectMeta -> Bindings;
  (* p.clusters.Resolve *)
  clusters_Resolve : bool -> result (ClusterConfig * option Client);
  (* kube.ToUnstructured(kube.Namespace(name)), object.GetName() *)
  kube_Namespace : string -> Object;
  GetName : Object -> string;
  mutate_Merge : Object -> Bindings -> TemplateValue -> result Object;
  namespacer_New : Client -> string -> Namespacer;
  client_Get : Client -> Cluster -> Object -> option apiError;
  client_Create : Client -> Cluster -> Object -> Cluster * option apiError;
  cleanup_Skip : bool -> option bool -> option bool -> bool;
  names_Test : Configuration TemplateValue -> discovery_Test Binding ObjectMeta
               -> result string;
  (* NewTestProcessor(...).Run(ctx, bindings, nspacer) *)
  processor_Run : discovery_Test Binding ObjectMeta -> Bindings
                  -> option Namespacer -> Outcome
}.

Section Run.

Variable E : Externals.

Abbreviation DTest := (discovery_Test (Binding E) (ObjectMeta E)).
Abbreviation Processor := (testsProcessor (Binding E) (ObjectMeta E) (TemplateValue E)).

(** *** Lines 66-127: cluster resolution and namespace provisioning *)

(** The closures [Run] hands to [t.Cleanup] of the enclosing test. *)
Inductive cleanupFn : Type :=
| ReportSetEndTime
| DeleteNamespace (object : Object E).

(** What [Run] does to the enclosing test and to the cluster, in order. *)
Inductive event : Type :=
| EvCleanup (f : cleanupFn)
| EvLog
| EvFailNow
| EvGet (object : Object E) (err : option apiError)
| EvCreate (object : Object E) (err : option apiError)
| EvRunCleanup (f : cleanupFn).

(** The state [Run] works on: the cluster, and of the enclosing
    [testing.T] whether it has failed and its registered cleanups, the last
    registered first. *)
Record World : Type := {
  cluster : Cluster E;
  failed : bool;
  cleanups : list cleanupFn;
  trace : list event
}.

Definition initial (c : Cluster E) : World :=
  {| cluster := c; failed := false; cleanups := []; trace := [] |}.

(** A computation of the goroutine of the enclosing test; [None] means the
    goroutine has exited ([t.FailNow] calls [runtime.Goexit]). *)
Definition Go (A : Type) : Type := World -> World * option A.

Definition go_ret {A} (a : A) : Go A := fun w => (w, Some a).

Definition go_bind {A B} (m : Go A) (k : A -> Go B) : Go B :=
  fun w =>
    match m w with
    | (w', Some a) => k a w'
    | (w', None) => (w', None)
    end.

Definition emit (e : event) (w : World) : World :=
  {| cluster := cluster w; failed := failed w; cleanups := cleanups w;
     trace := trace w ++ [e] |}.

(** [failer.FailNow(ctx)]: marks the enclosing test failed and exits. *)
Definition FailNow {A} : Go A :=
  fun w =>
    (emit EvFailNow {| cluster := cluster w; failed := true;
                       cleanups := cleanups w; trace := trace w |}, None).

(** [t.Cleanup(f)]. *)
Definition t_Cleanup (f : cleanupFn) : Go unit :=
  fun w =>
    (emit (EvCleanup f) {| cluster := cluster w; failed := failed w;
                           cleanups := f :: cleanups w; trace := trace w |},
     Some tt).

Definition logging_Log : Go unit := fun w => (emit EvLog w, Some tt).

(** [clusterClient.Get(ctx, client.ObjectKey(&object), object.DeepCopy())]. *)
Definition Get (client : Client E) (object : Object E) : Go (option apiError) :=
  fun w =>
    let err := client_Get E client (cluster w) object in
    (emit (EvGet object err) w, Some err).

(** [clusterClient.Create(ctx, object.DeepCopy())]. *)
Definition Create (client : Client E) (object : Object E) : Go (option apiError) :=
  fun w =>
    let '(c, err) := client_Create E client (cluster w) object in
    (emit (EvCreate object err)
       {| cluster := c; failed := failed w; cleanups := cleanups w;
          trace := trace w |},
     Some err).

Declare Scope go_scope.
Delimit Scope go_scope with go.
Notation "'let*' x := m 'in' k" := (go_bind m (fun x => k))
  (at level 10, x name, m at level 100, k at level 200) : go_scope.
Notation "m ;; k" := (go_bind m (fun _ => k))
  (at level 100, k at level 200, right associativity) : go_scope.

(** Lines 66-127 of [Run]: what precedes the loop over the tests.  Returns
    the bindings and the namespacer the instances will be given. *)
Definition Run_setup (p : Processor) (bindings : option (Bindings E))
  : Go (Bindings E * option (Namespacer E)) :=
  (let bindings :=
     match bindings with None => NewBindings E | Some bindings => bindings end in
   (if report p then t_Cleanup ReportSetEndTime else go_ret tt) ;;
   let* resolved :=
     match clusters_Resolve E false with
     | Err err => (logging_Log ;; FailNow)
     | Ok resolved => go_ret resolved
     end in
   let '(clusterConfig, clusterClient) := resolved in
   let bindings := RegisterClusterBindings E bindings clusterConfig clusterClient in
   match clusterClient with
   | None => go_ret (bindings, None)
   | Some client =>
     if negb (String.eqb (Namespace_Name (config p)) "") then
       let object := kube_Namespace E (Namespace_Name (config p)) in
       let bindings :=
         RegisterNamedBinding E bindings "namespace" (AnyString (GetName E object)) in
       let* merged :=
         match Namespace_Template (config p) with
         | Some (Some value) =>
           match mutate_Merge E object bindings value with
           | Err err => FailNow
           | Ok merged =>
             go_ret (merged,
                     RegisterNamedBinding E bindings "namespace"
                       (AnyString (GetName E merged)))
           end
         | _ => go_ret (object, bindings)
         end in
       let '(object, bindings) := merged in
       let nspacer := namespacer_New E client (GetName E object) in
       let* err := Get client object in
       match err with
       | Some err =>
         (if negb (IsNotFound err) then (logging_Log ;; FailNow) else go_ret tt) ;;
         (if negb (cleanup_Skip E (Cleanup_SkipDelete (config p)) None None)
          then t_Cleanup (DeleteNamespace object)
          else go_ret tt) ;;
         let* err := Create client object in
         match err with
         | Some err => FailNow
         | None => go_ret tt
         end
       | None => go_ret tt
       end ;;
       go_ret (bindings, Some nspacer)
     else go_ret (bindings, None)
   end)%go.

(** When the enclosing test ends, however it ends, its cleanups run, the
    last registered first. *)
Definition scope_exit (w : World) : World :=
  {| cluster := cluster w; failed := failed w; cleanups := [];
     trace := trace w ++ map EvRunCleanup (cleanups w) |}.

(** One run of the setup against a cluster, from a fresh enclosing test. *)
Definition setup_run (p : Processor) (bindings : option (Bindings E))
  (c : Cluster E) : World :=
  fst (Run_setup p bindings (initial c)).

(** The setup run again and again, each time against the cluster the
    previous run left: [rerun n] is the world after the run number [n + 1]. *)
Fixpoint rerun (n : nat) (p : Processor) (bindings : option (Bindings E))
  (c : Cluster E) : World :=
  match n with
  | 0 => setup_run p bindings c
  | S n => setup_run p bindings (cluster (rerun n p bindings c))
  end.

Definition is_create (e : event) : bool :=
  match e with EvCreate _ _ => true | _ => false end.

Definition is_delete_registration (e : event) : bool :=
  match e with EvCleanup (DeleteNamespace _) => true | _ => false end.

(** *** Lines 128-152: scenario expansion *)

(** The instance of [test] for one of its scenarios (lines 142-149): a copy
    of the test without scenarios, whose bindings are the scenario's
    followed by the test's. *)
Definition scenario_instance (test : DTest) (decl : Test_ (Binding E) (ObjectMeta E))
  (scenario : Scenario (Binding E)) : DTest :=
  let bindings := Scenario_Bindings scenario in
  let bindings := bindings ++ Spec_Bindings (Spec decl) in
  {| BasePath := BasePath test;
     Test := Some {| Test_ObjectMeta := Test_ObjectMeta decl;
                     Spec := {| Concurrent := Concurrent (Spec decl);
                                Skip := Skip (Spec decl);
                                Spec_Bindings := bindings;
                                Scenarios := [] |} |} |}.

(** The slice [scenarios] built at lines 136-152. *)
Definition scenarios (test : DTest) : list DTest :=
  match Test test with
  | Some decl =>
    if Nat.eqb (length (Scenarios (Spec decl))) 0 then [test]
    else map (scenario_instance test decl) (Scenarios (Spec decl))
  | None => []
  end.

(** What the closure passed to [t.Run] captures: the display name, the
    loop indices [i] and [s], and the test. *)
Record instance : Type := {
  name : string;
  i : nat;
  s : nat;
  test : DTest
}.

(** The [TestInfo] built at lines 187-191; [None] when [test.Test] is nil,
    where the Go code stops on a nil dereference. *)
Definition info (inst : instance) : option (TestInfo (ObjectMeta E)) :=
  match Test (test inst) with
  | Some decl => Some {| Id := i inst + 1;
                       ScenarioId := s inst + 1;
                       Metadata := Test_ObjectMeta decl |}
  | None => None
  end.

(** The instances [t.Run] is called with, in call order, by the loop over
    [p.tests] starting at index [i]; the boolean tells whether the loop was
    left through [FailNow] because [names.Test] failed. *)
Fixpoint launched (cfg : Configuration (TemplateValue E)) (i : nat)
  (tests : list DTest) : list instance * bool :=
  match tests with
  | [] => ([], false)
  | test :: rest =>
    match names_Test E cfg test with
    | Err err => ([], true)
    | Ok name =>
      let here :=
        imap (fun s test => {| name := name; i := i; s := s; test := test |})
          (scenarios test) in
      let '(later, failNow) := launched cfg (S i) rest in
      (here ++ later, failNow)
    end
  end.

(** *** Lines 155-197: one test instance *)

(** The closures an instance hands to [t.Cleanup] of its own test. *)
Inductive subCleanup : Type :=
| StoreFailFast     (* lines 157-161 *)
| SummaryOutcome.   (* lines 163-173 *)

(** The counters of [summary.Summary]. *)
Record Summary : Type := {
  passed : nat;
  failed_ : nat;
  skipped : nat
}.

Inductive counter : Type := Passed | Failed | Skipped.

Definition Inc (c : counter) (sm : Summary) : Summary :=
  match c with
  | Passed => {| passed := S (passed sm); failed_ := failed_ sm; skipped := skipped sm |}
  | Failed => {| passed := passed sm; failed_ := S (failed_ sm); skipped := skipped sm |}
  | Skipped => {| passed := passed sm; failed_ := failed_ sm; skipped := S (skipped sm) |}
  end.

Definition count (c : counter) (sm : Summary) : nat :=
  match c with
  | Passed => passed sm
  | Failed => failed_ sm
  | Skipped => skipped sm
  end.

(** What is shared by the instances: the [shouldFailFast] flag of line 128
    and the summary. *)
Record Shared : Type := {
  shouldFailFast : bool;
  counters : Summary
}.

(** What an instance does that others can observe, in order. *)
Inductive action : Type :=
| ActCleanup (f : subCleanup)
| ActParallel
| ActSkipNow
| ActLoad (flag : bool)
| ActProcessor (out : Outcome)
| ActStore
| ActInc (c : counter).

(** Where an instance is in the closure of lines 155-197. *)
Inductive pc : Type :=
| Created      (* t.Run was called, the closure has not run yet *)
| Body         (* cleanups registered, past t.Parallel(), at line 178 *)
| InProcessor  (* inside processor.Run, line 192 *)
| Exiting      (* the closure returned or exited: cleanups are running *)
| Done         (* the instance is complete *)
| Panicked.    (* nil dereference of test.Test *)

(** The [testing.T] of an instance, its position and its log. *)
Record T : Type := {
  at_ : pc;
  Failed_ : bool;
  Skipped_ : bool;
  pending : list subCleanup;
  log : list action
}.

Definition fresh : T :=
  {| at_ := Created; Failed_ := false; Skipped_ := false; pending := []; log := [] |}.

(** The branch of lines 164-172. *)
Definition verdict (t : T) : counter :=
  if Skipped_ t then Skipped else if Failed_ t then Failed else Passed.

(** One cleanup closure of an instance, run on its [testing.T]. *)
Definition run_cleanup (f : subCleanup) (sh : Shared) (t : T) : Shared * list action :=
  match f with
  | StoreFailFast =>
    if Failed_ t then
      ({| shouldFailFast := true; counters := counters sh |}, [ActStore])
    else (sh, [])
  | SummaryOutcome =>
    ({| shouldFailFast := shouldFailFast sh;
        counters := Inc (verdict t) (counters sh) |},
     [ActInc (verdict t)])
  end.

Definition is_true_ptr (b : option bool) : bool :=
  match b with Some true => true | _ => false end.

(** One atomic step of an instance.  The steps are: registering the
    cleanups up to the call of [t.Parallel()]; lines 178-186, which end in
    [t.SkipNow()] or enter the processor; the return of the processor; each
    cleanup, the last registered first; completion. *)
Definition tstep (p : Processor) (bindings : Bindings E)
  (nspacer : option (Namespacer E)) (inst : instance) (sh : Shared) (t : T)
  : Shared * T :=
  match at_ t with
  | Created =>
    match Test (test inst) with
    | None =>
      (sh, {| at_ := Panicked; Failed_ := Failed_ t; Skipped_ := Skipped_ t;
              pending := (if summary p then [SummaryOutcome] else []) ++ [StoreFailFast];
              log := log t ++ [ActCleanup StoreFailFast]
                     ++ (if summary p then [ActCleanup SummaryOutcome] else []) |})
    | Some decl =>
      let parallel :=
        match Concurrent (Spec decl) with
        | None => true
        | Some concurrent => concurrent
        end in
      (sh, {| at_ := Body; Failed_ := Failed_ t; Skipped_ := Skipped_ t;
              pending := (if summary p then [SummaryOutcome] else []) ++ [StoreFailFast];
              log := log t ++ [ActCleanup StoreFailFast]
                     ++ (if summary p then [ActCleanup SummaryOutcome] else [])
                     ++ (if parallel then [ActParallel] else []) |})
    end
  | Body =>
    match Test (test inst) with
    | Some decl =>
      if is_true_ptr (Skip (Spec decl)) then
        (sh, {| at_ := Exiting; Failed_ := Failed_ t; Skipped_ := true;
                pending := pending t; log := log t ++ [ActSkipNow] |})
      else if Execution_FailFast (config p) then
        if shouldFailFast sh then
          (sh, {| at_ := Exiting; Failed_ := Failed_ t; Skipped_ := true;
                  pending := pending t;
                  log := log t ++ [ActLoad true; ActSkipNow] |})
        else
          (sh, {| at_ := InProcessor; Failed_ := Failed_ t; Skipped_ := Skipped_ t;
                  pending := pending t; log := log t ++ [ActLoad false] |})
      else
        (sh, {| at_ := InProcessor; Failed_ := Failed_ t; Skipped_ := Skipped_ t;
                pending := pending t; log := log t |})
    | None =>
      (sh, {| at_ := Panicked; Failed_ := Failed_ t; Skipped_ := Skipped_ t;
              pending := pending t; log := log t |})
    end
  | InProcessor =>
    match info inst with
    | Some info =>
      let out :=
        processor_Run E (test inst)
          (RegisterNamedBinding E bindings "test" (AnyTestInfo info)) nspacer in
      (sh, {| at_ := Exiting;
              Failed_ := Failed_ t || outFailed out;
              Skipped_ := Skipped_ t || outSkipped out;
              pending := pending t; log := log t ++ [ActProcessor out] |})
    | None =>
      (sh, {| at_ := Panicked; Failed_ := Failed_ t; Skipped_ := Skipped_ t;
              pending := pending t; log := log t |})
    end
  | Exiting =>
    match pending t with
    | f :: rest =>
      let '(sh', acts) := run_cleanup f sh t in
      (sh', {| at_ := Exiting; Failed_ := Failed_ t; Skipped_ := Skipped_ t;
               pending := rest; log := log t ++ acts |})
    | [] =>
      (sh, {| at_ := Done; Failed_ := Failed_ t; Skipped_ := Skipped_ t;
              pending := []; log := log t |})
    end
  | Done => (sh, t)
  | Panicked => (sh, t)
  end.

(** *** The instances of a run, interleaved

    A run state is the shared state and the [testing.T] of every instance
    [t.Run] was called with.  A schedule is the sequence of instances taking
    their next step.  Go runs the steps of a sequential instance inside its
    [t.Run] call and resumes the parallel ones after [Run] returns; every Go
    execution is therefore one of the schedules below. *)
Record Sub : Type := {
  inst_ : instance;
  t_ : T
}.

Record RunState : Type := {
  shared : Shared;
  subs : list Sub
}.

Definition step (p : Processor) (bindings : Bindings E)
  (nspacer : option (Namespacer E)) (k : nat) (r : RunState) : RunState :=
  match subs r !! k with
  | Some sub =>
    let '(sh, t) := tstep p bindings nspacer (inst_ sub) (shared r) (t_ sub) in
    {| shared := sh; subs := <[k := {| inst_ := inst_ sub; t_ := t |}]> (subs r) |}
  | None => r
  end.

Definition exec (p : Processor) (bindings : Bindings E)
  (nspacer : option (Namespacer E)) (schedule : list nat) (r : RunState)
  : RunState :=
  fold_left (fun r k => step p bindings nspacer k r) schedule r.

(** The run state when the loop over [p.tests] is entered: the flag is
    false, the summary is [sm], and no instance has started. *)
Definition start (p : Processor) (sm : Summary) : RunState :=
  {| shared := {| shouldFailFast := false; counters := sm |};
     subs := map (fun inst => {| inst_ := inst; t_ := fresh |})
               (fst (launched (config p) 0 (tests p))) |}.

(** The number of steps an instance has left at most. *)
Definition steps_left (t : T) : nat :=
  match at_ t with
  | Created => 6
  | Body => 3 + length (pending t)
  | InProcessor => 2 + length (pending t)
  | Exiting => 1 + length (pending t)
  | Done => 0
  | Panicked => 0
  end.

(** *** Reading the log of an instance *)

Definition is_processor (a : action) : bool :=
  match a with ActProcessor _ => true | _ => false end.

Definition is_store (a : action) : bool :=
  match a with ActStore => true | _ => false end.

(** Whether the per-test processor was run. *)
Definition ran (l : list action) : bool := existsb is_processor l.

(** Whether the instance stored [true] into [shouldFailFast]. *)
Definition stored (l : list action) : bool := existsb is_store l.

(** The counters the instance incremented, in order. *)
Fixpoint incs (l : list action) : list counter :=
  match l with
  | [] => []
  | ActInc c :: l => c :: incs l
  | _ :: l => incs l
  end.

Definition counter_eqb (c d : counter) : bool :=
  match c, d with
  | Passed, Passed | Failed, Failed | Skipped, Skipped => true
  | _, _ => false
  end.

Fixpoint occurrences (c : counter) (cs : list counter) : nat :=
  match cs with
  | [] => 0
  | d :: cs => (if counter_eqb c d then 1 else 0) + occurrences c cs
  end.

(** How many times the instance incremented the counter [c]. *)
Definition incs_of (c : counter) (l : list action) : nat :=
  occurrences c (incs l).

(** The increments of [c] by all the instances of a run. *)
Definition all_incs_of (c : counter) (subs : list Sub) : nat :=
  sum_list_with (fun sub => incs_of c (log (t_ sub))) subs.

(** *** What holds of an instance wherever it is *)

(** The cleanups an instance registers, the last registered first. *)
Definition registered (p : Processor) : list subCleanup :=
  (if summary p then [SummaryOutcome] else []) ++ [StoreFailFast].

(** What the per-test processor leaves when run for [inst]. *)
Definition processor_outcome (bindings : Bindings E)
  (nspacer : option (Namespacer E)) (inst : instance) : option Outcome :=
  match info inst with
  | Some info =>
    Some (processor_Run E (test inst)
            (RegisterNamedBinding E bindings "test" (AnyTestInfo info)) nspacer)
  | None => None
  end.

(** Whether the test of [inst] has its [Skip] flag set. *)
Definition skip_requested (inst : instance) : bool :=
  match Test (test inst) with
  | Some decl => is_true_ptr (Skip (Spec decl))
  | None => false
  end.

(** The [testing.T] of an instance past its body: either the instance was
    skipped before the processor ran, or it carries what the processor
    left. *)
Definition settled (bindings : Bindings E) (nspacer : option (Namespacer E))
  (inst : instance) (t : T) : Prop :=
  (ran (log t) = false /\ Skipped_ t = true /\ Failed_ t = false)
  \/ (exists out,
         processor_outcome bindings nspacer inst = Some out
         /\ ran (log t) = true
         /\ Failed_ t = outFailed out
         /\ Skipped_ t = outSkipped out).

(** The invariant of an instance. *)
Definition inv (p : Processor) (bindings : Bindings E)
  (nspacer : option (Namespacer E)) (inst : instance) (t : T) : Prop :=
  (skip_requested inst = true -> ran (log t) = false /\ at_ t <> InProcessor)
  /\ match at_ t with
     | Created => t = fresh
     | Body | InProcessor =>
       Failed_ t = false /\ Skipped_ t = false /\ pending t = registered p
       /\ incs (log t) = [] /\ stored (log t) = false /\ ran (log t) = false
     | Exiting =>
       settled bindings nspacer inst t
       /\ ((pending t = registered p /\ incs (log t) = [] /\ stored (log t) = false)
           \/ (summary p = true /\ pending t = [StoreFailFast]
               /\ incs (log t) = [verdict t] /\ stored (log t) = false)
           \/ (pending t = []
               /\ incs (log t) = (if summary p then [verdict t] else [])
               /\ stored (log t) = Failed_ t))
     | Done =>
       settled bindings nspacer inst t
       /\ pending t = []
       /\ incs (log t) = (if summary p then [verdict t] else [])
       /\ stored (log t) = Failed_ t
     | Panicked => False
     end.

(** The invariant of a run: every instance has a test definition and
    satisfies its invariant, and the flag is set as soon as an instance has
    stored into it. *)
Definition wf (p : Processor) (bindings : Bindings E)
  (nspacer : option (Namespacer E)) (r : RunState) : Prop :=
  Forall (fun sub =>
            (exists decl, Test (test (inst_ sub)) = Some decl)
            /\ inv p bindings nspacer (inst_ sub) (t_ sub)
            /\ (stored (log (t_ sub)) = true -> shouldFailFast (shared r) = true))
    (subs r).

End Run.

End Processors.

(** ** Concrete collaborators used to run the builders on examples *)

Module Fixtures.

(** A resolver for templates without expressions: the literal itself.  The
    string ["("] stands for a malformed template. *)
Definition literal (tpl : string) (_ : unit) : result string :=
  if String.eqb tpl "(" then Err "template: unexpected end of expression"
  else Ok tpl.

(** A resource mapper whose references are resource names; [nodes] and
    [namespaces] are cluster scoped. *)
Definition mapper (_ _ : unit) (reference : string) : result (string * bool) :=
  Ok (reference, String.eqb reference "nodes" || String.eqb reference "namespaces").

Definition logs_by_name : Engine_kubectl.PodLogs :=
  {| Engine_kubectl.Name := "pod-1";
     Engine_kubectl.Namespace := "";
     Engine_kubectl.Selector := "";
     Engine_kubectl.Container := "";
     Engine_kubectl.Tail := Some 10%Z |}.

Definition logs_unnamed : Engine_kubectl.PodLogs :=
  {| Engine_kubectl.Name := "";
     Engine_kubectl.Namespace := "ns1";
     Engine_kubectl.Selector := "";
     Engine_kubectl.Container := "c1";
     Engine_kubectl.Tail := None |}.

Definition logs_both : Engine_kubectl.PodLogs :=
  {| Engine_kubectl.Name := "pod-1";
     Engine_kubectl.Namespace := "ns1";
     Engine_kubectl.Selector := "app=web";
     Engine_kubectl.Container := "";
     Engine_kubectl.Tail := None |}.

Definition describe_all (resource namespace : string)
  : Runner_kubectl.Describe_ string Z :=
  {| Runner_kubectl.Name := "";
     Runner_kubectl.Namespace := namespace;
     Runner_kubectl.Selector := "";
     Runner_kubectl.Cluster := "";
     Runner_kubectl.Timeout := None;
     Runner_kubectl.Reference := resource;
     Runner_kubectl.ShowEvents := None |}.

Definition describe_both : Runner_kubectl.Describe_ string Z :=
  {| Runner_kubectl.Name := "pod-1";
     Runner_kubectl.Namespace := "ns1";
     Runner_kubectl.Selector := "app=web";
     Runner_kubectl.Cluster := "";
     Runner_kubectl.Timeout := None;
     Runner_kubectl.Reference := "pods";
     Runner_kubectl.ShowEvents := Some false |}.

Definition describe_node : Runner_kubectl.Describe_ string Z :=
  {| Runner_kubectl.Name := "node-1";
     Runner_kubectl.Namespace := "ns1";
     Runner_kubectl.Selector := "";
     Runner_kubectl.Cluster := "";
     Runner_kubectl.Timeout := None;
     Runner_kubectl.Reference := "nodes";
     Runner_kubectl.ShowEvents := Some true |}.

(** Collaborators of the tests processor over a toy cluster: the state of
    the cluster is the list of its namespaces, objects are namespace names,
    creating the namespace [forbidden] is denied, and the per-test processor
    fails the tests whose metadata is [failing]. *)
Definition externals : Processors.Externals :=
  {| Processors.Binding := string;
     Processors.ObjectMeta := string;
     Processors.TemplateValue := string;
     Processors.ClusterConfig := unit;
     Processors.Client := unit;
     Processors.Cluster := list string;
     Processors.Object := string;
     Processors.Bindings := list (string * Processors.any string);
     Processors.Namespacer := string;
     Processors.NewBindings := [];
     Processors.RegisterClusterBindings := fun bindings _ _ => bindings;
     Processors.RegisterNamedBinding := fun bindings name value => (name, value) :: bindings;
     Processors.clusters_Resolve := fun _ => Ok (tt, Some tt);
     Processors.kube_Namespace := fun name => name;
     Processors.GetName := fun object => object;
     Processors.mutate_Merge := fun _ _ value => Ok value;
     Processors.namespacer_New := fun _ name => name;
     Processors.client_Get := fun _ cluster object =>
       if existsb (String.eqb object) cluster then None
       else Some Processors.NotFound;
     Processors.client_Create := fun _ cluster object =>
       if String.eqb object "forbidden"
       then (cluster, Some (Processors.OtherError "forbidden"))
       else (object :: cluster, None);
     Processors.cleanup_Skip := fun config test step =>
       match step, test with
       | Some skip, _ => skip
       | None, Some skip => skip
       | None, None => config
       end;
     Processors.names_Test := fun _ test => Ok (Processors.BasePath test);
     Processors.processor_Run := fun test _ _ =>
       match Processors.Test test with
       | Some decl =>
         {| Processors.outFailed :=
              String.eqb (Processors.Test_ObjectMeta decl) "failing";
            Processors.outSkipped := false |}
       | None => {| Processors.outFailed := true; Processors.outSkipped := false |}
       end |}.

Definition configuration (namespace : string) (failFast : bool)
  : Processors.Configuration string :=
  {| Processors.Namespace_Name := namespace;
     Processors.Namespace_Template := None;
     Processors.Cleanup_SkipDelete := false;
     Processors.Execution_FailFast := failFast |}.

(** A discovered test named [meta] with the given skip flag, base bindings
    and scenarios. *)
Definition a_test (meta : string) (skip : option bool) (bindings : list string)
  (scenarios : list (list string)) : Processors.discovery_Test string string :=
  {| Processors.BasePath := meta;
     Processors.Test :=
       Some {| Processors.Test_ObjectMeta := meta;
               Processors.Spec :=
                 {| Processors.Concurrent := None;
                    Processors.Skip := skip;
                    Processors.Spec_Bindings := bindings;
                    Processors.Scenarios :=
                      map (fun bs => {| Processors.Scenario_Bindings := bs |})
                        scenarios |} |} |}.

Definition processor (namespace : string) (failFast : bool)
  (tests : list (Processors.discovery_Test string string))
  : Processors.testsProcessor string string string :=
  {| Processors.config := configuration namespace failFast;
     Processors.summary := true;
     Processors.report := false;
     Processors.tests := tests |}.

(** Three tests: one that fails, one with two scenarios, one to skip. *)
Definition three_tests : list (Processors.discovery_Test string string) :=
  [a_test "failing" None ["b0"] [];
   a_test "ok" None ["b1"] [["s1"]; ["s2"]];
   a_test "sk" (Some true) [] []].

Definition no_counts : Processors.Summary :=
  {| Processors.passed := 0; Processors.failed_ := 0; Processors.skipped := 0 |}.

End Fixtures.

(** ** The argv the design document prescribes *)

Module Spec.

(** The log collector argv, as the design document writes it:
    [["logs","--prefix", <name> | "-l" <selector>, "-n",
    <namespace-or-"$NAMESPACE">, <"--all-containers"> | "-c" <container>,
    ["--tail", N]]]. *)
Definition logs_argv (name selector namespace container : string)
  (tail : option Z) : list string :=
  ["logs"; "--prefix"]
  ++ (match name with EmptyString => ["-l"; selector] | _ => [name] end)
  ++ ["-n"; match namespace with EmptyString => "$NAMESPACE" | _ => namespace end]
  ++ (match container with
      | EmptyString => ["--all-containers"]
      | _ => ["-c"; container]
      end)
  ++ (match tail with Some n => ["--tail"; Sprint_int n] | None => [] end).

(** The target of a describe command: the name, or ["-l"] and the selector,
    or nothing. *)
Definition describe_target (name selector : string) : list string :=
  match name, selector with
  | EmptyString, EmptyString => []
  | EmptyString, _ => ["-l"; selector]
  | _, _ => [name]
  end.

(** The optional trailing [--show-events=<bool>] flag. *)
Definition show_events (showEvents : option bool) : list string :=
  match showEvents with
  | Some true => ["--show-events=true"]
  | Some false => ["--show-events=false"]
  | None => []
  end.

End Spec.

(** ** What an instance comes to without fail-fast *)

Module Derived.

(** The counter an instance is counted under when fail-fast is not
    configured: skipped when its [Skip] flag is set; otherwise what the
    per-test processor leaves, read as lines 164-172 read it. *)
Definition expected_verdict (E : Processors.Externals)
  (bindings : Processors.Bindings E) (nspacer : option (Processors.Namespacer E))
  (inst : Processors.instance E) : Processors.counter :=
  if Processors.skip_requested E inst then Processors.Skipped
  else
    match Processors.processor_outcome E bindings nspacer inst with
    | Some out =>
      if Processors.outSkipped out then Processors.Skipped
      else if Processors.outFailed out then Processors.Failed
      else Processors.Passed
    | None => Processors.Passed
    end.

End Derived.

(** ** More collaborators to run the tests processor on examples *)

Module Examples.

(** Collaborators like [Fixtures.externals], except that the namespace
    [unreachable] cannot be fetched, that the display name of a test whose
    base path is [bad] cannot be computed, and that the per-test processor
    leaves the tests whose metadata is [flaky] both failed and skipped. *)
Definition externals : Processors.Externals :=
  {| Processors.Binding := string;
     Processors.ObjectMeta := string;
     Processors.TemplateValue := string;
     Processors.ClusterConfig := unit;
     Processors.Client := unit;
     Processors.Cluster := list string;
     Processors.Object := string;
     Processors.Bindings := list (string * Processors.any string);
     Processors.Namespacer := string;
     Processors.NewBindings := [];
     Processors.RegisterClusterBindings := fun bindings _ _ => bindings;
     Processors.RegisterNamedBinding := fun bindings name value => (name, value) :: bindings;
     Processors.clusters_Resolve := fun _ => Ok (tt, Some tt);
     Processors.kube_Namespace := fun name => name;
     Processors.GetName := fun object => object;
     Processors.mutate_Merge := fun _ _ value => Ok value;
     Processors.namespacer_New := fun _ name => name;
     Processors.client_Get := fun _ cluster object =>
       if String.eqb object "unreachable"
       then Some (Processors.OtherError "connection refused")
       else if existsb (String.eqb object) cluster then None
       else Some Processors.NotFound;
     Processors.client_Create := fun _ cluster object => (object :: cluster, None);
     Processors.cleanup_Skip := fun config test step =>
       match step, test with
       | Some skip, _ => skip
       | None, Some skip => skip
       | None, None => config
       end;
     Processors.names_Test := fun _ test =>
       if String.eqb (Processors.BasePath test) "bad"
       then Err "cannot compute the test name"
       else Ok (Processors.BasePath test);
     Processors.processor_Run := fun test _ _ =>
       match Processors.Test test with
       | Some decl =>
         {| Processors.outFailed :=
              String.eqb (Processors.Test_ObjectMeta decl) "flaky";
            Processors.outSkipped :=
              String.eqb (Processors.Test_ObjectMeta decl) "flaky" |}
       | None => {| Processors.outFailed := true; Processors.outSkipped := false |}
       end |}.

(** A processor with a summary, for the namespace [namespace], with the
    given skip-delete policy and with or without a report. *)
Definition processor (namespace : string) (skipDelete report : bool)
  (tests : list (Processors.discovery_Test string string))
  : Processors.testsProcessor string string string :=
  {| Processors.config :=
       {| Processors.Namespace_Name := namespace;
          Processors.Namespace_Template := None;
          Processors.Cleanup_SkipDelete := skipDelete;
          Processors.Execution_FailFast := false |};
     Processors.summary := true;
     Processors.report := report;
     Processors.tests := tests |}.

End Examples.

(* ====================================================================== *)
(** * Properties *)
(* ====================================================================== *)

(** ** The builder monad *)

Lemma outcome_bind_Ok {Ref A B} (m : Build Ref A) (k : A -> Build Ref B) a :
  outcome m = Ok a -> outcome (bind m k) = outcome (k a).
Proof.
  destruct m as [log r]; unfold outcome; simpl; intros ->.
  destruct (k a); reflexivity.
Qed.

Lemma outcome_bind_Err {Ref A B} (m : Build Ref A) (k : A -> Build Ref B) e :
  outcome m = Err e -> outcome (bind m k) = Err e.
Proof. destruct m as [log r]; unfold outcome; simpl; intros ->; reflexivity. Qed.

Lemma eqb_empty_false (s : string) : s <> "" -> String.eqb s "" = false.
Proof. intros H; apply String.eqb_neq; exact H. Qed.

(** Whatever a builder step returns, a failed step fails the builder. *)
Lemma is_ok_bind_false {Ref A B} (m : Build Ref A) (k : A -> Build Ref B) :
  (forall a, outcome m = Ok a -> is_ok (outcome (k a)) = false) ->
  is_ok (outcome (bind m k)) = false.
Proof.
  intros H. destruct (outcome m) as [a|e] eqn:E.
  - rewrite (outcome_bind_Ok _ _ _ E). apply H; reflexivity.
  - rewrite (outcome_bind_Err _ _ _ E). reflexivity.
Qed.

(** ** The log collector builder *)

Section LogsFacts.

Import Engine_kubectl.

Variable Bindings : Type.
Variable resolve : string -> Bindings -> result string.

Abbreviation Logs := (Engine_kubectl.Logs Bindings resolve).

(** [Logs] with its four template resolutions succeeding: what remains is
    the validation and the assembly of the arguments. *)
Lemma Logs_resolved bindings c name namespace selector container :
  resolve (Name c) bindings = Ok name ->
  resolve (Namespace c) bindings = Ok namespace ->
  resolve (Selector c) bindings = Ok selector ->
  resolve (Container c) bindings = Ok container ->
  outcome (Logs bindings (Some c)) =
    if String.eqb name "" && String.eqb selector "" then
      Err "a name or selector must be specified"
    else if negb (String.eqb name "") && negb (String.eqb selector "") then
      Err "name cannot be provided when a selector is specified"
    else
      Ok ("kubectl",
          ((["logs"; "--prefix"]
            ++ (if negb (String.eqb name "") then [name] else ["-l"; selector]))
           ++ ["-n"; if String.eqb namespace "" then "$NAMESPACE" else namespace])
          ++ (if String.eqb container "" then ["--all-containers"]
              else ["-c"; container])
          ++ (match Tail c with
              | Some tail => ["--tail"; Sprint_int tail]
              | None => []
              end)).
Proof.
  intros Hn Hns Hs Hc. unfold Engine_kubectl.Logs.
  rewrite (outcome_bind_Ok _ _ name) by exact Hn.
  rewrite (outcome_bind_Ok _ _ namespace) by exact Hns.
  rewrite (outcome_bind_Ok _ _ selector) by exact Hs.
  rewrite (outcome_bind_Ok _ _ container) by exact Hc.
  destruct (String.eqb name "") eqn:En, (String.eqb selector "") eqn:Es;
    cbn [andb negb]; try reflexivity;
    destruct (String.eqb container ""), (Tail c);
    cbn [outcome ret snd]; rewrite <- ?app_assoc; reflexivity.
Qed.

(** When the name and the selector resolve, and both to the empty string or
    both to a non-empty one, no command comes out, whatever the other two
    fields resolve to and whether they resolve at all. *)
Lemma Logs_no_command bindings c name selector :
  resolve (Name c) bindings = Ok name ->
  resolve (Selector c) bindings = Ok selector ->
  String.eqb name "" = String.eqb selector "" ->
  is_ok (outcome (Logs bindings (Some c))) = false.
Proof.
  intros Hn Hs Hboth. unfold Engine_kubectl.Logs.
  rewrite (outcome_bind_Ok _ _ name) by exact Hn.
  apply is_ok_bind_false; intros namespace _.
  rewrite (outcome_bind_Ok _ _ selector) by exact Hs.
  apply is_ok_bind_false; intros container _.
  rewrite Hboth. destruct (String.eqb selector ""); reflexivity.
Qed.

(** C2.  For a valid log collector (its four templates resolve, and exactly
    one of the resolved name and selector is non-empty) [Logs] returns the
    entrypoint [kubectl] and exactly the argv of the design document:
    [logs --prefix], the name or [-l selector], [-n] and the namespace
    ([$NAMESPACE] when it is empty), [--all-containers] or [-c container],
    and [--tail N] only when a tail count is set. *)
Theorem C2_logs_argv bindings c name namespace selector container :
  resolve (Name c) bindings = Ok name ->
  resolve (Namespace c) bindings = Ok namespace ->
  resolve (Selector c) bindings = Ok selector ->
  resolve (Container c) bindings = Ok container ->
  (name <> "" /\ selector = "") \/ (name = "" /\ selector <> "") ->
  outcome (Logs bindings (Some c)) =
    Ok ("kubectl", Spec.logs_argv name selector namespace container (Tail c)).
Proof.
  intros Hn Hns Hs Hc Hvalid.
  rewrite (Logs_resolved _ _ _ _ _ _ Hn Hns Hs Hc).
  unfold Spec.logs_argv.
  destruct Hvalid as [[Hname ->] | [-> Hsel]].
  - rewrite (eqb_empty_false _ Hname). cbn [andb negb String.eqb].
    destruct name as [|a name']; [congruence|].
    destruct namespace, container; cbn [String.eqb]; rewrite <- ?app_assoc; reflexivity.
  - rewrite (eqb_empty_false _ Hsel). cbn [andb negb String.eqb].
    destruct namespace, container; cbn [String.eqb]; rewrite <- ?app_assoc; reflexivity.
Qed.

End LogsFacts.

(** The argv of a log collection by pod name with ten tail lines. *)
Lemma C2_logs_argv_witness :
  outcome (Engine_kubectl.Logs unit Fixtures.literal tt (Some Fixtures.logs_by_name)) =
    Ok ("kubectl",
        ["logs"; "--prefix"; "pod-1"; "-n"; "$NAMESPACE"; "--all-containers";
         "--tail"; "10"]).
Proof.
  apply (C2_logs_argv unit Fixtures.literal tt Fixtures.logs_by_name
           "pod-1" "" "" "");
    try reflexivity.
  left; split; [discriminate | reflexivity].
Defined.

(** ** The describe collector builder *)

Section DescribeFacts.

Import Runner_kubectl.

Variables Bindings Client ResourceReference Duration : Type.
Variable resolve : string -> Bindings -> result string.
Variable mapper : Client -> Bindings -> ResourceReference -> result (string * bool).

Abbreviation Describe :=
  (Runner_kubectl.Describe Bindings Client ResourceReference Duration resolve mapper).

(** [Describe] with its four template resolutions and the resource mapping
    succeeding. *)
Lemma Describe_resolved client bindings (c : Describe_ ResourceReference Duration)
  name namespace selector cluster resource clustered :
  resolve (Name c) bindings = Ok name ->
  resolve (Namespace c) bindings = Ok namespace ->
  resolve (Selector c) bindings = Ok selector ->
  resolve (Cluster c) bindings = Ok cluster ->
  mapper client bindings (Reference c) = Ok (resource, clustered) ->
  outcome (Describe client bindings (Some c)) =
    if negb (String.eqb name "") && negb (String.eqb selector "") then
      Err "name cannot be provided when a selector is specified"
    else
      Ok {| cmdCluster := cluster;
            cmdTimeout := Timeout c;
            Entrypoint := "kubectl";
            Args :=
              ["describe"; resource]
              ++ (if negb (String.eqb name "") then [name]
                  else if negb (String.eqb selector "") then ["-l"; selector]
                  else [])
              ++ (if clustered then []
                  else if String.eqb namespace "*" then ["--all-namespaces"]
                  else ["-n"; if String.eqb namespace "" then "$NAMESPACE"
                              else namespace])
              ++ (match ShowEvents c with
                  | Some b => [String.append "--show-events=" (Sprint_bool b)]
                  | None => []
                  end) |}.
Proof.
  intros Hn Hns Hs Hc Hm. unfold Runner_kubectl.Describe.
  rewrite (outcome_bind_Ok _ _ name) by exact Hn.
  rewrite (outcome_bind_Ok _ _ namespace) by exact Hns.
  rewrite (outcome_bind_Ok _ _ selector) by exact Hs.
  rewrite (outcome_bind_Ok _ _ cluster) by exact Hc.
  destruct (negb (String.eqb name "") && negb (String.eqb selector "")) eqn:E;
    [reflexivity|].
  rewrite (outcome_bind_Ok _ _ (resource, clustered)) by exact Hm.
  cbn [outcome ret snd]. f_equal. f_equal.
  destruct (negb (String.eqb name "")), (negb (String.eqb selector "")),
    clustered, (String.eqb namespace "*"), (ShowEvents c);
    cbn [negb]; rewrite <- ?app_assoc; reflexivity.
Qed.

(** When the name and the selector both resolve to non-empty strings, no
    command comes out, whatever the namespace and cluster templates do. *)
Lemma Describe_no_command client bindings (c : Describe_ ResourceReference Duration)
  name selector :
  resolve (Name c) bindings = Ok name ->
  resolve (Selector c) bindings = Ok selector ->
  name <> "" -> selector <> "" ->
  is_ok (outcome (Describe client bindings (Some c))) = false.
Proof.
  intros Hn Hs Hne Hse. unfold Runner_kubectl.Describe.
  rewrite (outcome_bind_Ok _ _ name) by exact Hn.
  apply is_ok_bind_false; intros namespace _.
  rewrite (outcome_bind_Ok _ _ selector) by exact Hs.
  apply is_ok_bind_false; intros cluster _.
  rewrite (eqb_empty_false _ Hne), (eqb_empty_false _ Hse). reflexivity.
Qed.

End DescribeFacts.

(** ** Validation in the two builders *)

(** C10.  For a nil collector both builders return the error
    [collector is null]; their call log is empty, so no template was resolved
    against the bindings and the resource mapper was not consulted, and the
    result carries no command. *)
Theorem C10_nil_collector :
  (forall Bindings (resolve : string -> Bindings -> result string) bindings,
      Engine_kubectl.Logs Bindings resolve bindings None
      = ([], Err "collector is null"))
  /\
  (forall Bindings Client Ref Duration
          (resolve : string -> Bindings -> result string)
          (mapper : Client -> Bindings -> Ref -> result (string * bool))
          client bindings,
      Runner_kubectl.Describe Bindings Client Ref Duration resolve mapper
        client bindings None
      = ([], Err "collector is null")).
Proof. split; intros; reflexivity. Qed.

(** C8.  When the name and the selector of a collector both resolve to
    non-empty strings (and its other templates resolve), the log builder and
    the describe builder both fail with [name cannot be provided when a
    selector is specified]; and whatever the other templates do, neither
    returns a command. *)
Theorem C8_name_and_selector_rejected :
  (forall Bindings (resolve : string -> Bindings -> result string) bindings
          (c : Engine_kubectl.PodLogs) name namespace selector container,
      resolve (Engine_kubectl.Name c) bindings = Ok name ->
      resolve (Engine_kubectl.Namespace c) bindings = Ok namespace ->
      resolve (Engine_kubectl.Selector c) bindings = Ok selector ->
      resolve (Engine_kubectl.Container c) bindings = Ok container ->
      name <> "" -> selector <> "" ->
      outcome (Engine_kubectl.Logs Bindings resolve bindings (Some c))
      = Err "name cannot be provided when a selector is specified")
  /\
  (forall Bindings Client Ref Duration
          (resolve : string -> Bindings -> result string)
          (mapper : Client -> Bindings -> Ref -> result (string * bool))
          client bindings (c : Runner_kubectl.Describe_ Ref Duration)
          name namespace selector cluster,
      resolve (Runner_kubectl.Name c) bindings = Ok name ->
      resolve (Runner_kubectl.Namespace c) bindings = Ok namespace ->
      resolve (Runner_kubectl.Selector c) bindings = Ok selector ->
      resolve (Runner_kubectl.Cluster c) bindings = Ok cluster ->
      name <> "" -> selector <> "" ->
      outcome (Runner_kubectl.Describe Bindings Client Ref Duration resolve
                 mapper client bindings (Some c))
      = Err "name cannot be provided when a selector is specified")
  /\
  (forall Bindings (resolve : string -> Bindings -> result string) bindings
          (c : Engine_kubectl.PodLogs) name selector,
      resolve (Engine_kubectl.Name c) bindings = Ok name ->
      resolve (Engine_kubectl.Selector c) bindings = Ok selector ->
      name <> "" -> selector <> "" ->
      is_ok (outcome (Engine_kubectl.Logs Bindings resolve bindings (Some c)))
      = false)
  /\
  (forall Bindings Client Ref Duration
          (resolve : string -> Bindings -> result string)
          (mapper : Client -> Bindings -> Ref -> result (string * bool))
          client bindings (c : Runner_kubectl.Describe_ Ref Duration)
          name selector,
      resolve (Runner_kubectl.Name c) bindings = Ok name ->
      resolve (Runner_kubectl.Selector c) bindings = Ok selector ->
      name <> "" -> selector <> "" ->
      is_ok (outcome (Runner_kubectl.Describe Bindings Client Ref Duration
                        resolve mapper client bindings (Some c)))
      = false).
Proof.
  repeat split.
  - intros B resolve bindings c name namespace selector container
      Hn Hns Hs Hc Hne Hse.
    rewrite (Logs_resolved B resolve _ _ _ _ _ _ Hn Hns Hs Hc).
    rewrite (eqb_empty_false _ Hne), (eqb_empty_false _ Hse). reflexivity.
  - intros B C R D resolve mapper client bindings c name namespace selector
      cluster Hn Hns Hs Hc Hne Hse.
    unfold Runner_kubectl.Describe.
    rewrite (outcome_bind_Ok _ _ name) by exact Hn.
    rewrite (outcome_bind_Ok _ _ namespace) by exact Hns.
    rewrite (outcome_bind_Ok _ _ selector) by exact Hs.
    rewrite (outcome_bind_Ok _ _ cluster) by exact Hc.
    rewrite (eqb_empty_false _ Hne), (eqb_empty_false _ Hse). reflexivity.
  - intros B resolve bindings c name selector Hn Hs Hne Hse.
    apply (Logs_no_command B resolve _ _ _ _ Hn Hs).
    rewrite (eqb_empty_false _ Hne), (eqb_empty_false _ Hse). reflexivity.
  - intros B C R D resolve mapper client bindings c name selector Hn Hs Hne Hse.
    exact (Describe_no_command B C R D resolve mapper _ _ _ _ _ Hn Hs Hne Hse).
Qed.

(** Both builders reject a collector with the name [pod-1] and the selector
    [app=web]. *)
Lemma C8_name_and_selector_rejected_witness :
  outcome (Engine_kubectl.Logs unit Fixtures.literal tt (Some Fixtures.logs_both))
  = Err "name cannot be provided when a selector is specified"
  /\
  outcome (Runner_kubectl.Describe unit unit string Z Fixtures.literal
             Fixtures.mapper tt tt (Some Fixtures.describe_both))
  = Err "name cannot be provided when a selector is specified".
Proof.
  split.
  - apply (proj1 C8_name_and_selector_rejected unit Fixtures.literal tt
             Fixtures.logs_both "pod-1" "ns1" "app=web" "");
      try reflexivity; discriminate.
  - apply (proj1 (proj2 C8_name_and_selector_rejected) unit unit string Z
             Fixtures.literal Fixtures.mapper tt tt Fixtures.describe_both
             "pod-1" "ns1" "app=web" "");
      try reflexivity; discriminate.
Defined.

(** C1 (as the code has it).  When the name and the selector of a collector
    both resolve to the empty string (and its other templates resolve), the
    log builder fails with [a name or selector must be specified], and it
    returns no command whatever the other templates do.  The describe builder
    has no such check: when the resource mapping succeeds it returns the
    command [kubectl describe <resource>] with neither a name nor a selector,
    followed by the namespace flags and the optional show-events flag. *)
Theorem C1_unnamed_collector :
  (forall Bindings (resolve : string -> Bindings -> result string) bindings
          (c : Engine_kubectl.PodLogs) namespace container,
      resolve (Engine_kubectl.Name c) bindings = Ok "" ->
      resolve (Engine_kubectl.Namespace c) bindings = Ok namespace ->
      resolve (Engine_kubectl.Selector c) bindings = Ok "" ->
      resolve (Engine_kubectl.Container c) bindings = Ok container ->
      outcome (Engine_kubectl.Logs Bindings resolve bindings (Some c))
      = Err "a name or selector must be specified")
  /\
  (forall Bindings (resolve : string -> Bindings -> result string) bindings
          (c : Engine_kubectl.PodLogs),
      resolve (Engine_kubectl.Name c) bindings = Ok "" ->
      resolve (Engine_kubectl.Selector c) bindings = Ok "" ->
      is_ok (outcome (Engine_kubectl.Logs Bindings resolve bindings (Some c)))
      = false)
  /\
  (forall Bindings Client Ref Duration
          (resolve : string -> Bindings -> result string)
          (mapper : Client -> Bindings -> Ref -> result (string * bool))
          client bindings (c : Runner_kubectl.Describe_ Ref Duration)
          namespace cluster resource clustered,
      resolve (Runner_kubectl.Name c) bindings = Ok "" ->
      resolve (Runner_kubectl.Namespace c) bindings = Ok namespace ->
      resolve (Runner_kubectl.Selector c) bindings = Ok "" ->
      resolve (Runner_kubectl.Cluster c) bindings = Ok cluster ->
      mapper client bindings (Runner_kubectl.Reference c) = Ok (resource, clustered) ->
      outcome (Runner_kubectl.Describe Bindings Client Ref Duration resolve
                 mapper client bindings (Some c))
      = Ok {| Runner_kubectl.cmdCluster := cluster;
              Runner_kubectl.cmdTimeout := Runner_kubectl.Timeout c;
              Runner_kubectl.Entrypoint := "kubectl";
              Runner_kubectl.Args :=
                ["describe"; resource]
                ++ (if clustered then []
                    else if String.eqb namespace "*" then ["--all-namespaces"]
                    else ["-n"; if String.eqb namespace "" then "$NAMESPACE"
                                else namespace])
                ++ Spec.show_events (Runner_kubectl.ShowEvents c) |}).
Proof.
  repeat split.
  - intros B resolve bindings c namespace container Hn Hns Hs Hc.
    rewrite (Logs_resolved B resolve _ _ _ _ _ _ Hn Hns Hs Hc). reflexivity.
  - intros B resolve bindings c Hn Hs.
    apply (Logs_no_command B resolve _ _ _ _ Hn Hs). reflexivity.
  - intros B C R D resolve mapper client bindings c namespace cluster resource
      clustered Hn Hns Hs Hc Hm.
    rewrite (Describe_resolved B C R D resolve mapper _ _ _ _ _ _ _ _ _
               Hn Hns Hs Hc Hm).
    cbn [String.eqb negb andb app]. do 4 f_equal.
    destruct (Runner_kubectl.ShowEvents c) as [[|]|]; reflexivity.
Qed.

(** An unnamed log collector is rejected; an unnamed describe collector of
    pods yields [kubectl describe pods -n $NAMESPACE]. *)
Lemma C1_unnamed_collector_witness :
  outcome (Engine_kubectl.Logs unit Fixtures.literal tt (Some Fixtures.logs_unnamed))
  = Err "a name or selector must be specified"
  /\
  outcome (Runner_kubectl.Describe unit unit string Z Fixtures.literal
             Fixtures.mapper tt tt (Some (Fixtures.describe_all "pods" "")))
  = Ok {| Runner_kubectl.cmdCluster := "";
          Runner_kubectl.cmdTimeout := None;
          Runner_kubectl.Entrypoint := "kubectl";
          Runner_kubectl.Args := ["describe"; "pods"; "-n"; "$NAMESPACE"] |}.
Proof.
  split.
  - apply (proj1 C1_unnamed_collector unit Fixtures.literal tt
             Fixtures.logs_unnamed "ns1" "c1"); reflexivity.
  - apply (proj2 (proj2 C1_unnamed_collector) unit unit string Z
             Fixtures.literal Fixtures.mapper tt tt
             (Fixtures.describe_all "pods" "") "" "" "pods" false); reflexivity.
Defined.

(** The describe builder run on a collector whose name and selector are both
    empty: both resolve to the empty string, and the builder does not fail
    with [a name or selector must be specified] but returns a command. *)
Lemma C1_describe_unnamed_counterexample :
  let c := Fixtures.describe_all "pods" "" in
  let run := Runner_kubectl.Describe unit unit string Z Fixtures.literal
               Fixtures.mapper tt tt (Some c) in
  Fixtures.literal (Runner_kubectl.Name c) tt = Ok ""
  /\ Fixtures.literal (Runner_kubectl.Selector c) tt = Ok ""
  /\ outcome run <> Err "a name or selector must be specified"
  /\ is_ok (outcome run) = true
  /\ outcome run
     = Ok {| Runner_kubectl.cmdCluster := "";
             Runner_kubectl.cmdTimeout := None;
             Runner_kubectl.Entrypoint := "kubectl";
             Runner_kubectl.Args := ["describe"; "pods"; "-n"; "$NAMESPACE"] |}.
Proof. cbv zeta. repeat split; try reflexivity. discriminate. Qed.

(** C7.  For a valid describe collector (its templates and the resource
    mapping resolve, and the name and selector are not both set) the args
    are [describe], the resource, the name or [-l selector] if any, the
    namespace flags, and the show-events flag exactly when the option is set.
    The namespace flags are: nothing for a cluster-scoped resource, whatever
    the namespace field; otherwise [--all-namespaces] for the namespace [*],
    [-n $NAMESPACE] for the empty namespace, and [-n] with the namespace in
    every other case.  So for a cluster-scoped resource [-n] and
    [--all-namespaces] are not among the args, unless the resource, the name
    or the selector is itself that string. *)
Theorem C7_describe_namespace_flags
  Bindings Client Ref Duration
  (resolve : string -> Bindings -> result string)
  (mapper : Client -> Bindings -> Ref -> result (string * bool))
  client bindings (c : Runner_kubectl.Describe_ Ref Duration)
  name namespace selector cluster resource clustered :
  resolve (Runner_kubectl.Name c) bindings = Ok name ->
  resolve (Runner_kubectl.Namespace c) bindings = Ok namespace ->
  resolve (Runner_kubectl.Selector c) bindings = Ok selector ->
  resolve (Runner_kubectl.Cluster c) bindings = Ok cluster ->
  mapper client bindings (Runner_kubectl.Reference c) = Ok (resource, clustered) ->
  name = "" \/ selector = "" ->
  exists cmd nsflags,
    outcome (Runner_kubectl.Describe Bindings Client Ref Duration resolve
               mapper client bindings (Some c)) = Ok cmd
    /\ Runner_kubectl.Args cmd
       = ["describe"; resource] ++ Spec.describe_target name selector
         ++ nsflags ++ Spec.show_events (Runner_kubectl.ShowEvents c)
    /\ (clustered = true -> nsflags = [])
    /\ (clustered = false -> namespace = "*" -> nsflags = ["--all-namespaces"])
    /\ (clustered = false -> namespace = "" -> nsflags = ["-n"; "$NAMESPACE"])
    /\ (clustered = false -> namespace <> "*" -> namespace <> "" ->
        nsflags = ["-n"; namespace])
    /\ (clustered = true ->
        forall flag, flag = "-n" \/ flag = "--all-namespaces" ->
        In flag (Runner_kubectl.Args cmd) ->
        flag = resource \/ flag = name \/ flag = selector).
Proof.
  intros Hn Hns Hs Hc Hm Hvalid.
  rewrite (Describe_resolved Bindings Client Ref Duration resolve mapper
             _ _ _ _ _ _ _ _ _ Hn Hns Hs Hc Hm).
  assert (Hv : negb (String.eqb name "") && negb (String.eqb selector "") = false).
  { destruct Hvalid as [-> | ->]; cbn [String.eqb negb andb];
      [reflexivity | apply andb_false_r]. }
  rewrite Hv.
  assert (Ht : (if negb (String.eqb name "") then [name]
                else if negb (String.eqb selector "") then ["-l"; selector]
                else []) = Spec.describe_target name selector).
  { destruct name; [destruct selector|]; reflexivity. }
  assert (He : match Runner_kubectl.ShowEvents c with
               | Some b => [String.append "--show-events=" (Sprint_bool b)]
               | None => []
               end = Spec.show_events (Runner_kubectl.ShowEvents c)).
  { destruct (Runner_kubectl.ShowEvents c) as [[|]|]; reflexivity. }
  eexists. eexists. split; [reflexivity|]. cbn [Runner_kubectl.Args].
  rewrite Ht, He. split; [reflexivity|].
  split; [intros ->; reflexivity|].
  split; [intros -> ->; reflexivity|].
  split; [intros -> ->; reflexivity|].
  split.
  - intros -> Hstar Hempty.
    apply String.eqb_neq in Hstar, Hempty. rewrite Hstar, Hempty. reflexivity.
  - intros -> flag Hflag Hin. cbn [app] in Hin.
    destruct Hin as [Hd | [Hr | Hin]].
    + destruct Hflag as [-> | ->]; discriminate.
    + left; symmetry; exact Hr.
    + apply in_app_or in Hin. destruct Hin as [Hin | Hin].
      * unfold Spec.describe_target in Hin.
        destruct name; [destruct selector|]; cbn [In] in Hin.
        -- contradiction.
        -- destruct Hin as [Hl | [Hsel | []]].
           ++ destruct Hflag as [-> | ->]; discriminate.
           ++ right; right; symmetry; exact Hsel.
        -- destruct Hin as [Hname | []]. right; left; symmetry; exact Hname.
      * destruct (Runner_kubectl.ShowEvents c) as [[|]|]; cbn [Spec.show_events In] in Hin;
          try contradiction;
          destruct Hin as [He' | []]; destruct Hflag as [-> | ->]; discriminate.
Qed.

(** Describing the node [node-1]: the namespace field [ns1] leaves no trace
    in the args, which contain neither [-n] nor [--all-namespaces]. *)
Lemma C7_describe_namespace_flags_witness :
  exists cmd,
    outcome (Runner_kubectl.Describe unit unit string Z Fixtures.literal
               Fixtures.mapper tt tt (Some Fixtures.describe_node)) = Ok cmd
    /\ Runner_kubectl.Args cmd
       = ["describe"; "nodes"; "node-1"; "--show-events=true"]
    /\ ~ In "-n" (Runner_kubectl.Args cmd)
    /\ ~ In "--all-namespaces" (Runner_kubectl.Args cmd).
Proof.
  destruct (C7_describe_namespace_flags unit unit string Z Fixtures.literal
              Fixtures.mapper tt tt Fixtures.describe_node
              "node-1" "ns1" "" "" "nodes" true
              eq_refl eq_refl eq_refl eq_refl eq_refl (or_intror eq_refl))
    as (cmd & nsflags & Hrun & Hargs & Hclustered & _ & _ & _ & Hflags).
  exists cmd. rewrite (Hclustered eq_refl) in Hargs.
  split; [exact Hrun|]. split; [exact Hargs|].
  split; intros Hin.
  - destruct (Hflags eq_refl "-n" (or_introl eq_refl) Hin) as [H | [H | H]];
      discriminate H.
  - destruct (Hflags eq_refl "--all-namespaces" (or_intror eq_refl) Hin)
      as [H | [H | H]]; discriminate H.
Defined.

(** ** The namespace provisioner *)

Section SetupFacts.

Import Processors.

Variable E : Externals.

Abbreviation Processor := (testsProcessor (Binding E) (ObjectMeta E) (TemplateValue E)).

(** Unfolds the setup down to the calls of its collaborators. *)
Ltac setup_unfold :=
  unfold setup_run, Run_setup, go_bind, go_ret, t_Cleanup, logging_Log, FailNow,
    Get, Create, emit, initial, scope_exit.

(** Splits a run of the setup into its paths. *)
Ltac setup_paths p c :=
  setup_unfold;
  destruct (report p);
  destruct (clusters_Resolve E false) as [[clusterConfig [client|]]|err0];
  cbn -[String.eqb];
  try destruct (String.eqb (Namespace_Name (config p)) "");
  cbn -[String.eqb];
  try destruct (Namespace_Template (config p)) as [[value|]|];
  cbn -[String.eqb];
  try match goal with
      | |- context [mutate_Merge E ?o ?b ?v] =>
        destruct (mutate_Merge E o b v) as [merged|err1]; cbn -[String.eqb]
      end;
  try match goal with
      | |- context [client_Get E ?cl ?cs ?o] =>
        destruct (client_Get E cl cs o) as [[|msg]|] eqn:Hget; cbn -[String.eqb]
      end;
  try destruct (cleanup_Skip E (Cleanup_SkipDelete (config p)) None None) eqn:Hskip;
  cbn -[String.eqb];
  try match goal with
      | |- context [client_Create E ?cl ?cs ?o] =>
        destruct (client_Create E cl cs o) as [c' [err2|]] eqn:Hcreate;
        cbn -[String.eqb]
      end.

(** A successful fetch is the last thing the setup does: it leaves the
    cluster as it was, registers no deletion, creates nothing and does not
    fail. *)
Lemma setup_run_fetched (p : Processor) bindings c object :
  In (EvGet E object None) (trace E (setup_run E p bindings c)) ->
  let w := setup_run E p bindings c in
  cluster E w = c
  /\ failed E w = false
  /\ existsb (is_create E) (trace E w) = false
  /\ existsb (is_delete_registration E) (trace E w) = false
  /\ (forall o, ~ In (DeleteNamespace E o) (cleanups E w)).
Proof.
  setup_paths p c; intros Hin;
    repeat (destruct Hin as [Hin | Hin]; try discriminate Hin);
    try contradiction;
    (repeat split; try reflexivity; intros o Ho; cbn in Ho;
     intuition discriminate).
Qed.

Lemma rerun_fetched (p : Processor) bindings c object :
  In (EvGet E object None) (trace E (setup_run E p bindings c)) ->
  forall n, rerun E n p bindings c = setup_run E p bindings c.
Proof.
  intros Hin n. induction n as [|n IH]; [reflexivity|].
  cbn [rerun]. rewrite IH.
  destruct (setup_run_fetched p bindings c object Hin) as [-> _]. reflexivity.
Qed.

(** C5.  When the fetch of the namespace succeeds, that run and every
    repeated run against the cluster it leaves fetch the namespace again
    with success, issue no create call, register no deletion cleanup, and
    do not fail the enclosing test; the cluster is left as it was. *)
Theorem C5_existing_namespace_reused (p : Processor) bindings c object :
  In (EvGet E object None) (trace E (setup_run E p bindings c)) ->
  forall n,
    let w := rerun E n p bindings c in
    In (EvGet E object None) (trace E w)
    /\ (forall o err, ~ In (EvCreate E o err) (trace E w))
    /\ (forall o, ~ In (EvCleanup E (DeleteNamespace E o)) (trace E w))
    /\ (forall o, ~ In (DeleteNamespace E o) (cleanups E w))
    /\ failed E w = false
    /\ ~ In (EvFailNow E) (trace E w)
    /\ cluster E w = c.
Proof.
  intros Hin n. cbv zeta. rewrite (rerun_fetched p bindings c object Hin n).
  split; [exact Hin|]. revert Hin.
  setup_paths p c; intros Hin;
    repeat (destruct Hin as [Hin | Hin]; try discriminate Hin);
    try contradiction;
    (repeat split; try reflexivity; intros; cbn in *; intuition discriminate).
Qed.

(** C6.  When the fetch of the namespace fails with not-found and the
    skip-delete policy does not apply, the trace of the setup ends with the
    registration of the deletion cleanup immediately followed by the one
    create call (and by [FailNow] when the create fails).  The cleanup is
    registered whatever the create returns, so it runs when the enclosing
    test ends. *)
Theorem C6_cleanup_registered_before_create (p : Processor) bindings c object :
  In (EvGet E object (Some NotFound)) (trace E (setup_run E p bindings c)) ->
  cleanup_Skip E (Cleanup_SkipDelete (config p)) None None = false ->
  let w := setup_run E p bindings c in
  exists before err,
    trace E w
    = before
      ++ [EvCleanup E (DeleteNamespace E object); EvCreate E object err]
      ++ match err with Some _ => [EvFailNow E] | None => [] end
    /\ (forall o e, ~ In (EvCreate E o e) before)
    /\ In (DeleteNamespace E object) (cleanups E w)
    /\ In (EvRunCleanup E (DeleteNamespace E object)) (trace E (scope_exit E w))
    /\ failed E w = match err with Some _ => true | None => false end.
Proof.
  intros Hin Hpolicy. revert Hin. cbv zeta.
  setup_paths p c; intros Hin;
    repeat (destruct Hin as [Hin | Hin]; try discriminate Hin);
    try contradiction; try congruence;
    injection Hin as <-;
    match goal with
    | |- context [EvCreate E ?o ?err] =>
      match goal with
      | |- context [EvCleanup E (ReportSetEndTime E)] =>
        exists [EvCleanup E (ReportSetEndTime E); EvGet E o (Some NotFound)], err
      | _ => exists [EvGet E o (Some NotFound)], err
      end
    end;
    (repeat split; try reflexivity; cbn; intros; intuition discriminate).
Qed.

End SetupFacts.

(** The namespace [ns] exists: two runs of the setup in a row fetch it and
    neither creates anything nor registers a deletion. *)
Lemma C5_existing_namespace_reused_witness :
  let w := Processors.rerun Fixtures.externals 1
             (Fixtures.processor "ns" false []) None ["ns"] in
  Processors.trace Fixtures.externals w
  = [Processors.EvGet Fixtures.externals "ns" None]
  /\ (forall o err,
         ~ In (Processors.EvCreate Fixtures.externals o err)
              (Processors.trace Fixtures.externals w))
  /\ (forall o,
         ~ In (Processors.DeleteNamespace Fixtures.externals o)
              (Processors.cleanups Fixtures.externals w)).
Proof.
  cbv zeta. split; [reflexivity|].
  destruct (C5_existing_namespace_reused Fixtures.externals
              (Fixtures.processor "ns" false []) None ["ns"] "ns"
              (or_introl eq_refl) 1)
    as (_ & Hcreate & _ & Hcleanup & _).
  split; [exact Hcreate | exact Hcleanup].
Defined.

(** The namespace [forbidden] is absent and its creation is denied: the
    deletion was registered before the create call, and runs at the end. *)
Lemma C6_cleanup_registered_before_create_witness :
  let w := Processors.setup_run Fixtures.externals
             (Fixtures.processor "forbidden" false []) None [] in
  exists before err,
    Processors.trace Fixtures.externals w
    = before
      ++ [Processors.EvCleanup Fixtures.externals
            (Processors.DeleteNamespace Fixtures.externals "forbidden");
          Processors.EvCreate Fixtures.externals "forbidden" err]
      ++ match err with
         | Some _ => [Processors.EvFailNow Fixtures.externals]
         | None => []
         end
    /\ (forall o e, ~ In (Processors.EvCreate Fixtures.externals o e) before)
    /\ In (Processors.DeleteNamespace Fixtures.externals "forbidden")
          (Processors.cleanups Fixtures.externals w)
    /\ In (Processors.EvRunCleanup Fixtures.externals
             (Processors.DeleteNamespace Fixtures.externals "forbidden"))
          (Processors.trace Fixtures.externals (Processors.scope_exit Fixtures.externals w))
    /\ Processors.failed Fixtures.externals w
       = match err with Some _ => true | None => false end.
Proof.
  exact (C6_cleanup_registered_before_create Fixtures.externals
           (Fixtures.processor "forbidden" false []) None [] "forbidden"
           (or_introl eq_refl) eq_refl).
Defined.

(** ** Scenario expansion *)

Section ExpansionFacts.

Import Processors.

Variable E : Externals.

Abbreviation DTest := (discovery_Test (Binding E) (ObjectMeta E)).



(** A discovered test without a definition has no instance. *)
Lemma scenarios_nil_test (test : DTest) :
  Test test = None -> scenarios E test = [].
Proof. intros Ht. unfold scenarios. rewrite Ht. reflexivity. Qed.

(** Every instance has a test definition. *)
Lemma scenarios_defined (test inst : DTest) :
  In inst (scenarios E test) -> exists decl, Test inst = Some decl.
Proof.
  unfold scenarios. destruct (Test test) as [decl|] eqn:Ht; [|intros []].
  destruct (Nat.eqb _ _).
  - intros [<- | []]. exists decl; exact Ht.
  - intros Hin. apply in_map_iff in Hin. destruct Hin as (sc & <- & _).
    eexists; reflexivity.
Qed.

(** The loop indices of the launched instances start at the index the loop
    starts at. *)
Lemma launched_index_ge cfg (tests : list DTest) i0 inst :
  In inst (fst (launched E cfg i0 tests)) -> i0 <= i E inst.
Proof.
  revert i0. induction tests as [|test rest IH]; intros i0; cbn [launched].
  - intros [].
  - destruct (names_Test E cfg test) as [nm|err]; [|intros []].
    destruct (launched E cfg (S i0) rest) as [later failNow] eqn:Hl.
    cbn [fst]. intros Hin. apply in_app_or in Hin. destruct Hin as [Hin | Hin].
    + apply list_elem_of_In, list_elem_of_lookup in Hin. destruct Hin as [s Hs].
      rewrite list_lookup_imap in Hs.
      destruct (scenarios E test !! s); [|discriminate].
      cbn in Hs. injection Hs as <-. cbn. lia.
    + specialize (IH (S i0)). rewrite Hl in IH. cbn [fst] in IH.
      specialize (IH Hin). lia.
Qed.


End ExpansionFacts.



(** ** One instance *)

Section InstanceFacts.

Import Processors.

Variable E : Externals.
Variable p : testsProcessor (Binding E) (ObjectMeta E) (TemplateValue E).
Variable bindings : Bindings E.
Variable nspacer : option (Namespacer E).

Local Arguments incs_of : simpl never.

Abbreviation tstep' := (tstep E p bindings nspacer).
Abbreviation inv' := (inv E p bindings nspacer).

Lemma ran_app l1 l2 : ran (l1 ++ l2) = ran l1 || ran l2.
Proof. apply existsb_app. Qed.

Lemma stored_app l1 l2 : stored (l1 ++ l2) = stored l1 || stored l2.
Proof. apply existsb_app. Qed.

Lemma incs_app l1 l2 : incs (l1 ++ l2) = incs l1 ++ incs l2.
Proof.
  induction l1 as [|a l1 IH]; [reflexivity|].
  destruct a; cbn [incs app]; rewrite IH; reflexivity.
Qed.

Lemma incs_of_app c l1 l2 : incs_of c (l1 ++ l2) = incs_of c l1 + incs_of c l2.
Proof.
  unfold incs_of. rewrite incs_app.
  induction (incs l1) as [|d cs IH]; [reflexivity|].
  cbn [app occurrences]. rewrite IH. lia.
Qed.

(** Takes a step of an instance apart, path by path. *)
Ltac tstep_paths inst sh t :=
  unfold tstep, info, run_cleanup, registered, steps_left in *;
  destruct t as [at0 failed0 skipped0 pending0 log0]; cbn in *;
  destruct at0; cbn in *;
  try match goal with
      | |- context [Test (test E inst)] =>
        destruct (Test (test E inst)) eqn:?; cbn in *
      end;
  try match goal with
      | |- context [summary p] => destruct (summary p) eqn:?; cbn in *
      end;
  try match goal with
      | |- context [Concurrent (Spec ?d)] =>
        destruct (Concurrent (Spec d)) as [[|]|] eqn:?; cbn in *
      end;
  try match goal with
      | |- context [is_true_ptr (Skip (Spec ?d))] =>
        destruct (is_true_ptr (Skip (Spec d))) eqn:?; cbn in *
      end;
  try match goal with
      | |- context [Execution_FailFast (config p)] =>
        destruct (Execution_FailFast (config p)) eqn:?; cbn in *
      end;
  try match goal with
      | |- context [if shouldFailFast sh then _ else _] =>
        destruct (shouldFailFast sh) eqn:?; cbn in *
      end;
  try match goal with
      | |- context [match pending0 with _ => _ end] =>
        destruct pending0 as [|[|] ?]; cbn in *
      end;
  try match goal with
      | |- context [if failed0 then _ else _] => destruct failed0; cbn in *
      end.

(** The flag is only ever stored [true] into. *)
Lemma tstep_flag_monotone inst sh t :
  shouldFailFast sh = true ->
  shouldFailFast (fst (tstep' inst sh t)) = true.
Proof. intros H. tstep_paths inst sh t; congruence. Qed.

(** A step of an instance changes a counter exactly as its log records. *)
Lemma tstep_counts inst sh t c :
  count c (counters (fst (tstep' inst sh t))) + incs_of c (log t)
  = count c (counters sh) + incs_of c (log (snd (tstep' inst sh t))).
Proof.
  destruct c; tstep_paths inst sh t; rewrite ?incs_of_app, ?app_nil_r; try lia;
    match goal with |- context [incs_of ?c ?l + _] => generalize (incs_of c l) end;
    intros n; unfold incs_of, incs, verdict; cbn;
    repeat match goal with
           | |- context [if ?x then _ else _] => destruct x; cbn
           end; lia.
Qed.

(** After a step the instance has stored into the flag only if it had
    before, or the flag is now set. *)
Lemma tstep_stored inst sh t :
  stored (log (snd (tstep' inst sh t))) = true ->
  stored (log t) = true \/ shouldFailFast (fst (tstep' inst sh t)) = true.
Proof.
  unfold stored. tstep_paths inst sh t; rewrite ?existsb_app, ?app_nil_r; cbn;
    rewrite ?orb_false_r; auto.
Qed.

(** A step brings an instance closer to completion. *)
Lemma tstep_progress inst sh t decl :
  Test (test E inst) = Some decl ->
  at_ t <> Done -> at_ t <> Panicked ->
  pending t = [] \/ pending t = [StoreFailFast] \/ pending t = registered E p ->
  steps_left (snd (tstep' inst sh t)) < steps_left t.
Proof.
  intros Hd Hdone Hpanic Hpending. unfold steps_left.
  tstep_paths inst sh t; try congruence; try lia.
  all: destruct Hpending as [H | [H | H]]; try discriminate H; cbn; lia.
Qed.

(** A complete instance stays as it is. *)
Lemma tstep_Done inst sh t :
  at_ t = Done -> tstep' inst sh t = (sh, t).
Proof. intros H. destruct t; cbn in H; subst; reflexivity. Qed.

(** The invariant of an instance gives the shape of its pending cleanups. *)
Lemma inv_pending inst t :
  inv' inst t ->
  pending t = [] \/ pending t = [StoreFailFast] \/ pending t = registered E p.
Proof.
  intros [_ H]. destruct t as [at0 failed0 skipped0 pending0 log0]; cbn in *.
  destruct at0; cbn in H.
  - injection H as _ _ ->. auto.
  - tauto.
  - tauto.
  - destruct H as [_ [H | [H | H]]]; tauto.
  - tauto.
  - contradiction.
Qed.

Lemma inv_not_Panicked inst t : inv' inst t -> at_ t <> Panicked.
Proof. intros [_ H] Hp. rewrite Hp in H. exact H. Qed.

(** Breaks the hypotheses into atoms; solves a goal made of conjunctions,
    disjunctions and existentials over equations. *)
Ltac break_hyps :=
  repeat match goal with
         | H : _ /\ _ |- _ => destruct H
         | H : _ \/ _ |- _ => destruct H
         | H : ex _ |- _ => destruct H
         | H : ?a = ?a -> _ |- _ => specialize (H eq_refl)
         | H : false = true -> _ |- _ => clear H
         end.

Ltac solve_atom :=
  first [reflexivity | assumption | discriminate | congruence
         | intros; first [discriminate | congruence]].

Ltac solve_shape :=
  lazymatch goal with
  | |- _ /\ _ => split; solve_shape
  | |- _ \/ _ => first [solve [left; solve_shape] | solve [right; solve_shape]]
  | |- ex _ => eexists; solve_shape
  | |- _ <> _ => solve_atom
  | |- _ -> _ => intros; solve_shape
  | |- _ => solve_atom
  end.

(** A step of an instance preserves its invariant. *)
Lemma tstep_inv inst sh t decl :
  Test (test E inst) = Some decl ->
  inv' inst t -> inv' inst (snd (tstep' inst sh t)).
Proof.
  intros Hd.
  unfold inv, settled, skip_requested, processor_outcome, ran, stored, fresh.
  intros [Hskip Hshape].
  tstep_paths inst sh t; try contradiction; try discriminate.
  all: rewrite ?existsb_app, ?incs_app, ?app_nil_r; cbn.
  all: break_hyps; simplify_eq; cbn in *; rewrite ?orb_false_r, ?orb_true_r.
  all: try match goal with H : incs _ = _ |- _ => rewrite !H; cbn end.
  all: solve_shape.
Qed.

(** With fail-fast configured and the flag set, an instance that has not
    entered the processor does not enter it. *)
Lemma tstep_late inst sh t decl :
  Execution_FailFast (config p) = true ->
  shouldFailFast sh = true ->
  Test (test E inst) = Some decl ->
  ran (log t) = false -> at_ t <> InProcessor ->
  ran (log (snd (tstep' inst sh t))) = false
  /\ at_ (snd (tstep' inst sh t)) <> InProcessor.
Proof.
  intros Hff Hflag Hd. unfold ran. intros Hran Hat.
  tstep_paths inst sh t; try congruence;
    rewrite ?existsb_app, ?app_nil_r, ?Hran; cbn; split; congruence.
Qed.

(** The log of an instance only grows: once the processor has run, it has
    run. *)
Lemma tstep_ran inst sh t :
  ran (log t) = true -> ran (log (snd (tstep' inst sh t))) = true.
Proof.
  unfold ran. intros Hran.
  tstep_paths inst sh t; rewrite ?existsb_app, ?app_nil_r, ?Hran; reflexivity.
Qed.

(** The step of an instance inside the processor is the return of the
    processor. *)
Lemma tstep_InProcessor inst sh t decl :
  Test (test E inst) = Some decl ->
  at_ t = InProcessor ->
  ran (log (snd (tstep' inst sh t))) = true
  /\ at_ (snd (tstep' inst sh t)) = Exiting.
Proof.
  intros Hd Hat. unfold ran.
  tstep_paths inst sh t; try congruence.
  rewrite existsb_app. cbn. rewrite orb_true_r. split; reflexivity.
Qed.

(** The instance a step is taken for does not read the flag once it is past
    its body: its next [testing.T] is the same whatever the flag. *)
Lemma tstep_flag_irrelevant inst sh sh' t :
  at_ t <> Body ->
  snd (tstep' inst sh t) = snd (tstep' inst sh' t).
Proof.
  intros Hat. tstep_paths inst sh t; first [reflexivity | congruence].
Qed.

End InstanceFacts.

(** ** The instances of a run *)

Section RunFacts.

Import Processors.

Variable E : Externals.
Variable p : testsProcessor (Binding E) (ObjectMeta E) (TemplateValue E).
Variable bindings : Bindings E.
Variable nspacer : option (Namespacer E).

Abbreviation step' := (step E p bindings nspacer).
Abbreviation exec' := (exec E p bindings nspacer).
Abbreviation wf' := (wf E p bindings nspacer).

Lemma exec_cons k schedule r :
  exec' (k :: schedule) r = exec' schedule (step' k r).
Proof. reflexivity. Qed.

Lemma exec_app schedule1 schedule2 r :
  exec' (schedule1 ++ schedule2) r = exec' schedule2 (exec' schedule1 r).
Proof. unfold exec. apply fold_left_app. Qed.

(** What a step does to the instance that takes it, and to the others. *)
Lemma step_at k r sub :
  subs E r !! k = Some sub ->
  shared E (step' k r) = fst (tstep E p bindings nspacer (inst_ E sub) (shared E r) (t_ E sub))
  /\ subs E (step' k r) !! k
     = Some {| inst_ := inst_ E sub;
               t_ := snd (tstep E p bindings nspacer (inst_ E sub) (shared E r) (t_ E sub)) |}.
Proof.
  intros Hk. unfold step. rewrite Hk.
  destruct (tstep E p bindings nspacer (inst_ E sub) (shared E r) (t_ E sub)) as [sh t].
  cbn. split; [reflexivity|].
  apply list_lookup_insert_eq. eapply lookup_lt_Some. exact Hk.
Qed.

Lemma step_other k j r :
  k <> j -> subs E (step' k r) !! j = subs E r !! j.
Proof.
  intros Hne. unfold step. destruct (subs E r !! k) as [sub|]; [|reflexivity].
  destruct (tstep E p bindings nspacer (inst_ E sub) (shared E r) (t_ E sub)) as [sh t].
  cbn. apply list_lookup_insert_ne. exact Hne.
Qed.

Lemma step_absent k r : subs E r !! k = None -> step' k r = r.
Proof. intros Hk. unfold step. rewrite Hk. reflexivity. Qed.

(** The flag is never cleared. *)
Lemma step_flag_monotone k r :
  shouldFailFast (shared E r) = true -> shouldFailFast (shared E (step' k r)) = true.
Proof.
  intros Hflag. destruct (subs E r !! k) as [sub|] eqn:Hk.
  - destruct (step_at k r sub Hk) as [-> _].
    apply tstep_flag_monotone. exact Hflag.
  - rewrite (step_absent k r Hk). exact Hflag.
Qed.

Lemma exec_flag_monotone schedule r :
  shouldFailFast (shared E r) = true ->
  shouldFailFast (shared E (exec' schedule r)) = true.
Proof.
  revert r. induction schedule as [|k schedule IH]; intros r Hflag; [exact Hflag|].
  rewrite exec_cons. apply IH, step_flag_monotone, Hflag.
Qed.

(** The invariant of a run is preserved by every step. *)
Lemma step_wf k r : wf' r -> wf' (step' k r).
Proof.
  intros Hwf. destruct (subs E r !! k) as [sub|] eqn:Hk;
    [|rewrite (step_absent k r Hk); exact Hwf].
  unfold wf in *. rewrite Forall_lookup in Hwf. apply Forall_lookup.
  intros j sub' Hj. destruct (decide (k = j)) as [<- | Hne].
  - destruct (step_at k r sub Hk) as [Hsh Hsub]. rewrite Hsub in Hj.
    injection Hj as <-. cbn.
    destruct (Hwf k sub Hk) as ([decl Hd] & Hinv & Hstored).
    split; [exists decl; exact Hd|]. split.
    + eapply tstep_inv; eassumption.
    + intros Hst. rewrite Hsh.
      destruct (tstep_stored E p bindings nspacer _ _ _ Hst) as [Hold | Hnew];
        [|exact Hnew].
      apply tstep_flag_monotone, Hstored, Hold.
  - rewrite (step_other k j r Hne) in Hj.
    destruct (Hwf j sub' Hj) as (Hd & Hinv & Hstored).
    split; [exact Hd|]. split; [exact Hinv|].
    intros Hst. apply step_flag_monotone, Hstored, Hst.
Qed.

Lemma exec_wf schedule r : wf' r -> wf' (exec' schedule r).
Proof.
  revert r. induction schedule as [|k schedule IH]; intros r Hwf; [exact Hwf|].
  rewrite exec_cons. apply IH, step_wf, Hwf.
Qed.

(** Every launched instance has a test definition. *)
Lemma launched_defined cfg tests i0 inst :
  In inst (fst (launched E cfg i0 tests)) ->
  exists decl, Test (test E inst) = Some decl.
Proof.
  revert i0. induction tests as [|head rest IH]; intros i0; cbn [launched].
  - intros [].
  - destruct (names_Test E cfg head) as [nm|err]; [|intros []].
    destruct (launched E cfg (S i0) rest) as [later failNow] eqn:Hl.
    cbn [fst]. intros Hin. apply in_app_or in Hin. destruct Hin as [Hin | Hin].
    + apply list_elem_of_In, list_elem_of_lookup in Hin. destruct Hin as [s Hs].
      rewrite list_lookup_imap in Hs.
      destruct (scenarios E head !! s) as [sc|] eqn:Hsc; [|discriminate].
      cbn in Hs. injection Hs as <-. cbn.
      apply (scenarios_defined E head sc).
      apply list_elem_of_In, list_elem_of_lookup. exists s. exact Hsc.
    + specialize (IH (S i0)). rewrite Hl in IH. apply IH, Hin.
Qed.

(** The run starts in a state that satisfies the invariant. *)
Lemma start_wf sm : wf' (start E p sm).
Proof.
  unfold wf, start. cbn [subs shared]. apply Forall_lookup.
  intros j sub Hj. rewrite list_lookup_fmap in Hj.
  destruct (fst (launched E (config p) 0 (tests p)) !! j) as [inst|] eqn:Hinst;
    [|discriminate].
  cbn in Hj. injection Hj as <-. cbn.
  split.
  - apply (launched_defined (config p) (tests p) 0).
    apply list_elem_of_In, list_elem_of_lookup. exists j. exact Hinst.
  - split; [|discriminate]. split; [|reflexivity].
    intros _. split; [reflexivity | discriminate].
Qed.

(** A step keeps the instances and their order. *)
Lemma step_inst k r j sub :
  subs E r !! j = Some sub ->
  exists sub', subs E (step' k r) !! j = Some sub' /\ inst_ E sub' = inst_ E sub.
Proof.
  intros Hj. destruct (decide (k = j)) as [-> | Hne].
  - destruct (step_at j r sub Hj) as [_ Hsub]. eexists. split; [exact Hsub|reflexivity].
  - exists sub. rewrite (step_other k j r Hne). split; [exact Hj|reflexivity].
Qed.

Lemma step_length k r : length (subs E (step' k r)) = length (subs E r).
Proof.
  unfold step. destruct (subs E r !! k) as [sub|]; [|reflexivity].
  destruct (tstep E p bindings nspacer (inst_ E sub) (shared E r) (t_ E sub)) as [sh t].
  cbn. apply length_insert.
Qed.

Lemma exec_length schedule r : length (subs E (exec' schedule r)) = length (subs E r).
Proof.
  revert r. induction schedule as [|k schedule IH]; intros r; [reflexivity|].
  rewrite exec_cons, IH. apply step_length.
Qed.

(** An instance scheduled as often as it has steps left completes. *)
Lemma exec_completes schedule r k sub :
  wf' r ->
  subs E r !! k = Some sub ->
  steps_left (t_ E sub) <= count_occ Nat.eq_dec schedule k ->
  exists sub',
    subs E (exec' schedule r) !! k = Some sub'
    /\ inst_ E sub' = inst_ E sub
    /\ at_ (t_ E sub') = Done.
Proof.
  revert r sub. induction schedule as [|j schedule IH]; intros r sub Hwf Hk Hleft.
  - exists sub. split; [exact Hk|]. split; [reflexivity|].
    unfold wf in Hwf. rewrite Forall_lookup in Hwf.
    destruct (Hwf k sub Hk) as (_ & Hinv & _).
    pose proof (inv_not_Panicked E p bindings nspacer _ _ Hinv) as Hpanic.
    cbn in Hleft. unfold steps_left in Hleft.
    destruct (at_ (t_ E sub)); try lia; [reflexivity | congruence].
  - rewrite exec_cons. pose proof (step_wf j r Hwf) as Hwf'.
    cbn [count_occ] in Hleft. destruct (Nat.eq_dec j k) as [-> | Hne].
    + destruct (step_at k r sub Hk) as [_ Hsub].
      unfold wf in Hwf. rewrite Forall_lookup in Hwf.
      destruct (Hwf k sub Hk) as ([decl Hd] & Hinv & _).
      destruct (IH (step' k r) _ Hwf' Hsub) as (sub' & Hsub' & Hinst & Hdone).
      * cbn [t_].
        assert (Hcase : at_ (t_ E sub) = Done \/ at_ (t_ E sub) <> Done)
          by (destruct (at_ (t_ E sub)); auto; right; discriminate).
        destruct Hcase as [Hd' | Hnd].
        -- rewrite (tstep_Done E p bindings nspacer _ _ _ Hd'). cbn [snd].
           unfold steps_left. rewrite Hd'. lia.
        -- pose proof (tstep_progress E p bindings nspacer (inst_ E sub)
                         (shared E r) (t_ E sub) decl Hd Hnd
                         (inv_not_Panicked E p bindings nspacer _ _ Hinv)
                         (inv_pending E p bindings nspacer _ _ Hinv)).
           lia.
      * exists sub'. split; [exact Hsub'|]. split; [exact Hinst | exact Hdone].
    + assert (Hk' : subs E (step' j r) !! k = Some sub).
      { rewrite (step_other j k r Hne). exact Hk. }
      exact (IH (step' j r) sub Hwf' Hk' Hleft).
Qed.

(** The sum over the instances after one of them is replaced. *)
Lemma sum_list_with_insert {A} (f : A -> nat) (l : list A) k x y :
  l !! k = Some x ->
  sum_list_with f (<[k := y]> l) + f x = sum_list_with f l + f y.
Proof.
  revert k. induction l as [|a l IH]; intros k Hk; [discriminate|].
  destruct k as [|k]; simpl in *.
  - injection Hk as ->. lia.
  - specialize (IH k Hk). lia.
Qed.

(** Every step changes each counter by what the log of the stepping
    instance records. *)
Lemma step_counts k r c :
  count c (counters (shared E (step' k r))) + all_incs_of E c (subs E r)
  = count c (counters (shared E r)) + all_incs_of E c (subs E (step' k r)).
Proof.
  unfold step. destruct (subs E r !! k) as [sub|] eqn:Hk; [|reflexivity].
  pose proof (tstep_counts E p bindings nspacer (inst_ E sub) (shared E r) (t_ E sub) c) as Hc.
  destruct (tstep E p bindings nspacer (inst_ E sub) (shared E r) (t_ E sub)) as [sh t].
  cbn [fst snd shared subs] in *. unfold all_incs_of.
  pose proof (sum_list_with_insert (fun sub => incs_of c (log (t_ E sub)))
                (subs E r) k sub {| inst_ := inst_ E sub; t_ := t |} Hk) as Hs.
  cbn [t_] in Hs. lia.
Qed.

Lemma exec_counts schedule r c :
  count c (counters (shared E (exec' schedule r))) + all_incs_of E c (subs E r)
  = count c (counters (shared E r)) + all_incs_of E c (subs E (exec' schedule r)).
Proof.
  revert r. induction schedule as [|k schedule IH]; intros r; [reflexivity|].
  rewrite exec_cons. pose proof (IH (step' k r)). pose proof (step_counts k r c). lia.
Qed.

Lemma start_no_incs sm c : all_incs_of E c (subs E (start E p sm)) = 0.
Proof.
  unfold start, all_incs_of. cbn [subs].
  induction (fst (launched E (config p) 0 (tests p))) as [|inst l IH];
    [reflexivity|]. cbn. exact IH.
Qed.

(** With fail-fast configured and the flag set, an instance that has not
    entered the processor never enters it. *)
Lemma exec_late schedule r k sub :
  Execution_FailFast (config p) = true ->
  wf' r ->
  shouldFailFast (shared E r) = true ->
  subs E r !! k = Some sub ->
  ran (log (t_ E sub)) = false -> at_ (t_ E sub) <> InProcessor ->
  exists sub',
    subs E (exec' schedule r) !! k = Some sub'
    /\ inst_ E sub' = inst_ E sub
    /\ ran (log (t_ E sub')) = false
    /\ at_ (t_ E sub') <> InProcessor.
Proof.
  intros Hff. revert r sub.
  induction schedule as [|j schedule IH]; intros r sub Hwf Hflag Hk Hran Hat.
  - exists sub. auto.
  - rewrite exec_cons.
    pose proof (step_wf j r Hwf) as Hwf'.
    pose proof (step_flag_monotone j r Hflag) as Hflag'.
    destruct (Nat.eq_dec j k) as [-> | Hne].
    + destruct (step_at k r sub Hk) as [_ Hsub].
      unfold wf in Hwf. rewrite Forall_lookup in Hwf.
      destruct (Hwf k sub Hk) as ([decl Hd] & _ & _).
      destruct (tstep_late E p bindings nspacer (inst_ E sub) (shared E r)
                  (t_ E sub) decl Hff Hflag Hd Hran Hat) as [Hran' Hat'].
      destruct (IH (step' k r) _ Hwf' Hflag' Hsub Hran' Hat')
        as (sub' & Hsub' & Hinst & Hrest).
      exists sub'. split; [exact Hsub'|]. split; [exact Hinst | exact Hrest].
    + assert (Hk' : subs E (step' j r) !! k = Some sub).
      { rewrite (step_other j k r Hne). exact Hk. }
      exact (IH (step' j r) sub Hwf' Hflag' Hk' Hran Hat).
Qed.

(** An instance that is in the processor, or has been, stays so. *)
Lemma exec_running schedule r k sub :
  wf' r ->
  subs E r !! k = Some sub ->
  at_ (t_ E sub) = InProcessor \/ ran (log (t_ E sub)) = true ->
  exists sub',
    subs E (exec' schedule r) !! k = Some sub'
    /\ inst_ E sub' = inst_ E sub
    /\ (at_ (t_ E sub') = InProcessor \/ ran (log (t_ E sub')) = true).
Proof.
  revert r sub.
  induction schedule as [|j schedule IH]; intros r sub Hwf Hk Hrun.
  - exists sub. auto.
  - rewrite exec_cons.
    pose proof (step_wf j r Hwf) as Hwf'.
    destruct (Nat.eq_dec j k) as [-> | Hne].
    + destruct (step_at k r sub Hk) as [_ Hsub].
      unfold wf in Hwf. rewrite Forall_lookup in Hwf.
      destruct (Hwf k sub Hk) as ([decl Hd] & _ & _).
      assert (Hrun' : ran (log (snd (tstep E p bindings nspacer (inst_ E sub)
                                       (shared E r) (t_ E sub)))) = true).
      { destruct Hrun as [Hat | Hran].
        - apply (tstep_InProcessor E p bindings nspacer _ _ _ decl Hd Hat).
        - apply tstep_ran, Hran. }
      destruct (IH (step' k r) _ Hwf' Hsub (or_intror Hrun'))
        as (sub' & Hsub' & Hinst & Hrest).
      exists sub'. split; [exact Hsub'|]. split; [exact Hinst | exact Hrest].
    + assert (Hk' : subs E (step' j r) !! k = Some sub).
      { rewrite (step_other j k r Hne). exact Hk. }
      exact (IH (step' j r) sub Hwf' Hk' Hrun).
Qed.

(** What the invariant says of a complete instance. *)
Lemma wf_Done r k sub :
  wf' r -> subs E r !! k = Some sub -> at_ (t_ E sub) = Done ->
  settled E bindings nspacer (inst_ E sub) (t_ E sub)
  /\ incs (log (t_ E sub)) = (if summary p then [verdict (t_ E sub)] else [])
  /\ stored (log (t_ E sub)) = Failed_ (t_ E sub)
  /\ (skip_requested E (inst_ E sub) = true -> ran (log (t_ E sub)) = false)
  /\ (Failed_ (t_ E sub) = true -> shouldFailFast (shared E r) = true).
Proof.
  intros Hwf Hk Hdone. unfold wf in Hwf. rewrite Forall_lookup in Hwf.
  destruct (Hwf k sub Hk) as (_ & [Hskip Hshape] & Hstored).
  rewrite Hdone in Hshape. destruct Hshape as (Hsettled & _ & Hincs & Hst).
  split; [exact Hsettled|]. split; [exact Hincs|]. split; [exact Hst|].
  split; [intros H; apply Hskip, H|].
  intros Hfailed. apply Hstored. rewrite Hst. exact Hfailed.
Qed.

End RunFacts.

(** ** Fail-fast *)

(** C3.  In a run with fail-fast configured, after any schedule:
    a complete instance that failed has stored into the flag, which is set,
    and it is the [StoreFailFast] cleanup of a failed instance that sets it;
    once set, the flag stays set whatever is scheduled later; an instance
    that has not reached line 181 when the flag is set never enters the
    processor, and completes skipped and not failed (the skipped counter is
    incremented when there is a summary); an instance that is in the
    processor completes, whatever the flag becomes, with what the processor
    left as its outcome. *)
Theorem C3_fail_fast (E : Processors.Externals)
  (p : Processors.testsProcessor (Processors.Binding E) (Processors.ObjectMeta E)
         (Processors.TemplateValue E))
  (bindings : Processors.Bindings E) (nspacer : option (Processors.Namespacer E))
  (sm : Processors.Summary) (schedule : list nat) :
  Processors.Execution_FailFast (Processors.config p) = true ->
  let exec := Processors.exec E p bindings nspacer in
  let r := exec schedule (Processors.start E p sm) in
  let flag r := Processors.shouldFailFast (Processors.shared E r) in
  let state sub := Processors.t_ E sub in
  (forall k sub,
      Processors.subs E r !! k = Some sub ->
      Processors.at_ (state sub) = Processors.Done ->
      Processors.Failed_ (state sub) = true ->
      Processors.stored (Processors.log (state sub)) = true /\ flag r = true)
  /\ (forall k sub,
         Processors.subs E r !! k = Some sub ->
         Processors.at_ (state sub) = Processors.Exiting ->
         Processors.pending (state sub) = [Processors.StoreFailFast] ->
         Processors.Failed_ (state sub) = true ->
         flag (Processors.step E p bindings nspacer k r) = true)
  /\ (flag r = true -> forall later, flag (exec later r) = true)
  /\ (flag r = true ->
      forall k sub,
        Processors.subs E r !! k = Some sub ->
        Processors.at_ (state sub) = Processors.Created
        \/ Processors.at_ (state sub) = Processors.Body ->
        forall later,
        exists sub',
          Processors.subs E (exec later r) !! k = Some sub'
          /\ Processors.inst_ E sub' = Processors.inst_ E sub
          /\ Processors.ran (Processors.log (state sub')) = false
          /\ Processors.at_ (state sub') <> Processors.InProcessor
          /\ (Processors.at_ (state sub') = Processors.Done ->
              Processors.Skipped_ (state sub') = true
              /\ Processors.Failed_ (state sub') = false
              /\ (Processors.summary p = true ->
                  Processors.incs (Processors.log (state sub'))
                  = [Processors.Skipped]))
          /\ (Processors.steps_left (state sub) <= count_occ Nat.eq_dec later k ->
              Processors.at_ (state sub') = Processors.Done))
  /\ (forall k sub,
         Processors.subs E r !! k = Some sub ->
         Processors.at_ (state sub) = Processors.InProcessor ->
         exists out,
           Processors.processor_outcome E bindings nspacer (Processors.inst_ E sub)
           = Some out
           /\ forall later,
             exists sub',
               Processors.subs E (exec later r) !! k = Some sub'
               /\ Processors.inst_ E sub' = Processors.inst_ E sub
               /\ (Processors.at_ (state sub') = Processors.Done ->
                   Processors.ran (Processors.log (state sub')) = true
                   /\ Processors.Failed_ (state sub') = Processors.outFailed out
                   /\ Processors.Skipped_ (state sub') = Processors.outSkipped out
                   /\ (Processors.summary p = true ->
                       Processors.incs (Processors.log (state sub'))
                       = [Processors.verdict (state sub')]))
               /\ (Processors.steps_left (state sub) <= count_occ Nat.eq_dec later k ->
                   Processors.at_ (state sub') = Processors.Done)).
Proof.
  intros Hff. cbv zeta.
  pose proof (exec_wf E p bindings nspacer schedule _
                (start_wf E p bindings nspacer sm)) as Hwf.
  set (r := Processors.exec E p bindings nspacer schedule (Processors.start E p sm)) in *.
  split; [|split; [|split; [|split]]].
  - intros k sub Hk Hdone Hfailed.
    destruct (wf_Done E p bindings nspacer r k sub Hwf Hk Hdone)
      as (_ & _ & Hst & _ & Hflag).
    split; [rewrite Hst; exact Hfailed | exact (Hflag Hfailed)].
  - intros k sub Hk Hat Hpending Hfailed.
    destruct (step_at E p bindings nspacer k r sub Hk) as [-> _].
    unfold Processors.tstep. rewrite Hat, Hpending. cbn. rewrite Hfailed. reflexivity.
  - intros Hflag later. apply exec_flag_monotone, Hflag.
  - intros Hflag k sub Hk Hat later.
    assert (Hinv := Hwf). unfold Processors.wf in Hinv. rewrite Forall_lookup in Hinv.
    destruct (Hinv k sub Hk) as (_ & [_ Hshape] & _).
    assert (Hran : Processors.ran (Processors.log (Processors.t_ E sub)) = false).
    { destruct Hat as [Hat | Hat]; rewrite Hat in Hshape.
      - rewrite Hshape. reflexivity.
      - tauto. }
    assert (Hnp : Processors.at_ (Processors.t_ E sub) <> Processors.InProcessor).
    { destruct Hat as [Hat | Hat]; rewrite Hat; discriminate. }
    destruct (exec_late E p bindings nspacer later r k sub Hff Hwf Hflag Hk Hran Hnp)
      as (sub' & Hk' & Hinst & Hran' & Hnp').
    exists sub'. split; [exact Hk'|]. split; [exact Hinst|].
    split; [exact Hran'|]. split; [exact Hnp'|]. split.
    + intros Hdone.
      destruct (wf_Done E p bindings nspacer _ k sub'
                  (exec_wf E p bindings nspacer later r Hwf) Hk' Hdone)
        as (Hsettled & Hincs & _).
      destruct Hsettled as [(_ & Hsk & Hfl) | (out & _ & Hr & _)]; [|congruence].
      split; [exact Hsk|]. split; [exact Hfl|].
      intros Hsum. rewrite Hincs, Hsum. unfold Processors.verdict. rewrite Hsk.
      reflexivity.
    + intros Hleft.
      destruct (exec_completes E p bindings nspacer later r k sub Hwf Hk Hleft)
        as (sub'' & Hk'' & _ & Hdone).
      rewrite Hk' in Hk''. injection Hk'' as <-. exact Hdone.
  - intros k sub Hk Hat.
    assert (Hinv := Hwf). unfold Processors.wf in Hinv. rewrite Forall_lookup in Hinv.
    destruct (Hinv k sub Hk) as ([decl Hd] & _ & _).
    unfold Processors.processor_outcome, Processors.info. rewrite Hd.
    eexists. split; [reflexivity|]. intros later.
    destruct (exec_running E p bindings nspacer later r k sub Hwf Hk (or_introl Hat))
      as (sub' & Hk' & Hinst & Hrun).
    exists sub'. split; [exact Hk'|]. split; [exact Hinst|]. split.
    + intros Hdone.
      destruct Hrun as [Hin | Hran]; [congruence|].
      destruct (wf_Done E p bindings nspacer _ k sub'
                  (exec_wf E p bindings nspacer later r Hwf) Hk' Hdone)
        as (Hsettled & Hincs & _).
      destruct Hsettled as [(Hr & _) | (out & Hout & _ & Hfl & Hsk)]; [congruence|].
      unfold Processors.processor_outcome, Processors.info in Hout.
      rewrite Hinst, Hd in Hout. injection Hout as <-.
      split; [exact Hran|]. split; [exact Hfl|]. split; [exact Hsk|].
      intros Hsum. rewrite Hincs, Hsum. reflexivity.
    + intros Hleft.
      destruct (exec_completes E p bindings nspacer later r k sub Hwf Hk Hleft)
        as (sub'' & Hk'' & _ & Hdone).
      rewrite Hk' in Hk''. injection Hk'' as <-. exact Hdone.
Qed.

(** ** The outcome counters *)

Lemma occurrences_total cs :
  Processors.occurrences Processors.Passed cs
  + Processors.occurrences Processors.Failed cs
  + Processors.occurrences Processors.Skipped cs
  = length cs.
Proof.
  induction cs as [|c cs IH]; [reflexivity|].
  destruct c; cbn in *; lia.
Qed.

(** When every instance has incremented exactly one counter, the
    increments add up to the number of instances. *)
Lemma all_incs_total (E : Processors.Externals) (subs : list (Processors.Sub E)) :
  Forall (fun sub =>
            length (Processors.incs (Processors.log (Processors.t_ E sub))) = 1)
    subs ->
  Processors.all_incs_of E Processors.Passed subs
  + Processors.all_incs_of E Processors.Failed subs
  + Processors.all_incs_of E Processors.Skipped subs
  = length subs.
Proof.
  unfold Processors.all_incs_of, Processors.incs_of.
  induction 1 as [|sub subs Hsub _ IH]; [reflexivity|].
  pose proof (occurrences_total
                (Processors.incs (Processors.log (Processors.t_ E sub)))) as Ht.
  simpl. lia.
Qed.

(** C9.  In a run with a summary, after any schedule: each counter equals
    its initial value plus the increments the instances have logged; a
    complete instance has incremented exactly one counter, exactly once,
    namely skipped if its test was skipped, else failed if it failed, else
    passed; an instance that is not complete has incremented nothing, or is
    running its cleanups and has incremented that one counter once; an
    instance whose [Skip] flag is set completes having incremented the
    skipped counter only; an instance scheduled six times or more is
    complete; and when all are complete the three counters have grown by the
    number of instances in total. *)
Theorem C9_outcome_counted_once (E : Processors.Externals)
  (p : Processors.testsProcessor (Processors.Binding E) (Processors.ObjectMeta E)
         (Processors.TemplateValue E))
  (bindings : Processors.Bindings E) (nspacer : option (Processors.Namespacer E))
  (sm : Processors.Summary) (schedule : list nat) :
  Processors.summary p = true ->
  let r := Processors.exec E p bindings nspacer schedule (Processors.start E p sm) in
  let final := Processors.counters (Processors.shared E r) in
  let state sub := Processors.t_ E sub in
  (forall c,
      Processors.count c final
      = Processors.count c sm + Processors.all_incs_of E c (Processors.subs E r))
  /\ (forall k sub,
         Processors.subs E r !! k = Some sub ->
         (Processors.at_ (state sub) = Processors.Done ->
          Processors.incs (Processors.log (state sub))
          = [Processors.verdict (state sub)])
         /\ (Processors.at_ (state sub) <> Processors.Done ->
             Processors.incs (Processors.log (state sub)) = []
             \/ (Processors.at_ (state sub) = Processors.Exiting
                 /\ Processors.incs (Processors.log (state sub))
                    = [Processors.verdict (state sub)]))
         /\ (Processors.skip_requested E (Processors.inst_ E sub) = true ->
             Processors.at_ (state sub) = Processors.Done ->
             Processors.incs (Processors.log (state sub)) = [Processors.Skipped])
         /\ (6 <= count_occ Nat.eq_dec schedule k ->
             Processors.at_ (state sub) = Processors.Done))
  /\ (Forall (fun sub => Processors.at_ (state sub) = Processors.Done)
        (Processors.subs E r) ->
      Processors.passed final + Processors.failed_ final + Processors.skipped final
      = Processors.passed sm + Processors.failed_ sm + Processors.skipped sm
        + length (Processors.subs E r)).
Proof.
  intros Hsum. cbv zeta.
  pose proof (start_wf E p bindings nspacer sm) as Hwf0.
  pose proof (exec_wf E p bindings nspacer schedule _ Hwf0) as Hwf.
  assert (Hcount : forall c,
             Processors.count c
               (Processors.counters
                  (Processors.shared E
                     (Processors.exec E p bindings nspacer schedule
                        (Processors.start E p sm))))
             = Processors.count c sm
               + Processors.all_incs_of E c
                   (Processors.subs E
                      (Processors.exec E p bindings nspacer schedule
                         (Processors.start E p sm)))).
  { intros c.
    pose proof (exec_counts E p bindings nspacer schedule (Processors.start E p sm) c) as Hc.
    rewrite (start_no_incs E p sm c) in Hc. cbn [Processors.start Processors.shared
      Processors.counters] in Hc. lia. }
  set (r := Processors.exec E p bindings nspacer schedule (Processors.start E p sm)) in *.
  assert (Hdone : forall k sub,
             Processors.subs E r !! k = Some sub ->
             Processors.at_ (Processors.t_ E sub) = Processors.Done ->
             Processors.incs (Processors.log (Processors.t_ E sub))
             = [Processors.verdict (Processors.t_ E sub)]).
  { intros k sub Hk Hd.
    destruct (wf_Done E p bindings nspacer r k sub Hwf Hk Hd) as (_ & Hincs & _).
    rewrite Hincs, Hsum. reflexivity. }
  split; [exact Hcount|]. split.
  - intros k sub Hk. split; [exact (Hdone k sub Hk)|]. split; [|split].
    + intros Hnd. assert (Hinv := Hwf).
      unfold Processors.wf in Hinv. rewrite Forall_lookup in Hinv.
      destruct (Hinv k sub Hk) as (_ & [_ Hshape] & _).
      destruct (Processors.at_ (Processors.t_ E sub)) eqn:Hat.
      * left. rewrite Hshape. reflexivity.
      * left. tauto.
      * left. tauto.
      * destruct Hshape as [_ [H | [H | H]]].
        -- left. tauto.
        -- right. tauto.
        -- right. rewrite Hsum in H. tauto.
      * congruence.
      * contradiction.
    + intros Hskip Hd.
      destruct (wf_Done E p bindings nspacer r k sub Hwf Hk Hd)
        as (Hsettled & _ & _ & Hnot & _).
      rewrite (Hdone k sub Hk Hd).
      destruct Hsettled as [(_ & Hsk & _) | (out & _ & Hran & _)].
      * unfold Processors.verdict. rewrite Hsk. reflexivity.
      * rewrite (Hnot Hskip) in Hran. discriminate.
    + intros Hsix.
      assert (Hlt : k < length (Processors.subs E (Processors.start E p sm))).
      { unfold r in Hk. apply lookup_lt_Some in Hk.
        rewrite exec_length in Hk. exact Hk. }
      apply lookup_lt_is_Some in Hlt. destruct Hlt as [sub0 Hk0].
      assert (Hfresh : Processors.t_ E sub0 = Processors.fresh).
      { unfold Processors.start in Hk0. cbn [Processors.subs] in Hk0.
        apply list_lookup_fmap_Some in Hk0. destruct Hk0 as (inst & -> & _).
        reflexivity. }
      destruct (exec_completes E p bindings nspacer schedule _ k sub0 Hwf0 Hk0)
        as (sub' & Hk' & _ & Hd).
      { rewrite Hfresh. exact Hsix. }
      fold r in Hk'. rewrite Hk in Hk'. injection Hk' as <-. exact Hd.
  - intros Hall.
    pose proof (Hcount Processors.Passed) as Hp.
    pose proof (Hcount Processors.Failed) as Hf.
    pose proof (Hcount Processors.Skipped) as Hs.
    cbn [Processors.count] in Hp, Hf, Hs.
    assert (Htotal := all_incs_total E (Processors.subs E r)).
    rewrite <- Htotal; [lia|].
    apply Forall_lookup. intros k sub Hk.
    rewrite Forall_lookup in Hall.
    rewrite (Hdone k sub Hk (Hall k sub Hk)). reflexivity.
Qed.


(** Three tests with fail-fast.  The first two instances enter the
    processor, the first fails and completes: the flag is set.  Then the
    second instance, in flight, completes with its own outcome (passed), and
    the third, not started, completes skipped without running. *)
Lemma C3_fail_fast_witness :
  let p := Fixtures.processor "" true Fixtures.three_tests in
  let exec := Processors.exec Fixtures.externals p [] None in
  let r := exec [0; 0; 1; 1; 0; 0; 0; 0]
             (Processors.start Fixtures.externals p Fixtures.no_counts) in
  let later := [1; 2; 1; 2; 1; 2; 1; 2; 2; 2] in
  Processors.shouldFailFast (Processors.shared Fixtures.externals (exec later r)) = true
  /\ (exists sub,
         Processors.subs Fixtures.externals (exec later r) !! 2 = Some sub
         /\ Processors.at_ (Processors.t_ Fixtures.externals sub) = Processors.Done
         /\ Processors.ran (Processors.log (Processors.t_ Fixtures.externals sub)) = false
         /\ Processors.Skipped_ (Processors.t_ Fixtures.externals sub) = true
         /\ Processors.Failed_ (Processors.t_ Fixtures.externals sub) = false)
  /\ (exists sub,
         Processors.subs Fixtures.externals (exec later r) !! 1 = Some sub
         /\ Processors.at_ (Processors.t_ Fixtures.externals sub) = Processors.Done
         /\ Processors.ran (Processors.log (Processors.t_ Fixtures.externals sub)) = true
         /\ Processors.Skipped_ (Processors.t_ Fixtures.externals sub) = false
         /\ Processors.Failed_ (Processors.t_ Fixtures.externals sub) = false).
Proof.
  cbv zeta.
  destruct (C3_fail_fast Fixtures.externals
              (Fixtures.processor "" true Fixtures.three_tests) [] None
              Fixtures.no_counts [0; 0; 1; 1; 0; 0; 0; 0] eq_refl)
    as (_ & _ & Hkept & Hlate & Hflight).
  set (r := Processors.exec Fixtures.externals _ [] None [0; 0; 1; 1; 0; 0; 0; 0] _) in *.
  assert (Hflag :
            Processors.shouldFailFast (Processors.shared Fixtures.externals r) = true)
    by (vm_compute; reflexivity).
  split; [exact (Hkept Hflag _)|]. split.
  - destruct (Processors.subs Fixtures.externals r !! 2) as [sub2|] eqn:Hk2;
      [|vm_compute in Hk2; discriminate Hk2].
    assert (Hat : Processors.at_ (Processors.t_ Fixtures.externals sub2)
                  = Processors.Created).
    { vm_compute in Hk2. injection Hk2 as <-. reflexivity. }
    destruct (Hlate Hflag 2 sub2 Hk2 (or_introl Hat) [1; 2; 1; 2; 1; 2; 1; 2; 2; 2])
      as (sub & Hsub & _ & Hran & _ & Hskipped & Hdone).
    assert (Hd : Processors.at_ (Processors.t_ Fixtures.externals sub) = Processors.Done).
    { apply Hdone. unfold Processors.steps_left. rewrite Hat. vm_compute. lia. }
    destruct (Hskipped Hd) as (Hsk & Hfl & _).
    exists sub. auto.
  - destruct (Processors.subs Fixtures.externals r !! 1) as [sub1|] eqn:Hk1;
      [|vm_compute in Hk1; discriminate Hk1].
    assert (Hshape :
              Processors.at_ (Processors.t_ Fixtures.externals sub1)
              = Processors.InProcessor
              /\ Processors.pending (Processors.t_ Fixtures.externals sub1)
                 = [Processors.SummaryOutcome; Processors.StoreFailFast]
              /\ Processors.processor_outcome Fixtures.externals [] None
                   (Processors.inst_ Fixtures.externals sub1)
                 = Some {| Processors.outFailed := false;
                           Processors.outSkipped := false |}).
    { vm_compute in Hk1. injection Hk1 as <-. repeat split; reflexivity. }
    destruct Hshape as (Hat & Hpending & Hout).
    destruct (Hflight 1 sub1 Hk1 Hat) as (out & Hout' & Hlater).
    rewrite Hout in Hout'. injection Hout' as <-.
    destruct (Hlater [1; 2; 1; 2; 1; 2; 1; 2; 2; 2])
      as (sub & Hsub & _ & Hown & Hdone).
    assert (Hd : Processors.at_ (Processors.t_ Fixtures.externals sub) = Processors.Done).
    { apply Hdone. unfold Processors.steps_left. rewrite Hat, Hpending.
      vm_compute. lia. }
    destruct (Hown Hd) as (Hran & Hfl & Hsk & _).
    exists sub. auto.
Defined.

(** Three tests, four instances, run one after the other without
    fail-fast: the four are counted, one failed, two passed, one skipped. *)
Lemma C9_outcome_counted_once_witness :
  let p := Fixtures.processor "" false Fixtures.three_tests in
  let schedule := [0; 0; 0; 0; 0; 0; 1; 1; 1; 1; 1; 1; 2; 2; 2; 2; 2; 2;
                   3; 3; 3; 3; 3; 3] in
  let r := Processors.exec Fixtures.externals p [] None schedule
             (Processors.start Fixtures.externals p Fixtures.no_counts) in
  let final := Processors.counters (Processors.shared Fixtures.externals r) in
  Processors.passed final + Processors.failed_ final + Processors.skipped final = 4
  /\ (exists sub,
         Processors.subs Fixtures.externals r !! 3 = Some sub
         /\ Processors.incs (Processors.log (Processors.t_ Fixtures.externals sub))
            = [Processors.Skipped]).
Proof.
  cbv zeta.
  destruct (C9_outcome_counted_once Fixtures.externals
              (Fixtures.processor "" false Fixtures.three_tests) [] None
              Fixtures.no_counts
              [0; 0; 0; 0; 0; 0; 1; 1; 1; 1; 1; 1; 2; 2; 2; 2; 2; 2;
               3; 3; 3; 3; 3; 3] eq_refl)
    as (_ & Heach & Htotal).
  set (r := Processors.exec Fixtures.externals _ [] None _ _) in *.
  split.
  - rewrite Htotal.
    + assert (Hlen : length (Processors.subs Fixtures.externals r) = 4)
        by (vm_compute; reflexivity).
      rewrite Hlen. reflexivity.
    + vm_compute. repeat constructor.
  - destruct (Processors.subs Fixtures.externals r !! 3) as [sub|] eqn:Hk;
      [|vm_compute in Hk; discriminate Hk].
    exists sub. split; [reflexivity|].
    destruct (Heach 3 sub Hk) as (_ & _ & Hskip & Hsix).
    apply Hskip.
    + vm_compute in Hk. injection Hk as <-. reflexivity.
    + apply Hsix. vm_compute. lia.
Defined.

(** ** What the hypotheses of the statements above leave out *)

(** A template that fails to resolve fails the log builder with the error
    of the resolver, before the name and the selector are compared. *)
Example Logs_template_error_first :
  outcome (Engine_kubectl.Logs unit Fixtures.literal tt
             (Some {| Engine_kubectl.Name := "pod-1";
                      Engine_kubectl.Namespace := "";
                      Engine_kubectl.Selector := "app=web";
                      Engine_kubectl.Container := "(";
                      Engine_kubectl.Tail := None |}))
  = Err "template: unexpected end of expression".
Proof. reflexivity. Qed.

(** The builders check their templates in the order name, namespace,
    selector, then container or cluster; the describe builder maps the
    resource last. *)
Example builders_call_order :
  calls (Engine_kubectl.Logs unit Fixtures.literal tt (Some Fixtures.logs_by_name))
  = [ResolveString "pod-1"; ResolveString ""; ResolveString ""; ResolveString ""]
  /\ calls (Runner_kubectl.Describe unit unit string Z Fixtures.literal
              Fixtures.mapper tt tt (Some Fixtures.describe_node))
     = [ResolveString "node-1"; ResolveString "ns1"; ResolveString "";
        ResolveString ""; MapResource "nodes"].
Proof. split; reflexivity. Qed.

(** Without a summary ([p.summary] is nil) no counter is ever touched. *)
Lemma no_summary_no_count (E : Processors.Externals)
  (p : Processors.testsProcessor (Processors.Binding E) (Processors.ObjectMeta E)
         (Processors.TemplateValue E))
  (bindings : Processors.Bindings E) (nspacer : option (Processors.Namespacer E))
  (sm : Processors.Summary) (schedule : list nat) (c : Processors.counter) :
  Processors.summary p = false ->
  Processors.count c
    (Processors.counters
       (Processors.shared E
          (Processors.exec E p bindings nspacer schedule (Processors.start E p sm))))
  = Processors.count c sm.
Proof.
  intros Hsum.
  pose proof (exec_wf E p bindings nspacer schedule _
                (start_wf E p bindings nspacer sm)) as Hwf.
  assert (Hzero : Processors.all_incs_of E c
                    (Processors.subs E
                       (Processors.exec E p bindings nspacer schedule
                          (Processors.start E p sm))) = 0).
  { unfold Processors.wf in Hwf. unfold Processors.all_incs_of.
    induction Hwf as [|sub subs Hsub _ IH]; [reflexivity|].
    cbn [sum_list_with]. rewrite IH.
    destruct Hsub as (_ & [_ Hshape] & _).
    assert (Hincs : Processors.incs (Processors.log (Processors.t_ E sub)) = []).
    { destruct (Processors.at_ (Processors.t_ E sub)).
      - rewrite Hshape. reflexivity.
      - tauto.
      - tauto.
      - destruct Hshape as [_ [H | [H | H]]].
        + tauto.
        + destruct H as [H _]. congruence.
        + rewrite Hsum in H. tauto.
      - rewrite Hsum in Hshape. tauto.
      - contradiction. }
    unfold Processors.incs_of. rewrite Hincs. reflexivity. }
  pose proof (exec_counts E p bindings nspacer schedule (Processors.start E p sm) c) as Hc.
  rewrite (start_no_incs E p sm c) in Hc.
  cbn [Processors.start Processors.shared Processors.counters] in Hc.
  lia.
Qed.

(** ** More on the log collector builder *)

Section LogsMore.

Import Engine_kubectl.

Variable Bindings : Type.
Variable resolve : string -> Bindings -> result string.

Abbreviation Logs := (Engine_kubectl.Logs Bindings resolve).

(** [Logs] returns a command exactly when its four templates resolve and
    exactly one of the resolved name and selector is non-empty. *)
Theorem Logs_succeeds_iff bindings c :
  is_ok (outcome (Logs bindings (Some c))) = true
  <-> exists name namespace selector container,
      resolve (Name c) bindings = Ok name
      /\ resolve (Namespace c) bindings = Ok namespace
      /\ resolve (Selector c) bindings = Ok selector
      /\ resolve (Container c) bindings = Ok container
      /\ ((name <> "" /\ selector = "") \/ (name = "" /\ selector <> "")).
Proof.
  split.
  - destruct (resolve (Name c) bindings) as [name|e] eqn:Hn.
    2:{ unfold Engine_kubectl.Logs.
        rewrite (outcome_bind_Err _ _ e) by exact Hn. discriminate. }
    destruct (resolve (Namespace c) bindings) as [namespace|e] eqn:Hns.
    2:{ unfold Engine_kubectl.Logs.
        rewrite (outcome_bind_Ok _ _ name) by exact Hn.
        rewrite (outcome_bind_Err _ _ e) by exact Hns. discriminate. }
    destruct (resolve (Selector c) bindings) as [selector|e] eqn:Hs.
    2:{ unfold Engine_kubectl.Logs.
        rewrite (outcome_bind_Ok _ _ name) by exact Hn.
        rewrite (outcome_bind_Ok _ _ namespace) by exact Hns.
        rewrite (outcome_bind_Err _ _ e) by exact Hs. discriminate. }
    destruct (resolve (Container c) bindings) as [container|e] eqn:Hc.
    2:{ unfold Engine_kubectl.Logs.
        rewrite (outcome_bind_Ok _ _ name) by exact Hn.
        rewrite (outcome_bind_Ok _ _ namespace) by exact Hns.
        rewrite (outcome_bind_Ok _ _ selector) by exact Hs.
        rewrite (outcome_bind_Err _ _ e) by exact Hc. discriminate. }
    rewrite (Logs_resolved Bindings resolve _ _ _ _ _ _ Hn Hns Hs Hc).
    intros Hok. exists name, namespace, selector, container.
    repeat (split; [reflexivity|]).
    destruct (String.eqb name "") eqn:En, (String.eqb selector "") eqn:Es;
      cbn [andb negb] in Hok; try discriminate Hok.
    + right. split; [apply String.eqb_eq, En | apply String.eqb_neq, Es].
    + left. split; [apply String.eqb_neq, En | apply String.eqb_eq, Es].
  - intros (name & namespace & selector & container & Hn & Hns & Hs & Hc & Hvalid).
    rewrite (Logs_resolved Bindings resolve _ _ _ _ _ _ Hn Hns Hs Hc).
    destruct Hvalid as [[Hname ->] | [-> Hsel]].
    + rewrite (eqb_empty_false _ Hname). reflexivity.
    + rewrite (eqb_empty_false _ Hsel). reflexivity.
Qed.

(** [Logs] resolves its templates in the order name, namespace, selector,
    container, stops at the first that fails and returns its error; it
    compares the name and the selector only once all four are resolved. *)
Theorem Logs_first_error bindings c :
  (forall e,
      resolve (Name c) bindings = Err e ->
      Logs bindings (Some c) = ([ResolveString (Name c)], Err e))
  /\ (forall name e,
         resolve (Name c) bindings = Ok name ->
         resolve (Namespace c) bindings = Err e ->
         Logs bindings (Some c)
         = ([ResolveString (Name c); ResolveString (Namespace c)], Err e))
  /\ (forall name namespace e,
         resolve (Name c) bindings = Ok name ->
         resolve (Namespace c) bindings = Ok namespace ->
         resolve (Selector c) bindings = Err e ->
         Logs bindings (Some c)
         = ([ResolveString (Name c); ResolveString (Namespace c);
             ResolveString (Selector c)], Err e))
  /\ (forall name namespace selector e,
         resolve (Name c) bindings = Ok name ->
         resolve (Namespace c) bindings = Ok namespace ->
         resolve (Selector c) bindings = Ok selector ->
         resolve (Container c) bindings = Err e ->
         Logs bindings (Some c)
         = ([ResolveString (Name c); ResolveString (Namespace c);
             ResolveString (Selector c); ResolveString (Container c)], Err e))
  /\ (forall name namespace selector container,
         resolve (Name c) bindings = Ok name ->
         resolve (Namespace c) bindings = Ok namespace ->
         resolve (Selector c) bindings = Ok selector ->
         resolve (Container c) bindings = Ok container ->
         calls (Logs bindings (Some c))
         = [ResolveString (Name c); ResolveString (Namespace c);
            ResolveString (Selector c); ResolveString (Container c)]).
Proof.
  unfold Engine_kubectl.Logs, String_, bind, calls.
  repeat split.
  - intros e ->. reflexivity.
  - intros name e -> ->. reflexivity.
  - intros name namespace e -> -> ->. reflexivity.
  - intros name namespace selector e -> -> -> ->. reflexivity.
  - intros name namespace selector container -> -> -> ->.
    destruct (String.eqb name "" && String.eqb selector "");
      [reflexivity|].
    destruct (negb (String.eqb name "") && negb (String.eqb selector ""));
      reflexivity.
Qed.

(** The tail count only adds a suffix: with a tail count [n], [Logs] returns
    what it returns without one, followed by [--tail] and [n] in decimal. *)
Theorem Logs_tail_suffix bindings c n :
  outcome (Logs bindings (Some {| Name := Name c; Namespace := Namespace c;
                                  Selector := Selector c; Container := Container c;
                                  Tail := Some n |}))
  = match outcome (Logs bindings (Some {| Name := Name c; Namespace := Namespace c;
                                          Selector := Selector c;
                                          Container := Container c;
                                          Tail := None |})) with
    | Ok (entrypoint, args) => Ok (entrypoint, args ++ ["--tail"; Sprint_int n])
    | Err e => Err e
    end.
Proof.
  unfold Engine_kubectl.Logs, String_, bind, outcome. cbn [Name Namespace Selector Container Tail].
  destruct (resolve (Name c) bindings) as [name|e]; [|reflexivity].
  destruct (resolve (Namespace c) bindings) as [namespace|e]; [|reflexivity].
  destruct (resolve (Selector c) bindings) as [selector|e]; [|reflexivity].
  destruct (resolve (Container c) bindings) as [container|e]; [|reflexivity].
  destruct (String.eqb name "" && String.eqb selector ""); [reflexivity|].
  destruct (negb (String.eqb name "") && negb (String.eqb selector ""));
    reflexivity.
Qed.

End LogsMore.

(** The container template ["("] does not resolve: the builder stops there
    with the error of the resolver, after four resolutions. *)
Lemma Logs_first_error_witness :
  Engine_kubectl.Logs unit Fixtures.literal tt
    (Some {| Engine_kubectl.Name := "pod-1";
             Engine_kubectl.Namespace := "ns1";
             Engine_kubectl.Selector := "";
             Engine_kubectl.Container := "(";
             Engine_kubectl.Tail := None |})
  = ([ResolveString "pod-1"; ResolveString "ns1"; ResolveString "";
      ResolveString "("],
     Err "template: unexpected end of expression").
Proof.
  exact (proj1 (proj2 (proj2 (proj2
           (Logs_first_error unit Fixtures.literal tt
              {| Engine_kubectl.Name := "pod-1";
                 Engine_kubectl.Namespace := "ns1";
                 Engine_kubectl.Selector := "";
                 Engine_kubectl.Container := "(";
                 Engine_kubectl.Tail := None |}))))
           "pod-1" "ns1" "" _ eq_refl eq_refl eq_refl eq_refl).
Defined.


(** A log collection by pod name succeeds. *)
Lemma Logs_succeeds_iff_witness :
  is_ok (outcome (Engine_kubectl.Logs unit Fixtures.literal tt
                    (Some Fixtures.logs_by_name))) = true.
Proof.
  apply (proj2 (Logs_succeeds_iff unit Fixtures.literal tt Fixtures.logs_by_name)).
  exists "pod-1", "", "", "".
  repeat (split; [reflexivity|]). left. split; [discriminate | reflexivity].
Defined.

(** ** More on the describe collector builder *)

Section DescribeMore.

Import Runner_kubectl.

Variables Bindings Client ResourceReference Duration : Type.
Variable resolve : string -> Bindings -> result string.
Variable mapper : Client -> Bindings -> ResourceReference -> result (string * bool).

Abbreviation Describe :=
  (Runner_kubectl.Describe Bindings Client ResourceReference Duration resolve mapper).

(** Splits a run of [Describe] by what its collaborators return. *)
Ltac describe_paths client bindings c :=
  unfold Runner_kubectl.Describe, ConvertString, mapResource, bind, calls, outcome;
  destruct (resolve (Name c) bindings) as [name|e1] eqn:Hn; cbn;
  [destruct (resolve (Namespace c) bindings) as [namespace|e2] eqn:Hns; cbn;
   [destruct (resolve (Selector c) bindings) as [selector|e3] eqn:Hs; cbn;
    [destruct (resolve (Cluster c) bindings) as [cluster|e4] eqn:Hc; cbn;
     [destruct (negb (String.eqb name "") && negb (String.eqb selector "")) eqn:Hboth;
      cbn;
      [|destruct (mapper client bindings (Reference c)) as [[resource clustered]|e5]
          eqn:Hm; cbn]
     |]|]|]|].

Lemma not_both_set name selector :
  negb (String.eqb name "") && negb (String.eqb selector "") = false
  <-> name = "" \/ selector = "".
Proof.
  destruct (String.eqb name "") eqn:En, (String.eqb selector "") eqn:Es; cbn.
  - apply String.eqb_eq in En. tauto.
  - apply String.eqb_eq in En. tauto.
  - apply String.eqb_eq in Es. tauto.
  - apply String.eqb_neq in En, Es. split; [discriminate | tauto].
Qed.

(** [Describe] returns a command exactly when its four templates resolve,
    the name and the selector are not both set, and the resource maps. *)
Theorem Describe_succeeds_iff client bindings (c : Describe_ ResourceReference Duration) :
  is_ok (outcome (Describe client bindings (Some c))) = true
  <-> exists name namespace selector cluster resource clustered,
      resolve (Name c) bindings = Ok name
      /\ resolve (Namespace c) bindings = Ok namespace
      /\ resolve (Selector c) bindings = Ok selector
      /\ resolve (Cluster c) bindings = Ok cluster
      /\ (name = "" \/ selector = "")
      /\ mapper client bindings (Reference c) = Ok (resource, clustered).
Proof.
  split.
  - describe_paths client bindings c; try discriminate.
    intros _. exists name, namespace, selector, cluster, resource, clustered.
    repeat (split; [reflexivity|]). split; [|reflexivity].
    apply not_both_set, Hboth.
  - intros (name & namespace & selector & cluster & resource & clustered
            & Hn & Hns & Hs & Hc & Hvalid & Hm).
    rewrite (Describe_resolved Bindings Client ResourceReference Duration
               resolve mapper _ _ _ _ _ _ _ _ _ Hn Hns Hs Hc Hm).
    apply not_both_set in Hvalid. rewrite Hvalid. reflexivity.
Qed.

(** [Describe] consults the resource mapper last and only for a collector it
    has not rejected: a mapper call means the four templates resolved and
    the name and selector are not both set; a mapper error is then the error
    of [Describe]. *)
Theorem Describe_maps_last client bindings (c : Describe_ ResourceReference Duration) :
  (forall reference,
      In (MapResource reference) (calls (Describe client bindings (Some c))) ->
      reference = Reference c
      /\ exists name namespace selector cluster,
          resolve (Name c) bindings = Ok name
          /\ resolve (Namespace c) bindings = Ok namespace
          /\ resolve (Selector c) bindings = Ok selector
          /\ resolve (Cluster c) bindings = Ok cluster
          /\ (name = "" \/ selector = ""))
  /\ (forall name namespace selector cluster e,
         resolve (Name c) bindings = Ok name ->
         resolve (Namespace c) bindings = Ok namespace ->
         resolve (Selector c) bindings = Ok selector ->
         resolve (Cluster c) bindings = Ok cluster ->
         name = "" \/ selector = "" ->
         mapper client bindings (Reference c) = Err e ->
         Describe client bindings (Some c)
         = ([ResolveString (Name c); ResolveString (Namespace c);
             ResolveString (Selector c); ResolveString (Cluster c);
             MapResource (Reference c)], Err e)).
Proof.
  split.
  - intros reference.
    describe_paths client bindings c; intros Hin;
      repeat (destruct Hin as [Hin | Hin]; try discriminate Hin);
      try contradiction;
      (injection Hin as <-; split; [reflexivity|];
       exists name, namespace, selector, cluster;
       repeat (split; [reflexivity|]); apply not_both_set, Hboth).
  - intros name namespace selector cluster e Hn Hns Hs Hc Hvalid Hm.
    apply not_both_set in Hvalid.
    unfold Runner_kubectl.Describe, ConvertString, mapResource, bind.
    rewrite Hn, Hns, Hs, Hc, Hvalid, Hm. reflexivity.
Qed.

(** A command returned by [Describe] has the entrypoint [kubectl], targets
    the cluster the cluster template resolves to, carries the timeout of the
    collector unchanged, and its args begin with [describe] and the mapped
    resource. *)
Theorem Describe_command client bindings (c : Describe_ ResourceReference Duration) cmd :
  outcome (Describe client bindings (Some c)) = Ok cmd ->
  Entrypoint cmd = "kubectl"
  /\ resolve (Cluster c) bindings = Ok (cmdCluster cmd)
  /\ cmdTimeout cmd = Timeout c
  /\ exists resource clustered rest,
      mapper client bindings (Reference c) = Ok (resource, clustered)
      /\ Args cmd = "describe" :: resource :: rest.
Proof.
  describe_paths client bindings c; try discriminate.
  intros Hcmd. injection Hcmd as <-. cbn.
  split; [reflexivity|]. split; [reflexivity|]. split; [reflexivity|].
  exists resource, clustered.
  destruct (negb (String.eqb name "")), (negb (String.eqb selector "")),
    clustered, (String.eqb namespace "*"), (ShowEvents c); cbn;
    eexists; (split; [reflexivity|]); reflexivity.
Qed.

End DescribeMore.

(** Describing the node [node-1] succeeds. *)
Lemma Describe_succeeds_iff_witness :
  is_ok (outcome (Runner_kubectl.Describe unit unit string Z Fixtures.literal
                    Fixtures.mapper tt tt (Some Fixtures.describe_node))) = true.
Proof.
  apply (proj2 (Describe_succeeds_iff unit unit string Z Fixtures.literal
                  Fixtures.mapper tt tt Fixtures.describe_node)).
  exists "node-1", "ns1", "", "", "nodes", true.
  repeat (split; [reflexivity|]). split; [right; reflexivity | reflexivity].
Defined.

(** The command for the node [node-1] targets the default cluster. *)
Lemma Describe_command_witness :
  exists cmd,
    outcome (Runner_kubectl.Describe unit unit string Z Fixtures.literal
               Fixtures.mapper tt tt (Some Fixtures.describe_node)) = Ok cmd
    /\ Runner_kubectl.Entrypoint cmd = "kubectl"
    /\ Fixtures.literal "" tt = Ok (Runner_kubectl.cmdCluster cmd)
    /\ Runner_kubectl.cmdTimeout cmd = None.
Proof.
  eexists. split; [reflexivity|].
  destruct (Describe_command unit unit string Z Fixtures.literal Fixtures.mapper
              tt tt Fixtures.describe_node _ eq_refl) as (He & Hc & Ht & _).
  split; [exact He|]. split; [exact Hc | exact Ht].
Defined.

(** Describing the node [node-1] consults the resource mapper: its
    templates resolved, and its selector is empty. *)
Lemma Describe_maps_last_witness :
  exists name selector,
    Fixtures.literal (Runner_kubectl.Name Fixtures.describe_node) tt = Ok name
    /\ Fixtures.literal (Runner_kubectl.Selector Fixtures.describe_node) tt = Ok selector
    /\ (name = "" \/ selector = "").
Proof.
  destruct (proj1 (Describe_maps_last unit unit string Z Fixtures.literal
                     Fixtures.mapper tt tt Fixtures.describe_node) "nodes")
    as (_ & name & namespace & selector & cluster & Hn & _ & Hs & _ & Hvalid).
  - vm_compute. do 4 right. left. reflexivity.
  - exists name, selector. split; [exact Hn|]. split; [exact Hs | exact Hvalid].
Defined.

(** ** More on the setup of a run *)

Section SetupMore.

Import Processors.

Variable E : Externals.

Abbreviation Processor := (testsProcessor (Binding E) (ObjectMeta E) (TemplateValue E)).

Ltac setup_unfold :=
  unfold rerun, setup_run, Run_setup, go_bind, go_ret, t_Cleanup, logging_Log, FailNow,
    Get, Create, emit, initial, scope_exit.

Ltac setup_paths p c :=
  setup_unfold;
  destruct (report p) eqn:Hreport;
  destruct (clusters_Resolve E false) as [[clusterConfig [client|]]|err0] eqn:Hresolve;
  cbn -[String.eqb];
  try destruct (String.eqb (Namespace_Name (config p)) "") eqn:Hname;
  cbn -[String.eqb];
  try destruct (Namespace_Template (config p)) as [[value|]|];
  cbn -[String.eqb];
  try match goal with
      | |- context [mutate_Merge E ?o ?b ?v] =>
        destruct (mutate_Merge E o b v) as [merged|err1]; cbn -[String.eqb]
      end;
  try match goal with
      | |- context [client_Get E ?cl ?cs ?o] =>
        destruct (client_Get E cl cs o) as [[|?msg]|] eqn:Hget; cbn -[String.eqb]
      end;
  try destruct (cleanup_Skip E (Cleanup_SkipDelete (config p)) None None) eqn:Hskip;
  cbn -[String.eqb];
  try match goal with
      | |- context [client_Create E ?cl ?cs ?o] =>
        destruct (client_Create E cl cs o) as [c' [err2|]] eqn:Hcreate;
        cbn -[String.eqb]
      end.

Ltac in_cases H :=
  repeat (destruct H as [H | H]; try discriminate H); try contradiction.

(** The setup does not return exactly when it has failed the enclosing
    test, which is exactly when it has called [FailNow]; that call is then
    the last thing it did. *)
Theorem setup_fails_iff (p : Processor) bindings c :
  let w := fst (Run_setup E p bindings (initial E c)) in
  let returned := snd (Run_setup E p bindings (initial E c)) in
  (returned = None <-> failed E w = true)
  /\ (failed E w = true <-> In (EvFailNow E) (trace E w))
  /\ (failed E w = true -> last (trace E w) = Some (EvFailNow E)).
Proof.
  cbv zeta. setup_paths p c;
    (split; [split; intros H; solve [reflexivity | discriminate H]|]);
    (split; [split; intros H;
             solve [reflexivity | discriminate H
                   | cbn in *; intuition discriminate]|]);
    intros H; solve [reflexivity | discriminate H].
Qed.

(** A fetch that fails with another error than not-found is fatal: the
    setup logs, fails the enclosing test and stops; it creates nothing,
    registers no deletion and leaves the cluster as it was. *)
Theorem fetch_error_fatal (p : Processor) bindings c object msg :
  In (EvGet E object (Some (OtherError msg))) (trace E (setup_run E p bindings c)) ->
  let w := setup_run E p bindings c in
  snd (Run_setup E p bindings (initial E c)) = None
  /\ failed E w = true
  /\ (exists before,
         trace E w
         = before ++ [EvGet E object (Some (OtherError msg)); EvLog E; EvFailNow E])
  /\ (forall o err, ~ In (EvCreate E o err) (trace E w))
  /\ (forall o, ~ In (DeleteNamespace E o) (cleanups E w))
  /\ cluster E w = c.
Proof.
  cbv zeta. setup_paths p c; intros Hin; in_cases Hin;
    injection Hin as <- <-;
    (split; [reflexivity|]); (split; [reflexivity|]);
    (split; [first [exists [EvCleanup E (ReportSetEndTime E)]; reflexivity
                   | exists []; reflexivity]|]);
    (repeat split; try reflexivity; intros; cbn in *; intuition discriminate).
Qed.

(** When the namespace is not found and the skip-delete policy applies, the
    namespace is created but no deletion is registered, so none runs when
    the enclosing test ends. *)
Theorem not_found_skip_delete (p : Processor) bindings c object :
  In (EvGet E object (Some NotFound)) (trace E (setup_run E p bindings c)) ->
  cleanup_Skip E (Cleanup_SkipDelete (config p)) None None = true ->
  let w := setup_run E p bindings c in
  (exists err, In (EvCreate E object err) (trace E w))
  /\ (forall o, ~ In (EvCleanup E (DeleteNamespace E o)) (trace E w))
  /\ (forall o, ~ In (DeleteNamespace E o) (cleanups E w))
  /\ (forall o, ~ In (EvRunCleanup E (DeleteNamespace E o)) (trace E (scope_exit E w))).
Proof.
  intros Hin Hpolicy. revert Hin. cbv zeta.
  setup_paths p c; intros Hin; in_cases Hin; try congruence;
    injection Hin as <-;
    (split; [eexists; cbn; eauto 6|]);
    (repeat split; intros; cbn in *; intuition discriminate).
Qed.

(** Without a cluster client, or without a configured namespace name, the
    setup contacts no cluster: no fetch, no create, no failure, and the
    instances get no namespacer. *)
Theorem no_provisioning (p : Processor) bindings c config0 client0 :
  clusters_Resolve E false = Ok (config0, client0) ->
  client0 = None \/ Namespace_Name (config p) = "" ->
  let w := setup_run E p bindings c in
  (forall o err, ~ In (EvGet E o err) (trace E w))
  /\ (forall o err, ~ In (EvCreate E o err) (trace E w))
  /\ failed E w = false
  /\ cluster E w = c
  /\ exists bindings',
      snd (Run_setup E p bindings (initial E c)) = Some (bindings', None).
Proof.
  intros Hres Hnone. cbv zeta.
  assert (Hcase : client0 = None
                  \/ String.eqb (Namespace_Name (config p)) "" = true).
  { destruct Hnone as [H | H]; [left; exact H | right; rewrite H; reflexivity]. }
  clear Hnone. revert Hres Hcase.
  setup_paths p c; intros Hres Hcase; try discriminate Hres;
    injection Hres as <- <-;
    try (destruct Hcase as [Hcase | Hcase]; discriminate Hcase);
    (repeat split; try reflexivity;
     try (intros; cbn in *; intuition discriminate));
    eexists; reflexivity.
Qed.

(** The setup creates an object only after fetching that same object with
    the answer not-found, and nothing precedes that fetch on the cluster;
    without a create the cluster is left as it was. *)
Theorem create_follows_not_found (p : Processor) bindings c :
  let w := setup_run E p bindings c in
  (forall object err,
      In (EvCreate E object err) (trace E w) ->
      exists before after,
        trace E w = before ++ EvGet E object (Some NotFound) :: after
        /\ In (EvCreate E object err) after
        /\ (forall o e, ~ In (EvGet E o e) before)
        /\ (forall o e, ~ In (EvCreate E o e) before))
  /\ ((forall object err, ~ In (EvCreate E object err) (trace E w)) ->
      cluster E w = c).
Proof.
  cbv zeta. setup_paths p c; split;
    try (intros Hnone; first [reflexivity | exfalso; eapply Hnone; cbn; eauto 6]);
    intros object err Hin; in_cases Hin; injection Hin as <- <-;
    lazymatch goal with
    | Hr : report p = true |- _ => exists [EvCleanup E (ReportSetEndTime E)]
    | _ => exists []
    end;
    eexists; (split; [reflexivity|]);
    (split; [cbn; eauto 6|]);
    split; intros; cbn in *; intuition discriminate.
Qed.

(** With a report, the end time of the report is set by the cleanup that
    runs last when the enclosing test ends, after the deletion of the
    namespace if one was registered, and also when the setup failed. *)
Theorem report_end_time_last (p : Processor) bindings c :
  report p = true ->
  let w := setup_run E p bindings c in
  exists before,
    trace E (scope_exit E w) = before ++ [EvRunCleanup E (ReportSetEndTime E)]
    /\ ~ In (EvRunCleanup E (ReportSetEndTime E)) before
    /\ (forall object,
           In (DeleteNamespace E object) (cleanups E w) ->
           In (EvRunCleanup E (DeleteNamespace E object)) before).
Proof.
  intros Hrep. cbv zeta. revert Hrep.
  setup_paths p c; intros Hrep; try discriminate Hrep;
    match goal with
    | |- exists before, ?t = _ /\ _ => exists (removelast t)
    end; cbn;
    (split; [reflexivity|]);
    (split; [intros H; cbn in H; intuition discriminate|]);
    intros object H; cbn in *; intuition (try discriminate; simplify_eq; auto 10).
Qed.




End SetupMore.

(** ** More on scenario expansion and the loop over the tests *)

Section ExpansionMore.

Import Processors.

Variable E : Externals.

Abbreviation DTest := (discovery_Test (Binding E) (ObjectMeta E)).

(** Expanding an instance again changes nothing: every instance is its own
    sole instance. *)
Theorem scenarios_idempotent (test inst : DTest) :
  In inst (scenarios E test) -> scenarios E inst = [inst].
Proof.
  unfold scenarios at 1. destruct (Test test) as [decl|] eqn:Ht; [|intros []].
  destruct (Nat.eqb (length (Scenarios (Spec decl))) 0) eqn:Hlen.
  - intros [<- | []]. unfold scenarios. rewrite Ht, Hlen. reflexivity.
  - intros Hin. apply in_map_iff in Hin. destruct Hin as (scenario & <- & _).
    reflexivity.
Qed.

(** Expansion touches the bindings and the scenarios only: an instance has
    the base path, the metadata and the [Skip] and [Concurrent] flags of its
    test. *)
Theorem scenarios_inherit (test inst : DTest) decl :
  Test test = Some decl ->
  In inst (scenarios E test) ->
  BasePath inst = BasePath test
  /\ exists d,
      Test inst = Some d
      /\ Test_ObjectMeta d = Test_ObjectMeta decl
      /\ Skip (Spec d) = Skip (Spec decl)
      /\ Concurrent (Spec d) = Concurrent (Spec decl).
Proof.
  intros Ht. unfold scenarios. rewrite Ht.
  destruct (Nat.eqb (length (Scenarios (Spec decl))) 0).
  - intros [<- | []]. split; [reflexivity|]. exists decl. auto.
  - intros Hin. apply in_map_iff in Hin. destruct Hin as (scenario & <- & _).
    split; [reflexivity|]. eexists. split; [reflexivity|]. cbn. auto.
Qed.

(** Every launched instance belongs to the test at its index: it is the
    scenario at its scenario index of that test, under the display name of
    that test. *)
Theorem launched_sound cfg (tests : list DTest) inst :
  In inst (fst (launched E cfg 0 tests)) ->
  exists discovered,
    tests !! i E inst = Some discovered
    /\ names_Test E cfg discovered = Ok (name E inst)
    /\ scenarios E discovered !! s E inst = Some (test E inst).
Proof.
  enough (Hgen : forall i0,
             In inst (fst (launched E cfg i0 tests)) ->
             exists discovered,
               i0 <= i E inst
               /\ tests !! (i E inst - i0) = Some discovered
               /\ names_Test E cfg discovered = Ok (name E inst)
               /\ scenarios E discovered !! s E inst = Some (test E inst)).
  { intros Hin. destruct (Hgen 0 Hin) as (discovered & _ & Hl & Hrest).
    exists discovered. rewrite Nat.sub_0_r in Hl. auto. }
  induction tests as [|head rest IH]; intros i0; cbn [launched].
  - intros [].
  - destruct (names_Test E cfg head) as [nm|err] eqn:Hnm; [|intros []].
    destruct (launched E cfg (S i0) rest) as [later failNow] eqn:Hl.
    cbn [fst]. intros Hin. apply in_app_or in Hin. destruct Hin as [Hin | Hin].
    + apply list_elem_of_In, list_elem_of_lookup in Hin. destruct Hin as [k Hk].
      rewrite list_lookup_imap in Hk.
      destruct (scenarios E head !! k) as [sc|] eqn:Hsc; [|discriminate].
      cbn in Hk. injection Hk as <-. cbn.
      exists head. rewrite Nat.sub_diag. auto.
    + specialize (IH (S i0)). rewrite Hl in IH.
      destruct (IH Hin) as (discovered & Hge & Hlook & Hrest).
      exists discovered. split; [lia|]. split; [|exact Hrest].
      replace (i E inst - i0) with (S (i E inst - S i0)) by lia. exact Hlook.
Qed.

(** The loop over the tests is left through [FailNow] exactly when the
    display name of some test cannot be computed; no instance of that test
    or of a later one is then launched. *)
Theorem launched_stops_at_name_error cfg (tests : list DTest) :
  (snd (launched E cfg 0 tests) = true
   <-> Exists (fun test => is_ok (names_Test E cfg test) = false) tests)
  /\ (forall j test inst,
         tests !! j = Some test ->
         is_ok (names_Test E cfg test) = false ->
         In inst (fst (launched E cfg 0 tests)) ->
         i E inst < j).
Proof.
  split.
  - generalize 0. induction tests as [|head rest IH]; intros i0; cbn [launched].
    + cbn. split; [discriminate | intros H; inversion H].
    + destruct (names_Test E cfg head) as [nm|err] eqn:Hnm.
      * specialize (IH (S i0)).
        destruct (launched E cfg (S i0) rest) as [later failNow]. cbn [snd] in *.
        rewrite IH. split.
        -- intros H. apply Exists_cons_tl. exact H.
        -- intros H. apply Exists_cons in H. destruct H as [H | H]; [|exact H].
           rewrite Hnm in H. discriminate H.
      * cbn. split; [|reflexivity]. intros _. apply Exists_cons_hd.
        rewrite Hnm. reflexivity.
  - enough (Hgen : forall i0 j test inst,
               tests !! j = Some test ->
               is_ok (names_Test E cfg test) = false ->
               In inst (fst (launched E cfg i0 tests)) ->
               i E inst < i0 + j).
    { intros j test inst. apply (Hgen 0). }
    induction tests as [|head rest IH]; intros i0 j test inst Hj Hbad;
      cbn [launched]; [intros []|].
    destruct (names_Test E cfg head) as [nm|err] eqn:Hnm; [|intros []].
    destruct j as [|j]; [cbn in Hj; injection Hj as <-; rewrite Hnm in Hbad;
                         discriminate Hbad|].
    cbn in Hj.
    destruct (launched E cfg (S i0) rest) as [later failNow] eqn:Hl.
    cbn [fst]. intros Hin. apply in_app_or in Hin. destruct Hin as [Hin | Hin].
    + apply list_elem_of_In, list_elem_of_lookup in Hin. destruct Hin as [k Hk].
      rewrite list_lookup_imap in Hk.
      destruct (scenarios E head !! k); [|discriminate].
      cbn in Hk. injection Hk as <-. cbn. lia.
    + specialize (IH (S i0) j test inst Hj Hbad). rewrite Hl in IH.
      specialize (IH Hin). lia.
Qed.

(** The launched instances are in the order of their indices: test index
    first, scenario index second, strictly increasing.  So no two launched
    instances have the same pair of ordinals. *)
Theorem launched_increasing cfg (tests : list DTest) a b x y :
  a < b ->
  fst (launched E cfg 0 tests) !! a = Some x ->
  fst (launched E cfg 0 tests) !! b = Some y ->
  i E x < i E y \/ (i E x = i E y /\ s E x < s E y).
Proof.
  generalize 0 as i0. revert a b.
  induction tests as [|head rest IH]; intros a b i0 Hab; cbn [launched].
  - intros Ha. discriminate Ha.
  - destruct (names_Test E cfg head) as [nm|err]; [|intros Ha; discriminate Ha].
    pose proof (launched_index_ge E cfg rest (S i0)) as Hge.
    destruct (launched E cfg (S i0) rest) as [later failNow] eqn:Hl.
    cbn [fst] in *. intros Ha Hb.
    apply lookup_app_Some in Ha, Hb.
    destruct Ha as [Ha | [Hla Ha]], Hb as [Hb | [Hlb Hb]].
    + rewrite list_lookup_imap in Ha, Hb.
      destruct (scenarios E head !! a); [|discriminate].
      destruct (scenarios E head !! b); [|discriminate].
      cbn in Ha, Hb. injection Ha as <-. injection Hb as <-. cbn. right. lia.
    + rewrite list_lookup_imap in Ha.
      destruct (scenarios E head !! a); [|discriminate].
      cbn in Ha. injection Ha as <-. cbn. left.
      assert (S i0 <= i E y).
      { apply Hge. apply list_elem_of_In, list_elem_of_lookup. eexists. exact Hb. }
      lia.
    + apply lookup_lt_Some in Hb. lia.
    + specialize (IH (a - length (imap (fun s test => {| name := nm; i := i0; s := s; test := test |}) (scenarios E head)))
                    (b - length (imap (fun s test => {| name := nm; i := i0; s := s; test := test |}) (scenarios E head)))
                    (S i0)).
      rewrite Hl in IH. apply IH; [lia | exact Ha | exact Hb].
Qed.

End ExpansionMore.

(** ** More on the instances of a run *)

Section InstancesMore.

Import Processors.

Variable E : Externals.
Variable p : testsProcessor (Binding E) (ObjectMeta E) (TemplateValue E).
Variable bindings : Bindings E.
Variable nspacer : option (Namespacer E).

Abbreviation tstep' := (tstep E p bindings nspacer).
Abbreviation step' := (step E p bindings nspacer).
Abbreviation exec' := (exec E p bindings nspacer).
Abbreviation inv' := (inv E p bindings nspacer).

Ltac tstep_paths inst sh t :=
  unfold tstep, info, run_cleanup, registered, steps_left in *;
  destruct t as [at0 failed0 skipped0 pending0 log0]; cbn in *;
  destruct at0; cbn in *;
  try match goal with
      | |- context [Test (test E inst)] =>
        destruct (Test (test E inst)) eqn:?; cbn in *
      end;
  try match goal with
      | |- context [summary p] => destruct (summary p) eqn:?; cbn in *
      end;
  try match goal with
      | |- context [Concurrent (Spec ?d)] =>
        destruct (Concurrent (Spec d)) as [[|]|] eqn:?; cbn in *
      end;
  try match goal with
      | |- context [is_true_ptr (Skip (Spec ?d))] =>
        destruct (is_true_ptr (Skip (Spec d))) eqn:?; cbn in *
      end;
  try match goal with
      | |- context [Execution_FailFast (config p)] =>
        destruct (Execution_FailFast (config p)) eqn:?; cbn in *
      end;
  try match goal with
      | |- context [if shouldFailFast sh then _ else _] =>
        destruct (shouldFailFast sh) eqn:?; cbn in *
      end;
  try match goal with
      | |- context [match pending0 with _ => _ end] =>
        destruct pending0 as [|[|] ?]; cbn in *
      end;
  try match goal with
      | |- context [if failed0 then _ else _] => destruct failed0; cbn in *
      end.

(** A property of the instances that every step of an instance preserves
    holds of every instance after any schedule. *)
Lemma exec_instances (Q : instance E -> T -> Prop) :
  (forall inst, Q inst fresh) ->
  (forall inst sh t decl,
      Test (test E inst) = Some decl -> inv' inst t -> Q inst t ->
      Q inst (snd (tstep' inst sh t))) ->
  forall sm schedule k sub,
    subs E (exec' schedule (start E p sm)) !! k = Some sub ->
    Q (inst_ E sub) (t_ E sub).
Proof.
  intros Hfresh Hstep sm schedule.
  enough (Hgen : forall r,
             wf E p bindings nspacer r ->
             Forall (fun sub => Q (inst_ E sub) (t_ E sub)) (subs E r) ->
             Forall (fun sub => Q (inst_ E sub) (t_ E sub)) (subs E (exec' schedule r))).
  { intros k sub Hk.
    assert (Hstart : Forall (fun sub => Q (inst_ E sub) (t_ E sub))
                       (subs E (start E p sm))).
    { apply Forall_lookup. intros j sub0 Hj.
      unfold start in Hj. cbn [subs] in Hj.
      apply list_lookup_fmap_Some in Hj. destruct Hj as (inst & -> & _).
      apply Hfresh. }
    assert (Hall := Hgen (start E p sm) (start_wf E p bindings nspacer sm) Hstart).
    rewrite Forall_lookup in Hall. exact (Hall k sub Hk). }
  induction schedule as [|j schedule IH]; intros r Hwf HQ; [exact HQ|].
  rewrite exec_cons. apply IH; [apply step_wf, Hwf|].
  destruct (subs E r !! j) as [sub|] eqn:Hj;
    [|rewrite (step_absent E p bindings nspacer j r Hj); exact HQ].
  rewrite Forall_lookup in HQ. apply Forall_lookup. intros k sub' Hk.
  destruct (decide (j = k)) as [<- | Hne].
  - destruct (step_at E p bindings nspacer j r sub Hj) as [_ Hsub].
    rewrite Hsub in Hk. injection Hk as <-. cbn.
    unfold wf in Hwf. rewrite Forall_lookup in Hwf.
    destruct (Hwf j sub Hj) as ([decl Hd] & Hinv & _).
    eapply Hstep; [exact Hd | exact Hinv | exact (HQ j sub Hj)].
  - rewrite (step_other E p bindings nspacer j k r Hne) in Hk.
    exact (HQ k sub' Hk).
Qed.

(** An instance that has stored into the flag has failed. *)
Lemma inv_stored inst t :
  inv' inst t -> stored (log t) = true -> Failed_ t = true.
Proof.
  intros [_ Hshape] Hst. destruct t as [at0 failed0 skipped0 pending0 log0].
  cbn in *. destruct at0; cbn in Hshape.
  - injection Hshape as _ _ _ ->. discriminate Hst.
  - destruct Hshape as (_ & _ & _ & _ & H & _). congruence.
  - destruct Hshape as (_ & _ & _ & _ & H & _). congruence.
  - destruct Hshape as [_ [(_ & _ & H) | [(_ & _ & _ & H) | (_ & _ & H)]]]; congruence.
  - destruct Hshape as (_ & _ & _ & H). congruence.
  - contradiction.
Qed.

(** The flag is set after a step only if it was set before or the stepping
    instance has now stored into it. *)
Lemma tstep_flag_origin inst sh t :
  shouldFailFast (fst (tstep' inst sh t)) = true ->
  shouldFailFast sh = true \/ stored (log (snd (tstep' inst sh t))) = true.
Proof.
  unfold stored. tstep_paths inst sh t; auto;
    rewrite ?existsb_app; cbn; rewrite ?orb_true_r; auto;
    intros; congruence.
Qed.

Lemma tstep_stored_kept inst sh t :
  stored (log t) = true -> stored (log (snd (tstep' inst sh t))) = true.
Proof.
  unfold stored. intros H.
  tstep_paths inst sh t; rewrite ?existsb_app, ?app_nil_r, ?H; reflexivity.
Qed.

(** The flag is set only by a failure: when it is set, some instance has
    failed and has stored into it. *)
Theorem flag_set_by_failure sm schedule :
  shouldFailFast (shared E (exec' schedule (start E p sm))) = true ->
  exists k sub,
    subs E (exec' schedule (start E p sm)) !! k = Some sub
    /\ Failed_ (t_ E sub) = true
    /\ stored (log (t_ E sub)) = true.
Proof.
  intros Hflag.
  enough (Hgen : forall r,
             (shouldFailFast (shared E r) = true ->
              exists k sub, subs E r !! k = Some sub /\ stored (log (t_ E sub)) = true) ->
             shouldFailFast (shared E (exec' schedule r)) = true ->
             exists k sub,
               subs E (exec' schedule r) !! k = Some sub
               /\ stored (log (t_ E sub)) = true).
  { destruct (Hgen (start E p sm)) as (k & sub & Hk & Hst).
    - cbn. discriminate.
    - exact Hflag.
    - exists k, sub. split; [exact Hk|]. split; [|exact Hst].
      pose proof (exec_wf E p bindings nspacer schedule _
                    (start_wf E p bindings nspacer sm)) as Hwf.
      unfold wf in Hwf. rewrite Forall_lookup in Hwf.
      destruct (Hwf k sub Hk) as (_ & Hinv & _).
      exact (inv_stored _ _ Hinv Hst). }
  clear Hflag.
  induction schedule as [|j schedule IH]; intros r Hr; [exact Hr|].
  rewrite exec_cons. apply IH. intros Hflag'.
  destruct (subs E r !! j) as [sub|] eqn:Hj;
    [|rewrite (step_absent E p bindings nspacer j r Hj) in *; exact (Hr Hflag')].
  destruct (step_at E p bindings nspacer j r sub Hj) as [Hsh Hsub].
  rewrite Hsh in Hflag'.
  destruct (tstep_flag_origin _ _ _ Hflag') as [Hold | Hnew].
  - destruct (Hr Hold) as (k & sub0 & Hk & Hst).
    destruct (decide (j = k)) as [<- | Hne].
    + exists j. eexists. split; [exact Hsub|]. cbn.
      rewrite Hj in Hk. injection Hk as <-. apply tstep_stored_kept, Hst.
    + exists k, sub0. split; [|exact Hst].
      rewrite (step_other E p bindings nspacer j k r Hne). exact Hk.
  - exists j. eexists. split; [exact Hsub | exact Hnew].
Qed.

(** Without fail-fast the flag is not read: an instance past its body has
    run the processor unless its [Skip] flag is set, and carries the verdict
    this gives. *)
Lemma tstep_no_fail_fast inst sh t decl :
  Execution_FailFast (config p) = false ->
  Test (test E inst) = Some decl ->
  inv' inst t ->
  (at_ t = Exiting \/ at_ t = Done ->
   ran (log t) = negb (skip_requested E inst)) ->
  (at_ (snd (tstep' inst sh t)) = Exiting \/ at_ (snd (tstep' inst sh t)) = Done ->
   ran (log (snd (tstep' inst sh t))) = negb (skip_requested E inst)).
Proof.
  intros Hff Hd [Hskip Hshape]. unfold skip_requested in *. rewrite Hd in *.
  unfold ran in *. intros Hpast.
  tstep_paths inst sh t; intros Hnow;
    try (destruct Hnow as [Hnow | Hnow]; discriminate Hnow);
    try congruence;
    rewrite ?existsb_app, ?app_nil_r; cbn; rewrite ?orb_true_r, ?orb_false_r;
    simplify_eq; cbn in *;
    try (apply Hpast; auto; fail);
    try reflexivity;
    try (destruct Hshape as (_ & _ & _ & _ & _ & H); rewrite H; reflexivity);
    try (destruct (Hskip eq_refl) as [H _]; exact H).
  all: try (rewrite Heqb; destruct Hshape as (_ & _ & _ & _ & _ & H); rewrite H;
            reflexivity).
  all: destruct (Hskip eq_refl) as [_ H]; congruence.
Qed.

Lemma done_without_fail_fast sm schedule k sub :
  Execution_FailFast (config p) = false ->
  subs E (exec' schedule (start E p sm)) !! k = Some sub ->
  at_ (t_ E sub) = Done ->
  ran (log (t_ E sub)) = negb (skip_requested E (inst_ E sub))
  /\ verdict (t_ E sub) = Derived.expected_verdict E bindings nspacer (inst_ E sub).
Proof.
  intros Hff Hk Hdone.
  assert (Hran : ran (log (t_ E sub)) = negb (skip_requested E (inst_ E sub))).
  { apply (exec_instances
             (fun inst t => at_ t = Exiting \/ at_ t = Done ->
                            ran (log t) = negb (skip_requested E inst)))
      with (sm := sm) (schedule := schedule) (k := k) (sub := sub).
    - intros inst [H | H]; discriminate H.
    - intros inst sh t decl Hd Hinv HQ. eapply tstep_no_fail_fast; eassumption.
    - exact Hk.
    - right. exact Hdone. }
  split; [exact Hran|].
  pose proof (exec_wf E p bindings nspacer schedule _
                (start_wf E p bindings nspacer sm)) as Hwf.
  destruct (wf_Done E p bindings nspacer _ k sub Hwf Hk Hdone)
    as (Hsettled & _ & _ & _ & _).
  unfold Derived.expected_verdict, verdict.
  destruct (skip_requested E (inst_ E sub)); cbn in Hran.
  - destruct Hsettled as [(_ & -> & _) | (out & _ & Hr & _)]; [reflexivity|congruence].
  - destruct Hsettled as [(Hr & _) | (out & -> & _ & -> & ->)]; [congruence|].
    reflexivity.
Qed.

(** Without fail-fast, a complete instance has run the processor exactly
    when its [Skip] flag is not set, whatever the other instances did, and
    it ends with its expected verdict. *)
Theorem no_fail_fast_runs_all sm schedule k sub :
  Execution_FailFast (config p) = false ->
  subs E (exec' schedule (start E p sm)) !! k = Some sub ->
  at_ (t_ E sub) = Done ->
  ran (log (t_ E sub)) = negb (skip_requested E (inst_ E sub))
  /\ verdict (t_ E sub) = Derived.expected_verdict E bindings nspacer (inst_ E sub).
Proof.
  intros Hff Hk Hdone. split.
  - exact (proj1 (done_without_fail_fast sm schedule k sub Hff Hk Hdone)).
  - exact (proj2 (done_without_fail_fast sm schedule k sub Hff Hk Hdone)).
Qed.

(** An instance that the processor leaves both failed and skipped is
    counted as skipped, and still sets the flag. *)
Theorem failed_and_skipped sm schedule k sub :
  summary p = true ->
  subs E (exec' schedule (start E p sm)) !! k = Some sub ->
  at_ (t_ E sub) = Done ->
  Failed_ (t_ E sub) = true ->
  Skipped_ (t_ E sub) = true ->
  incs (log (t_ E sub)) = [Skipped]
  /\ shouldFailFast (shared E (exec' schedule (start E p sm))) = true.
Proof.
  intros Hsum Hk Hdone Hfailed Hskipped.
  pose proof (exec_wf E p bindings nspacer schedule _
                (start_wf E p bindings nspacer sm)) as Hwf.
  destruct (wf_Done E p bindings nspacer _ k sub Hwf Hk Hdone)
    as (_ & Hincs & _ & _ & Hflag).
  split; [|exact (Hflag Hfailed)].
  rewrite Hincs, Hsum. unfold verdict. rewrite Hskipped. reflexivity.
Qed.

(** The instances of a run stay the ones that were launched. *)
Lemma exec_insts schedule r :
  map (inst_ E) (subs E (exec' schedule r)) = map (inst_ E) (subs E r).
Proof.
  apply list_eq. intros k. rewrite !list_lookup_fmap.
  revert r. induction schedule as [|j schedule IH]; intros r; [reflexivity|].
  rewrite exec_cons, IH.
  destruct (subs E r !! k) as [sub|] eqn:Hk.
  - destruct (step_inst E p bindings nspacer j r k sub Hk) as (sub' & -> & Hinst).
    cbn. rewrite Hinst. reflexivity.
  - assert (Hnone : subs E (step' j r) !! k = None).
    { apply lookup_ge_None. rewrite step_length. apply lookup_ge_None. exact Hk. }
    rewrite Hnone. reflexivity.
Qed.

Lemma start_insts sm :
  map (inst_ E) (subs E (start E p sm)) = fst (launched E (config p) 0 (tests p)).
Proof.
  unfold start. cbn [subs].
  induction (fst (launched E (config p) 0 (tests p))) as [|inst l IH];
    [reflexivity|]. cbn. rewrite IH. reflexivity.
Qed.

Lemma all_incs_by_verdict (f : instance E -> counter) c (l : list (Sub E)) :
  Forall (fun sub => incs (log (t_ E sub)) = [f (inst_ E sub)]) l ->
  all_incs_of E c l = occurrences c (map f (map (inst_ E) l)).
Proof.
  unfold all_incs_of, incs_of.
  induction 1 as [|sub l Hsub _ IH]; [reflexivity|].
  cbn [sum_list_with map occurrences]. rewrite IH, Hsub. cbn. lia.
Qed.

(** Without fail-fast the final counters do not depend on the schedule:
    when every instance is complete, each counter has grown by the number of
    launched instances whose expected verdict it is. *)
Theorem final_counters_without_fail_fast sm schedule c :
  Execution_FailFast (config p) = false ->
  summary p = true ->
  Forall (fun sub => at_ (t_ E sub) = Done) (subs E (exec' schedule (start E p sm))) ->
  count c (counters (shared E (exec' schedule (start E p sm))))
  = count c sm
    + occurrences c
        (map (Derived.expected_verdict E bindings nspacer)
           (fst (launched E (config p) 0 (tests p)))).
Proof.
  intros Hff Hsum Hall.
  pose proof (exec_counts E p bindings nspacer schedule (start E p sm) c) as Hc.
  rewrite (start_no_incs E p sm c) in Hc.
  cbn [start shared counters] in Hc.
  pose proof (exec_wf E p bindings nspacer schedule _
                (start_wf E p bindings nspacer sm)) as Hwf.
  rewrite (all_incs_by_verdict (Derived.expected_verdict E bindings nspacer)) in Hc.
  - rewrite exec_insts, start_insts in Hc. lia.
  - apply Forall_lookup. intros k sub Hk.
    rewrite Forall_lookup in Hall. pose proof (Hall k sub Hk) as Hdone.
    destruct (wf_Done E p bindings nspacer _ k sub Hwf Hk Hdone) as (_ & Hincs & _).
    rewrite Hincs, Hsum.
    destruct (done_without_fail_fast sm schedule k sub Hff Hk Hdone) as [_ ->].
    reflexivity.
Qed.

(** No step decreases a counter. *)
Lemma tstep_count_monotone inst sh t c :
  count c (counters sh) <= count c (counters (fst (tstep' inst sh t))).
Proof.
  destruct c; tstep_paths inst sh t; try lia;
    unfold verdict; cbn;
    repeat match goal with
           | |- context [if ?x then _ else _] => destruct x; cbn
           end; lia.
Qed.

Lemma inv_incs_once inst t : inv' inst t -> length (incs (log t)) <= 1.
Proof.
  intros [_ Hshape]. destruct t as [at0 failed0 skipped0 pending0 log0].
  cbn in *. destruct at0; cbn in Hshape.
  - injection Hshape as _ _ _ ->. cbn. lia.
  - destruct Hshape as (_ & _ & _ & -> & _). cbn. lia.
  - destruct Hshape as (_ & _ & _ & -> & _). cbn. lia.
  - destruct Hshape as [_ [(_ & -> & _) | [(_ & _ & -> & _) | (_ & -> & _)]]];
      try (cbn; lia). destruct (summary p); cbn; lia.
  - destruct Hshape as (_ & _ & -> & _). destruct (summary p); cbn; lia.
  - contradiction.
Qed.

Lemma all_incs_at_most (l : list (Sub E)) :
  Forall (fun sub => length (incs (log (t_ E sub))) <= 1) l ->
  all_incs_of E Passed l + all_incs_of E Failed l + all_incs_of E Skipped l
  <= length l.
Proof.
  unfold all_incs_of, incs_of.
  induction 1 as [|sub l Hsub _ IH]; [reflexivity|].
  pose proof (occurrences_total (incs (log (t_ E sub)))) as Htot.
  simpl. lia.
Qed.

(** The counters only grow, and never by more than the number of launched
    instances in total. *)
Theorem counters_grow_bounded sm schedule later c :
  let r := exec' schedule (start E p sm) in
  count c (counters (shared E r))
  <= count c (counters (shared E (exec' (schedule ++ later) (start E p sm))))
  /\ passed (counters (shared E r)) + failed_ (counters (shared E r))
     + skipped (counters (shared E r))
     <= passed sm + failed_ sm + skipped sm
        + length (fst (launched E (config p) 0 (tests p))).
Proof.
  cbv zeta. split.
  - rewrite exec_app. generalize (exec' schedule (start E p sm)) as r.
    induction later as [|j later IH]; intros r; [reflexivity|].
    rewrite exec_cons. etransitivity; [|apply IH].
    destruct (subs E r !! j) as [sub|] eqn:Hj;
      [|rewrite (step_absent E p bindings nspacer j r Hj); reflexivity].
    destruct (step_at E p bindings nspacer j r sub Hj) as [-> _].
    apply tstep_count_monotone.
  - pose proof (exec_wf E p bindings nspacer schedule _
                  (start_wf E p bindings nspacer sm)) as Hwf.
    pose proof (exec_counts E p bindings nspacer schedule (start E p sm)) as Hc.
    pose proof (Hc Passed) as Hp. pose proof (Hc Failed) as Hf.
    pose proof (Hc Skipped) as Hs. clear Hc.
    rewrite start_no_incs in Hp, Hf, Hs.
    cbn [start shared counters count] in Hp, Hf, Hs.
    assert (Hlen : length (subs E (exec' schedule (start E p sm)))
                   = length (fst (launched E (config p) 0 (tests p)))).
    { rewrite exec_length. unfold start. cbn [subs]. apply length_map. }
    assert (Hsum : all_incs_of E Passed (subs E (exec' schedule (start E p sm)))
                   + all_incs_of E Failed (subs E (exec' schedule (start E p sm)))
                   + all_incs_of E Skipped (subs E (exec' schedule (start E p sm)))
                   <= length (subs E (exec' schedule (start E p sm)))).
    { apply all_incs_at_most. unfold wf in Hwf.
      eapply Forall_impl; [exact Hwf|]. cbn. intros sub (_ & Hinv & _).
      exact (inv_incs_once _ _ Hinv). }
    cbn [start shared counters]. lia.
Qed.

End InstancesMore.

(** ** The statements above on examples *)

(** Creating the namespace [forbidden] is denied: the setup has failed, and
    [FailNow] is the last thing it did. *)
Lemma setup_fails_iff_witness :
  last (Processors.trace Fixtures.externals
          (fst (Processors.Run_setup Fixtures.externals
                  (Fixtures.processor "forbidden" false []) None
                  (Processors.initial Fixtures.externals []))))
  = Some (Processors.EvFailNow Fixtures.externals).
Proof.
  apply (proj2 (proj2 (setup_fails_iff Fixtures.externals
                         (Fixtures.processor "forbidden" false []) None []))).
  reflexivity.
Defined.

(** The namespace [unreachable] cannot be fetched: the setup stops there. *)
Lemma fetch_error_fatal_witness :
  let w := Processors.setup_run Examples.externals
             (Examples.processor "unreachable" false false []) None [] in
  Processors.failed Examples.externals w = true
  /\ (forall o err,
         ~ In (Processors.EvCreate Examples.externals o err)
              (Processors.trace Examples.externals w))
  /\ Processors.cluster Examples.externals w = [].
Proof.
  cbv zeta.
  destruct (fetch_error_fatal Examples.externals
              (Examples.processor "unreachable" false false []) None []
              "unreachable" "connection refused" (or_introl eq_refl))
    as (_ & Hfailed & _ & Hcreate & _ & Hcluster).
  split; [exact Hfailed|]. split; [exact Hcreate | exact Hcluster].
Defined.

(** With the skip-delete policy the absent namespace [ns] is created and
    never deleted. *)
Lemma not_found_skip_delete_witness :
  let w := Processors.setup_run Examples.externals
             (Examples.processor "ns" true false []) None [] in
  (exists err,
      In (Processors.EvCreate Examples.externals "ns" err)
         (Processors.trace Examples.externals w))
  /\ (forall o,
         ~ In (Processors.EvRunCleanup Examples.externals
                 (Processors.DeleteNamespace Examples.externals o))
              (Processors.trace Examples.externals
                 (Processors.scope_exit Examples.externals w))).
Proof.
  cbv zeta.
  destruct (not_found_skip_delete Examples.externals
              (Examples.processor "ns" true false []) None [] "ns"
              (or_introl eq_refl) eq_refl)
    as (Hcreate & _ & _ & Hexit).
  split; [exact Hcreate | exact Hexit].
Defined.

(** Without a namespace name the cluster is not contacted. *)
Lemma no_provisioning_witness :
  let w := Processors.setup_run Fixtures.externals
             (Fixtures.processor "" false []) None ["ns"] in
  (forall o err,
      ~ In (Processors.EvGet Fixtures.externals o err)
           (Processors.trace Fixtures.externals w))
  /\ Processors.cluster Fixtures.externals w = ["ns"].
Proof.
  cbv zeta.
  destruct (no_provisioning Fixtures.externals (Fixtures.processor "" false [])
              None ["ns"] tt (Some tt) eq_refl (or_intror eq_refl))
    as (Hget & _ & _ & Hcluster & _).
  split; [exact Hget | exact Hcluster].
Defined.

(** The create of the absent namespace [ns] follows its fetch. *)
Lemma create_follows_not_found_witness :
  exists before after,
    Processors.trace Fixtures.externals
      (Processors.setup_run Fixtures.externals (Fixtures.processor "ns" false [])
         None [])
    = before
      ++ Processors.EvGet Fixtures.externals "ns" (Some Processors.NotFound) :: after
    /\ In (Processors.EvCreate Fixtures.externals "ns" None) after.
Proof.
  destruct (proj1 (create_follows_not_found Fixtures.externals
                     (Fixtures.processor "ns" false []) None [])
              "ns" None (or_intror (or_intror (or_introl eq_refl))))
    as (before & after & Htrace & Hin & _).
  exists before, after. split; [exact Htrace | exact Hin].
Defined.

(** With a report the namespace [ns] is deleted before the end time of the
    report is set. *)
Lemma report_end_time_last_witness :
  let w := Processors.setup_run Examples.externals
             (Examples.processor "ns" false true []) None [] in
  exists before,
    Processors.trace Examples.externals (Processors.scope_exit Examples.externals w)
    = before
      ++ [Processors.EvRunCleanup Examples.externals
            (Processors.ReportSetEndTime Examples.externals)]
    /\ In (Processors.EvRunCleanup Examples.externals
             (Processors.DeleteNamespace Examples.externals "ns")) before.
Proof.
  cbv zeta.
  destruct (report_end_time_last Examples.externals
              (Examples.processor "ns" false true []) None [] eq_refl)
    as (before & Htrace & _ & Hdelete).
  exists before. split; [exact Htrace|].
  apply Hdelete. left. reflexivity.
Defined.


(** The second instance of a test with two scenarios is its own sole
    instance. *)
Lemma scenarios_idempotent_witness :
  exists inst,
    Processors.scenarios Fixtures.externals
      (Fixtures.a_test "ok" None ["b1"] [["s1"]; ["s2"]]) !! 1 = Some inst
    /\ Processors.scenarios Fixtures.externals inst = [inst].
Proof.
  destruct (Processors.scenarios Fixtures.externals
              (Fixtures.a_test "ok" None ["b1"] [["s1"]; ["s2"]]) !! 1)
    as [inst|] eqn:Hinst; [|vm_compute in Hinst; discriminate Hinst].
  exists inst. split; [reflexivity|].
  apply (scenarios_idempotent Fixtures.externals
           (Fixtures.a_test "ok" None ["b1"] [["s1"]; ["s2"]])).
  vm_compute in Hinst. injection Hinst as <-. right. left. reflexivity.
Defined.

(** The second instance of a skipped test with two scenarios has the
    metadata and the [Skip] flag of the test. *)
Lemma scenarios_inherit_witness :
  exists inst d,
    Processors.scenarios Fixtures.externals
      (Fixtures.a_test "ok" (Some true) ["b1"] [["s1"]; ["s2"]]) !! 1 = Some inst
    /\ Processors.Test inst = Some d
    /\ Processors.Test_ObjectMeta d = "ok"
    /\ Processors.Skip (Processors.Spec d) = Some true.
Proof.
  destruct (Processors.scenarios Fixtures.externals
              (Fixtures.a_test "ok" (Some true) ["b1"] [["s1"]; ["s2"]]) !! 1)
    as [inst|] eqn:Hinst; [|vm_compute in Hinst; discriminate Hinst].
  destruct (scenarios_inherit Fixtures.externals
              (Fixtures.a_test "ok" (Some true) ["b1"] [["s1"]; ["s2"]]) inst _
              eq_refl)
    as (_ & d & Hd & Hmeta & Hskip & _).
  - vm_compute in Hinst. injection Hinst as <-. right. left. reflexivity.
  - exists inst, d. split; [reflexivity|]. split; [exact Hd|].
    split; [exact Hmeta | exact Hskip].
Defined.

(** The fourth launched instance of the three tests is the sole instance of
    the third. *)
Lemma launched_sound_witness :
  exists inst discovered,
    fst (Processors.launched Fixtures.externals (Fixtures.configuration "" true) 0
           Fixtures.three_tests) !! 3 = Some inst
    /\ Fixtures.three_tests !! Processors.i Fixtures.externals inst = Some discovered
    /\ Processors.scenarios Fixtures.externals discovered
         !! Processors.s Fixtures.externals inst
       = Some (Processors.test Fixtures.externals inst).
Proof.
  destruct (fst (Processors.launched Fixtures.externals
                   (Fixtures.configuration "" true) 0 Fixtures.three_tests) !! 3)
    as [inst|] eqn:Hinst; [|vm_compute in Hinst; discriminate Hinst].
  destruct (launched_sound Fixtures.externals (Fixtures.configuration "" true)
              Fixtures.three_tests inst)
    as (discovered & Hat & _ & Hscenario).
  - vm_compute in Hinst. injection Hinst as <-. do 3 right. left. reflexivity.
  - exists inst, discovered. split; [reflexivity|].
    split; [exact Hat | exact Hscenario].
Defined.

(** The display name of the second of three tests cannot be computed: only
    the first test is launched. *)
Lemma launched_stops_at_name_error_witness :
  let tests := [Fixtures.a_test "ok" None [] [["s1"]; ["s2"]];
                Fixtures.a_test "bad" None [] [];
                Fixtures.a_test "late" None [] []] in
  let run := Processors.launched Examples.externals
               (Fixtures.configuration "" true) 0 tests in
  snd run = true
  /\ forall inst, In inst (fst run) -> Processors.i Examples.externals inst < 1.
Proof.
  cbv zeta.
  destruct (launched_stops_at_name_error Examples.externals
              (Fixtures.configuration "" true)
              [Fixtures.a_test "ok" None [] [["s1"]; ["s2"]];
               Fixtures.a_test "bad" None [] [];
               Fixtures.a_test "late" None [] []])
    as [Hexit Hbefore].
  split.
  - apply Hexit. apply Exists_cons_tl, Exists_cons_hd. reflexivity.
  - intros inst. apply (Hbefore 1 (Fixtures.a_test "bad" None [] []));
      reflexivity.
Defined.

(** The two instances of the second of the three tests come in the order of
    their scenarios. *)
Lemma launched_increasing_witness :
  exists x y,
    fst (Processors.launched Fixtures.externals (Fixtures.configuration "" true) 0
           Fixtures.three_tests) !! 1 = Some x
    /\ fst (Processors.launched Fixtures.externals (Fixtures.configuration "" true) 0
              Fixtures.three_tests) !! 2 = Some y
    /\ (Processors.i Fixtures.externals x < Processors.i Fixtures.externals y
        \/ (Processors.i Fixtures.externals x = Processors.i Fixtures.externals y
            /\ Processors.s Fixtures.externals x < Processors.s Fixtures.externals y)).
Proof.
  destruct (fst (Processors.launched Fixtures.externals
                   (Fixtures.configuration "" true) 0 Fixtures.three_tests) !! 1)
    as [x|] eqn:Hx; [|vm_compute in Hx; discriminate Hx].
  destruct (fst (Processors.launched Fixtures.externals
                   (Fixtures.configuration "" true) 0 Fixtures.three_tests) !! 2)
    as [y|] eqn:Hy; [|vm_compute in Hy; discriminate Hy].
  exists x, y. split; [reflexivity|]. split; [reflexivity|].
  apply (launched_increasing Fixtures.externals (Fixtures.configuration "" true)
           Fixtures.three_tests 1 2 x y); [lia | exact Hx | exact Hy].
Defined.

(** With fail-fast, once the first of three tests has failed and completed,
    the flag is set, and an instance that failed has stored into it. *)
Lemma flag_set_by_failure_witness :
  let p := Fixtures.processor "" true Fixtures.three_tests in
  let r := Processors.exec Fixtures.externals p [] None [0; 0; 1; 1; 0; 0; 0; 0]
             (Processors.start Fixtures.externals p Fixtures.no_counts) in
  exists k sub,
    Processors.subs Fixtures.externals r !! k = Some sub
    /\ Processors.Failed_ (Processors.t_ Fixtures.externals sub) = true
    /\ Processors.stored (Processors.log (Processors.t_ Fixtures.externals sub)) = true.
Proof.
  cbv zeta.
  apply (flag_set_by_failure Fixtures.externals
           (Fixtures.processor "" true Fixtures.three_tests) [] None
           Fixtures.no_counts [0; 0; 1; 1; 0; 0; 0; 0]).
  vm_compute. reflexivity.
Defined.

(** Without fail-fast, after the failure of the first test, the instance
    of the test to skip completes without running the processor and is
    counted as skipped; the instances before it have run. *)
Lemma no_fail_fast_runs_all_witness :
  let p := Fixtures.processor "" false Fixtures.three_tests in
  let schedule := [0; 0; 0; 0; 0; 0; 1; 1; 1; 1; 1; 1; 2; 2; 2; 2; 2; 2;
                   3; 3; 3; 3; 3; 3] in
  let r := Processors.exec Fixtures.externals p [] None schedule
             (Processors.start Fixtures.externals p Fixtures.no_counts) in
  (exists sub,
      Processors.subs Fixtures.externals r !! 3 = Some sub
      /\ Processors.ran (Processors.log (Processors.t_ Fixtures.externals sub)) = false
      /\ Processors.verdict (Processors.t_ Fixtures.externals sub) = Processors.Skipped)
  /\ (exists sub,
         Processors.subs Fixtures.externals r !! 1 = Some sub
         /\ Processors.ran (Processors.log (Processors.t_ Fixtures.externals sub)) = true
         /\ Processors.verdict (Processors.t_ Fixtures.externals sub)
            = Processors.Passed).
Proof.
  cbv zeta. split.
  - destruct (Processors.subs Fixtures.externals
                (Processors.exec Fixtures.externals
                   (Fixtures.processor "" false Fixtures.three_tests) [] None
                   [0; 0; 0; 0; 0; 0; 1; 1; 1; 1; 1; 1; 2; 2; 2; 2; 2; 2;
                    3; 3; 3; 3; 3; 3]
                   (Processors.start Fixtures.externals
                      (Fixtures.processor "" false Fixtures.three_tests)
                      Fixtures.no_counts)) !! 3) as [sub|] eqn:Hk;
      [|vm_compute in Hk; discriminate Hk].
    assert (Hfacts :
              Processors.at_ (Processors.t_ Fixtures.externals sub) = Processors.Done
              /\ Processors.skip_requested Fixtures.externals
                   (Processors.inst_ Fixtures.externals sub) = true
              /\ Derived.expected_verdict Fixtures.externals [] None
                   (Processors.inst_ Fixtures.externals sub) = Processors.Skipped).
    { vm_compute in Hk. injection Hk as <-. repeat split; reflexivity. }
    destruct Hfacts as (Hdone & Hskip & Hexpected).
    destruct (no_fail_fast_runs_all Fixtures.externals
                (Fixtures.processor "" false Fixtures.three_tests) [] None
                Fixtures.no_counts _ 3 sub eq_refl Hk Hdone) as [Hran Hverdict].
    rewrite Hskip in Hran. rewrite Hexpected in Hverdict.
    exists sub. split; [reflexivity|]. split; [exact Hran | exact Hverdict].
  - destruct (Processors.subs Fixtures.externals
                (Processors.exec Fixtures.externals
                   (Fixtures.processor "" false Fixtures.three_tests) [] None
                   [0; 0; 0; 0; 0; 0; 1; 1; 1; 1; 1; 1; 2; 2; 2; 2; 2; 2;
                    3; 3; 3; 3; 3; 3]
                   (Processors.start Fixtures.externals
                      (Fixtures.processor "" false Fixtures.three_tests)
                      Fixtures.no_counts)) !! 1) as [sub|] eqn:Hk;
      [|vm_compute in Hk; discriminate Hk].
    assert (Hfacts :
              Processors.at_ (Processors.t_ Fixtures.externals sub) = Processors.Done
              /\ Processors.skip_requested Fixtures.externals
                   (Processors.inst_ Fixtures.externals sub) = false
              /\ Derived.expected_verdict Fixtures.externals [] None
                   (Processors.inst_ Fixtures.externals sub) = Processors.Passed).
    { vm_compute in Hk. injection Hk as <-. repeat split; reflexivity. }
    destruct Hfacts as (Hdone & Hskip & Hexpected).
    destruct (no_fail_fast_runs_all Fixtures.externals
                (Fixtures.processor "" false Fixtures.three_tests) [] None
                Fixtures.no_counts _ 1 sub eq_refl Hk Hdone) as [Hran Hverdict].
    rewrite Hskip in Hran. rewrite Hexpected in Hverdict.
    exists sub. split; [reflexivity|]. split; [exact Hran | exact Hverdict].
Defined.

(** The per-test processor leaves the test [flaky] both failed and skipped:
    it is counted as skipped and the flag is set. *)
Lemma failed_and_skipped_witness :
  let p := Examples.processor "" false false [Fixtures.a_test "flaky" None [] []] in
  let r := Processors.exec Examples.externals p [] None [0; 0; 0; 0; 0; 0]
             (Processors.start Examples.externals p Fixtures.no_counts) in
  (exists sub,
      Processors.subs Examples.externals r !! 0 = Some sub
      /\ Processors.incs (Processors.log (Processors.t_ Examples.externals sub))
         = [Processors.Skipped])
  /\ Processors.shouldFailFast (Processors.shared Examples.externals r) = true.
Proof.
  cbv zeta.
  destruct (Processors.subs Examples.externals
              (Processors.exec Examples.externals
                 (Examples.processor "" false false
                    [Fixtures.a_test "flaky" None [] []]) [] None [0; 0; 0; 0; 0; 0]
                 (Processors.start Examples.externals
                    (Examples.processor "" false false
                       [Fixtures.a_test "flaky" None [] []])
                    Fixtures.no_counts)) !! 0) as [sub|] eqn:Hk;
    [|vm_compute in Hk; discriminate Hk].
  assert (Hfacts :
            Processors.at_ (Processors.t_ Examples.externals sub) = Processors.Done
            /\ Processors.Failed_ (Processors.t_ Examples.externals sub) = true
            /\ Processors.Skipped_ (Processors.t_ Examples.externals sub) = true).
  { vm_compute in Hk. injection Hk as <-. repeat split; reflexivity. }
  destruct Hfacts as (Hdone & Hfailed & Hskipped).
  destruct (failed_and_skipped Examples.externals
              (Examples.processor "" false false [Fixtures.a_test "flaky" None [] []])
              [] None Fixtures.no_counts _ 0 sub eq_refl Hk Hdone Hfailed Hskipped)
    as [Hincs Hflag].
  split; [|exact Hflag].
  exists sub. split; [reflexivity | exact Hincs].
Defined.

(** Three tests, four instances, run to completion without fail-fast: two of
    them are counted as passed, whatever the order. *)
Lemma final_counters_without_fail_fast_witness :
  let p := Fixtures.processor "" false Fixtures.three_tests in
  let schedule := [3; 2; 1; 0; 0; 1; 2; 3; 3; 3; 2; 2; 1; 1; 0; 0; 0; 1; 2; 3;
                   3; 2; 1; 0; 0; 1; 2; 3] in
  let r := Processors.exec Fixtures.externals p [] None schedule
             (Processors.start Fixtures.externals p Fixtures.no_counts) in
  Processors.count Processors.Passed
    (Processors.counters (Processors.shared Fixtures.externals r)) = 2.
Proof.
  cbv zeta.
  rewrite (final_counters_without_fail_fast Fixtures.externals
             (Fixtures.processor "" false Fixtures.three_tests) [] None
             Fixtures.no_counts).
  - vm_compute. reflexivity.
  - reflexivity.
  - reflexivity.
  - vm_compute. repeat constructor.
Defined.
